(** * A local replacement for the SenseCAP Watcher cloud service

    Shallow embedding of the request handlers of the Go server
    (package [handlers]), of its store (package [database]), of its
    middleware, configuration and routes (packages [middleware], [config]
    and [main]) and of the parts of Go's [strings], [strconv] and
    [encoding/json] packages the handlers call, followed by the
    properties the specification states about them and by further
    properties of the code.

    Conventions.
    - A Go [string] is a byte sequence: Rocq's [string], one [ascii] per
      byte.  A [[]byte] is a [list byte].
    - A Go [int] is a [Z]; a [time.Time] is a [Z], nanoseconds since the
      epoch.
    - A Go [(T, error)] result is a [Result T]: the error's text is kept.
    - The three upstream services (Whisper, Ollama, Piper) are functions of
      the request they receive: an [Upstream] reply says whether the POST
      went through, the status code, and the decoded payload.
    - The SQLite store is a [DB] value threaded through the handlers; the
      clock ([time.Now]) is an argument.
    - Logging is left out, except where a logging function can panic:
      nothing else a handler does depends on it.
    - Character classes are the ASCII ones: [strings.TrimSpace] and
      [strings.ToLower] are embedded on their ASCII path, bytes from 0x80
      up are kept as they are. *)

From Stdlib Require Import ZArith List Strings.String Strings.Ascii Strings.Byte Bool Lia.
From Stdlib Require Import Sorting.Sorted Sorting.Permutation.
From Stdlib Require Import DecimalString.
From Stdlib Require Import Floats.
Import ListNotations.

Local Open Scope string_scope.
Local Open Scope list_scope.
Local Open Scope Z_scope.

Set Implicit Arguments.

(** * The embedding *)

(** ** Results of fallible Go functions *)

Inductive Result (A : Type) : Type :=
| Ok (a : A)
| Err (msg : string).

Arguments Ok {A} a.
Arguments Err {A} msg.

(** [fmt.Sprintf] with [%s] verbs only: the pieces, in order. *)
Definition Sprintf (pieces : list string) : string :=
  String.concat EmptyString pieces.

(** The double quote, which a literal cannot hold. *)
Definition dq : string := String "034"%char EmptyString.

(** The characters of a string, as a list. *)
Definition chars (s : string) : list ascii := list_ascii_of_string s.

(** ** Package [strings] *)

Module strings.

(** [asciiSpace]: tab, newline, vertical tab, form feed, carriage return
    and space. *)
Definition asciiSpace (c : ascii) : bool :=
  (c =? "009")%char || (c =? "010")%char || (c =? "011")%char ||
  (c =? "012")%char || (c =? "013")%char || (c =? " ")%char.

(** Membership of a byte in a cutset ([asciiSet.contains]). *)
Definition inCutset (cutset : string) (c : ascii) : bool :=
  existsb (Ascii.eqb c) (chars cutset).

Fixpoint TrimLeftFunc (f : ascii -> bool) (s : string) : string :=
  match s with
  | EmptyString => EmptyString
  | String c s' => if f c then TrimLeftFunc f s' else s
  end.

Fixpoint TrimRightFunc (f : ascii -> bool) (s : string) : string :=
  match s with
  | EmptyString => EmptyString
  | String c s' =>
      match TrimRightFunc f s' with
      | EmptyString => if f c then EmptyString else String c EmptyString
      | t => String c t
      end
  end.

(** [strings.TrimSpace]: the leading white space goes first, then the
    trailing.  The white space is [asciiSpace], which is what Go cuts
    from a text of ASCII bytes; from other text it also cuts the
    white-space runes from U+0085 up. *)
Definition TrimSpace (s : string) : string :=
  TrimRightFunc asciiSpace (TrimLeftFunc asciiSpace s).

(** [strings.Trim] with an ASCII cutset: [trimLeftASCII (trimRightASCII s)]. *)
Definition Trim (s cutset : string) : string :=
  TrimLeftFunc (inCutset cutset) (TrimRightFunc (inCutset cutset) s).

Definition TrimRight (s cutset : string) : string :=
  TrimRightFunc (inCutset cutset) s.

Fixpoint HasPrefix (s prefix : string) : bool :=
  match prefix, s with
  | EmptyString, _ => true
  | String _ _, EmptyString => false
  | String p prefix', String c s' => (c =? p)%char && HasPrefix s' prefix'
  end.

(** [strings.Contains s substr]: [substr] starts at some index of [s]. *)
Fixpoint Contains (s substr : string) : bool :=
  HasPrefix s substr ||
  match s with
  | EmptyString => false
  | String _ s' => Contains s' substr
  end.

(** [A]..[Z] to [a]..[z]; any other byte is kept. *)
Definition toLowerByte (c : ascii) : ascii :=
  let n := N_of_ascii c in
  if ((65 <=? n) && (n <=? 90))%N then ascii_of_N (n + 32) else c.

(** [strings.ToLower] as it is on a text of ASCII bytes, the letters
    [A]..[Z] lowered in place; on other text Go maps [unicode.ToLower]
    over the runes and lowers letters outside ASCII too. *)
Fixpoint ToLower (s : string) : string :=
  match s with
  | EmptyString => EmptyString
  | String c s' => String (toLowerByte c) (ToLower s')
  end.

Definition Join (elems : list string) (sep : string) : string :=
  String.concat sep elems.

(** Does the first (the last) byte of [s] satisfy [f]? *)
Definition startsWith (f : ascii -> bool) (s : string) : bool :=
  match s with
  | EmptyString => false
  | String c _ => f c
  end.

Fixpoint endsWith (f : ascii -> bool) (s : string) : bool :=
  match s with
  | EmptyString => false
  | String c EmptyString => f c
  | String _ s' => endsWith f s'
  end.

End strings.

(** ** Normalisation of LLM replies (audio_stream.go) *)

(** [cleanLLMResponse] removes quotes, extra whitespace, and trailing
    punctuation. *)
Definition cleanLLMResponse (response : string) : string :=
  let result := strings.TrimSpace response in
  let result := strings.Trim result (dq ++ "'")%string in
  let result := strings.TrimRight result ".,!?;:" in
  let result := strings.TrimSpace result in
  result.

(** ** Package [strconv] *)

Module strconv.

(** [strconv.Itoa], also [fmt.Sprintf] with the verb [%d]. *)
Definition Itoa (n : Z) : string := NilZero.string_of_int (Z.to_int n).

End strconv.

(** ** Package [unicode/utf8] *)

Module utf8.

(** One step of [utf8.DecodeRuneInString] over a whole string: a valid
    encoding with its bytes, or one byte that starts none. *)
Inductive Item : Type :=
| Rune (bytes : string)
| Invalid.

(** A multi-byte encoding under way: the bytes read, how many are still
    due, and the range the next one must lie in. *)
Record Pending : Type := mkPending {
  seen : string;
  due : nat;
  lo : N;
  hi : N
}.

(** The first byte of an encoding ([utf8.first] and [acceptRanges]). *)
Definition lead (c : ascii) : option Pending :=
  let n := N_of_ascii c in
  let p := mkPending (String c EmptyString) in
  if ((194 <=? n) && (n <=? 223))%N then Some (p 1%nat 128 191)%N
  else if (n =? 224)%N then Some (p 2%nat 160 191)%N
  else if (((225 <=? n) && (n <=? 236)) || ((238 <=? n) && (n <=? 239)))%N
       then Some (p 2%nat 128 191)%N
  else if (n =? 237)%N then Some (p 2%nat 128 159)%N
  else if (n =? 240)%N then Some (p 3%nat 144 191)%N
  else if ((241 <=? n) && (n <=? 243))%N then Some (p 3%nat 128 191)%N
  else if (n =? 244)%N then Some (p 3%nat 128 143)%N
  else None.

(** The bytes of an abandoned encoding each start no rune. *)
Definition abandon (p : option Pending) : list Item :=
  match p with
  | None => []
  | Some q => repeat Invalid (String.length (seen q))
  end.

Definition fresh (c : ascii) : list Item * option Pending :=
  if (N_of_ascii c <? 128)%N then ([Rune (String c EmptyString)], None)
  else match lead c with
       | Some q => ([], Some q)
       | None => ([Invalid], None)
       end.

Definition step (p : option Pending) (c : ascii) : list Item * option Pending :=
  match p with
  | None => fresh c
  | Some q =>
      let n := N_of_ascii c in
      if ((lo q <=? n) && (n <=? hi q))%N then
        let bytes := (seen q ++ String c EmptyString)%string in
        match due q with
        | S (S k) => ([], Some (mkPending bytes (S k) 128 191))
        | _ => ([Rune bytes], None)
        end
      else
        let (out, p') := fresh c in (abandon p ++ out, p')
  end.

Fixpoint itemsFrom (p : option Pending) (s : string) : list Item :=
  match s with
  | EmptyString => abandon p
  | String c s' => let (out, p') := step p c in out ++ itemsFrom p' s'
  end.

Definition items (s : string) : list Item := itemsFrom None s.

(** [utf8.AppendRune] for a code point below 0x110000. *)
Definition EncodeRune (r : N) : string :=
  let b (n : N) := String (ascii_of_N n) EmptyString in
  (if r <? 128 then b r
   else if r <? 2048 then b (192 + r / 64) ++ b (128 + r mod 64)
   else if r <? 65536 then
     b (224 + r / 4096) ++ b (128 + (r / 64) mod 64) ++ b (128 + r mod 64)
   else
     b (240 + r / 262144) ++ b (128 + (r / 4096) mod 64) ++
     b (128 + (r / 64) mod 64) ++ b (128 + r mod 64))%N%string.

(** U+FFFD, [unicode.ReplacementChar]. *)
Definition RuneError : N := 65533%N.

(** What a decoder that substitutes U+FFFD makes of a byte string. *)
Definition ToValid (s : string) : string :=
  String.concat EmptyString
    (map (fun i => match i with Rune bytes => bytes | Invalid => EncodeRune RuneError end)
         (items s)).

End utf8.

(** ** Package [encoding/json] (Go 1.21)

    The values the handlers marshal, [json.Marshal] with its default HTML
    escaping, and [json.Unmarshal] into a [[]string]. *)

Module json.

(** What the handlers hand to the encoder: a [map[string]interface{}] is a
    [Map] (the encoder sorts its keys), a struct is a [Struct] (its fields
    in declaration order, those left out by [omitempty] apart), a
    [float64] is a [Number] (the literal the encoder writes for it). *)
#[warnings="-register-all"]
Inductive Value : Type :=
| Null
| Int (n : Z)
| Number (literal : string)
| Str (s : string)
| Slice (elems : list Value)
| Map (entries : list (string * Value))
| Struct (fields : list (string * Value)).

Definition hex (n : N) : string :=
  match String.get (N.to_nat n) "0123456789abcdef" with
  | Some c => String c EmptyString
  | None => EmptyString
  end.

(** [htmlSafeSet]: the ASCII bytes copied as they are. *)
Definition htmlSafe (c : ascii) : bool :=
  let n := N_of_ascii c in
  ((32 <=? n) && (n <? 128))%N &&
  negb ((c =? "034")%char || (c =? "&")%char || (c =? "<")%char ||
        (c =? ">")%char || (c =? "\")%char).

Definition escapeASCII (c : ascii) : string :=
  if htmlSafe c then String c EmptyString
  else if ((c =? "\")%char || (c =? "034")%char)%bool then String "\" (String c EmptyString)
  else if (c =? "010")%char then "\n"
  else if (c =? "013")%char then "\r"
  else if (c =? "009")%char then "\t"
  else ("\u00" ++ hex (N_of_ascii c / 16) ++ hex (N_of_ascii c mod 16))%string.

Definition escapeItem (i : utf8.Item) : string :=
  match i with
  | utf8.Invalid => "\ufffd"
  | utf8.Rune (String c EmptyString) => escapeASCII c
  | utf8.Rune bytes =>
      if (bytes =? utf8.EncodeRune 8232)%string then "\u2028"
      else if (bytes =? utf8.EncodeRune 8233)%string then "\u2029"
      else bytes
  end.

(** [appendString]: a string literal. *)
Definition quote (s : string) : string :=
  (dq ++ String.concat EmptyString (map escapeItem (utf8.items s)) ++ dq)%string.

Fixpoint insertEntry {A : Type} (e : string * A) (l : list (string * A)) : list (string * A) :=
  match l with
  | [] => [e]
  | x :: l' => if (fst e <=? fst x)%string then e :: l else x :: insertEntry e l'
  end.

(** The encoder writes a map's entries by increasing key. *)
Definition sortEntries {A : Type} (l : list (string * A)) : list (string * A) :=
  fold_right insertEntry [] l.

Definition object (encoded : list (string * string)) : string :=
  ("{" ++ String.concat "," (map (fun e => quote (fst e) ++ ":" ++ snd e) encoded) ++ "}")%string.

Fixpoint encode (v : Value) : string :=
  match v with
  | Null => "null"
  | Int n => strconv.Itoa n
  | Number literal => literal
  | Str s => quote s
  | Slice elems => ("[" ++ String.concat "," (map encode elems) ++ "]")%string
  | Map entries =>
      object (sortEntries (map (fun e => match e with (k, x) => (k, encode x) end) entries))
  | Struct fields =>
      object (map (fun e => match e with (k, x) => (k, encode x) end) fields)
  end.

(** [json.Marshal] of such a value; it returns no error on them. *)
Definition Marshal (v : Value) : Result string := Ok (encode v).

(** The member [k] of an object, the element [i] of an array. *)
Definition member (k : string) (v : Value) : option Value :=
  match v with
  | Map l | Struct l =>
      match find (fun e => (fst e =? k)%string) l with
      | Some e => Some (snd e)
      | None => None
      end
  | _ => None
  end.

Definition element (i : nat) (v : Value) : option Value :=
  match v with
  | Slice l => nth_error l i
  | _ => None
  end.

(** *** Decoding a JSON text into a [[]string]

    The decoder reads the text one byte at a time.  It accepts [null] and
    an array whose elements are string literals or [null] (an element
    [null] leaves the empty string); any other text, JSON or not, is an
    error, as it is for [json.Unmarshal] into a [*[]string]. *)

Inductive State : Type :=
| Start
| Literal (rest : string) (acc : option (list string))
| Open
| Next (acc : list string)
| InString (acc : list string) (cur : string) (high : option N)
| Escape (acc : list string) (cur : string) (high : option N)
| Unicode (acc : list string) (cur : string) (high : option N) (digits : list N)
| After (acc : list string)
| Done (v : list string)
| Failed.

Definition isSpace (c : ascii) : bool :=
  (c =? " ")%char || (c =? "009")%char || (c =? "013")%char || (c =? "010")%char.

Definition hexValue (c : ascii) : option N :=
  let n := N_of_ascii c in
  if ((48 <=? n) && (n <=? 57))%N then Some (n - 48)%N
  else if ((97 <=? n) && (n <=? 102))%N then Some (n - 87)%N
  else if ((65 <=? n) && (n <=? 70))%N then Some (n - 55)%N
  else None.

Definition isHighSurrogate (r : N) : bool := ((55296 <=? r) && (r <? 56320))%N.
Definition isLowSurrogate (r : N) : bool := ((56320 <=? r) && (r <? 57344))%N.

(** A high surrogate that no low surrogate followed is U+FFFD. *)
Definition settle (cur : string) (high : option N) : string :=
  match high with
  | Some _ => (cur ++ utf8.EncodeRune utf8.RuneError)%string
  | None => cur
  end.

Definition push (cur : string) (c : ascii) : string :=
  (cur ++ String c EmptyString)%string.

(** The code point of a [\uXXXX] escape read on its own. *)
Definition escaped (acc : list string) (cur : string) (r : N) : State :=
  if isHighSurrogate r then InString acc cur (Some r)
  else if isLowSurrogate r then InString acc (cur ++ utf8.EncodeRune utf8.RuneError)%string None
  else InString acc (cur ++ utf8.EncodeRune r)%string None.

Definition step (st : State) (c : ascii) : State :=
  match st with
  | Start =>
      if isSpace c then Start
      else if (c =? "[")%char then Open
      else if (c =? "n")%char then Literal "ull" None
      else Failed
  | Literal EmptyString _ => Failed
  | Literal (String x rest) acc =>
      if (c =? x)%char then
        match rest, acc with
        | EmptyString, None => Done []
        | EmptyString, Some l => After (l ++ [EmptyString])
        | _, _ => Literal rest acc
        end
      else Failed
  | Open =>
      if isSpace c then Open
      else if (c =? "]")%char then Done []
      else if (c =? "034")%char then InString [] EmptyString None
      else if (c =? "n")%char then Literal "ull" (Some [])
      else Failed
  | Next acc =>
      if isSpace c then Next acc
      else if (c =? "034")%char then InString acc EmptyString None
      else if (c =? "n")%char then Literal "ull" (Some acc)
      else Failed
  | InString acc cur high =>
      if (c =? "034")%char then After (acc ++ [utf8.ToValid (settle cur high)])
      else if (c =? "\")%char then Escape acc cur high
      else if (N_of_ascii c <? 32)%N then Failed
      else InString acc (push (settle cur high) c) None
  | Escape acc cur high =>
      let plain (x : ascii) := InString acc (push (settle cur high) x) None in
      if (c =? "u")%char then Unicode acc cur high []
      else if ((c =? "034")%char || (c =? "\")%char || (c =? "/")%char)%bool then plain c
      else if (c =? "b")%char then plain "008"%char
      else if (c =? "f")%char then plain "012"%char
      else if (c =? "n")%char then plain "010"%char
      else if (c =? "r")%char then plain "013"%char
      else if (c =? "t")%char then plain "009"%char
      else Failed
  | Unicode acc cur high digits =>
      match hexValue c with
      | None => Failed
      | Some d =>
          match digits with
          | [d1; d2; d3] =>
              let r := (((d1 * 16 + d2) * 16 + d3) * 16 + d)%N in
              match high with
              | Some h =>
                  if isLowSurrogate r then
                    InString acc
                      (cur ++ utf8.EncodeRune (65536 + (h - 55296) * 1024 + (r - 56320)))%N%string
                      None
                  else escaped acc (settle cur high) r
              | None => escaped acc cur r
              end
          | _ => Unicode acc cur high (digits ++ [d])
          end
      end
  | After acc =>
      if isSpace c then After acc
      else if (c =? ",")%char then Next acc
      else if (c =? "]")%char then Done acc
      else Failed
  | Done v => if isSpace c then Done v else Failed
  | Failed => Failed
  end.

Fixpoint run (st : State) (data : string) : State :=
  match data with
  | EmptyString => st
  | String c data' => run (step st c) data'
  end.

(** [json.Unmarshal(data, &v)] for [v] a nil [[]string]. *)
Definition UnmarshalStrings (data : string) : Result (list string) :=
  match run Start data with
  | Done v => Ok v
  | _ => Err "json: cannot unmarshal into Go value of type []string"
  end.

(** [json.Marshal] of a [[]string]. *)
Definition MarshalStrings (v : list string) : Result string :=
  Marshal (Slice (map Str v)).

End json.

(** ** Package [database] (database/database.go)

    The two SQLite tables are lists of rows in insertion order, each with
    the last identifier its [AUTOINCREMENT] key handed out.  The store
    itself does not fail: the only error a function returns is the one
    its own code raises. *)

Module database.

(** Modelled from the spec: the field [ModelType] of [database.TaskFlow]
    and its column [model_type], which the handlers write and read but
    the copy of database.go at hand does not declare ("selected on-device
    model kind (enum: Cloud=0, Person=1, Pet=2, Gesture=3)").  The other
    fields are the struct's. *)
Record TaskFlow : Type := mkTaskFlow {
  ID : Z;
  DeviceEUI : string;
  Name : string;
  Headline : string;
  TriggerCondition : string;
  TargetObjects : list string;
  Actions : list string;
  ModelType : Z;
  CreatedAt : Z;
  UpdatedAt : Z
}.

Module NotificationEvent.

Record t : Type := mk {
  ID : Z;
  RequestID : string;
  DeviceEUI : string;
  Timestamp : Z;
  Text : string;
  Img : string;
  InferenceData : string;
  SensorData : string;
  CreatedAt : Z
}.

End NotificationEvent.

(** A row of the table [task_flows]; [target_objects] and [actions] hold
    JSON text, [model_type] is the column of [ModelType]. *)
Module task_flows.

Record row : Type := mk {
  id : Z;
  device_eui : string;
  name : string;
  headline : string;
  trigger_condition : string;
  target_objects : string;
  actions : string;
  model_type : Z;
  created_at : Z;
  updated_at : Z
}.

End task_flows.

(** A row of the table [notification_events]. *)
Module notification_events.

Record row : Type := mk {
  id : Z;
  request_id : string;
  device_eui : string;
  timestamp : Z;
  text : string;
  img : string;
  inference_data : string;
  sensor_data : string;
  created_at : Z
}.

End notification_events.

Record DB : Type := mkDB {
  flows : list task_flows.row;
  flows_seq : Z;
  events : list notification_events.row;
  events_seq : Z
}.

(** The key an [INTEGER PRIMARY KEY AUTOINCREMENT] column gets: one more
    than the largest ever used. *)
Definition nextID (seq : Z) (ids : list Z) : Z :=
  1 + fold_right Z.max seq ids.

(** [ORDER BY key DESC]; rows with equal keys stay in table order. *)
Fixpoint insertDesc {A : Type} (key : A -> Z) (x : A) (l : list A) : list A :=
  match l with
  | [] => [x]
  | y :: l' => if key y <? key x then x :: l else y :: insertDesc key x l'
  end.

Definition orderByDesc {A : Type} (key : A -> Z) (l : list A) : list A :=
  fold_left (fun acc x => insertDesc key x acc) l [].

(** SaveTaskFlow saves a task flow to the database: the two lists as
    JSON text, the instants from the clock, [ModelType] in its column. *)
Definition SaveTaskFlow (now : Z) (taskFlow : TaskFlow) (db : DB) : Result TaskFlow * DB :=
  match json.MarshalStrings (TargetObjects taskFlow) with
  | Err e => (Err ("failed to marshal target objects: " ++ e), db)
  | Ok targetObjectsJSON =>
  match json.MarshalStrings (Actions taskFlow) with
  | Err e => (Err ("failed to marshal actions: " ++ e), db)
  | Ok actionsJSON =>
      let id := nextID (flows_seq db) (map task_flows.id (flows db)) in
      let r := task_flows.mk id (DeviceEUI taskFlow) (Name taskFlow) (Headline taskFlow)
                 (TriggerCondition taskFlow) targetObjectsJSON actionsJSON
                 (ModelType taskFlow) now now in
      (Ok (mkTaskFlow id (DeviceEUI taskFlow) (Name taskFlow) (Headline taskFlow)
             (TriggerCondition taskFlow) (TargetObjects taskFlow) (Actions taskFlow)
             (ModelType taskFlow) now now),
       mkDB (flows db ++ [r]) id (events db) (events_seq db))
  end end.

(** The JSON arrays of a row: on a text that does not parse, the empty
    list. *)
Definition parseArray (text : string) : list string :=
  match json.UnmarshalStrings text with
  | Ok v => v
  | Err _ => []
  end.

(** [rows.Scan] and the two [json.Unmarshal] calls of the read path. *)
Definition scanTaskFlow (r : task_flows.row) : TaskFlow :=
  mkTaskFlow (task_flows.id r) (task_flows.device_eui r) (task_flows.name r)
    (task_flows.headline r) (task_flows.trigger_condition r)
    (parseArray (task_flows.target_objects r)) (parseArray (task_flows.actions r))
    (task_flows.model_type r) (task_flows.created_at r) (task_flows.updated_at r).

(** GetTaskFlowsByDevice retrieves all task flows for a device.  The
    rows come by decreasing [created_at], compared here as instants:
    SQLite compares the stored text of the local time, which orders as
    the instants do while the zone offset of the server stays the same.
    No property below depends on which of the two orders it is. *)
Definition GetTaskFlowsByDevice (deviceEUI : string) (db : DB) : Result (list TaskFlow) :=
  let rows :=
    orderByDesc task_flows.created_at
      (filter (fun r => (task_flows.device_eui r =? deviceEUI)%string) (flows db)) in
  Ok (map scanTaskFlow rows).

(** GetTaskFlowByID retrieves a task flow by ID; [Ok None] is [nil, nil]. *)
Definition GetTaskFlowByID (id : Z) (db : DB) : Result (option TaskFlow) :=
  Ok (option_map scanTaskFlow (find (fun r => task_flows.id r =? id) (flows db))).

(** DeleteTaskFlow deletes a task flow by ID. *)
Definition DeleteTaskFlow (id : Z) (db : DB) : Result unit * DB :=
  let kept := filter (fun r => negb (task_flows.id r =? id)) (flows db) in
  let rows := Z.of_nat (List.length (flows db)) - Z.of_nat (List.length kept) in
  let db' := mkDB kept (flows_seq db) (events db) (events_seq db) in
  if rows =? 0 then (Err ("task flow not found: " ++ strconv.Itoa id), db')
  else (Ok tt, db').

(** SaveNotificationEvent saves a notification event to the database. *)
Definition SaveNotificationEvent (now : Z) (event : NotificationEvent.t) (db : DB)
  : Result NotificationEvent.t * DB :=
  let id := nextID (events_seq db) (map notification_events.id (events db)) in
  let r := notification_events.mk id (NotificationEvent.RequestID event)
             (NotificationEvent.DeviceEUI event) (NotificationEvent.Timestamp event)
             (NotificationEvent.Text event) (NotificationEvent.Img event)
             (NotificationEvent.InferenceData event) (NotificationEvent.SensorData event)
             now in
  (Ok (NotificationEvent.mk id (NotificationEvent.RequestID event)
         (NotificationEvent.DeviceEUI event) (NotificationEvent.Timestamp event)
         (NotificationEvent.Text event) (NotificationEvent.Img event)
         (NotificationEvent.InferenceData event) (NotificationEvent.SensorData event)
         now),
   mkDB (flows db) (flows_seq db) (events db ++ [r]) id).

Definition scanEvent (r : notification_events.row) : NotificationEvent.t :=
  NotificationEvent.mk (notification_events.id r) (notification_events.request_id r)
    (notification_events.device_eui r) (notification_events.timestamp r)
    (notification_events.text r) (notification_events.img r)
    (notification_events.inference_data r) (notification_events.sensor_data r)
    (notification_events.created_at r).

(** GetNotificationEventsByDevice retrieves notification events for a
    device; a negative [LIMIT] is no limit. *)
Definition GetNotificationEventsByDevice (deviceEUI : string) (limit : Z) (db : DB)
  : Result (list NotificationEvent.t) :=
  let rows :=
    orderByDesc notification_events.timestamp
      (filter (fun r => (notification_events.device_eui r =? deviceEUI)%string) (events db)) in
  let rows := if limit <? 0 then rows else firstn (Z.to_nat limit) rows in
  Ok (map scanEvent rows).

(** A new database file: [createTables] on an empty file. *)
Definition empty : DB := mkDB [] 0 [] 0.

End database.

(** ** Package [encoding/base64] *)

Module base64.

Definition alphabet : string :=
  "ABCDEFGHIJKLMNOPQRSTUVWXYZabcdefghijklmnopqrstuvwxyz0123456789+/".

Definition digit (n : N) : string :=
  match String.get (N.to_nat n) alphabet with
  | Some c => String c EmptyString
  | None => EmptyString
  end.

(** [base64.StdEncoding.EncodeToString] *)
Fixpoint EncodeToString (src : list byte) : string :=
  let v (b : byte) := Byte.to_N b in
  match src with
  | [] => EmptyString
  | [a] =>
      (digit (v a / 4) ++ digit ((v a mod 4) * 16) ++ "==")%N%string
  | [a; b] =>
      (digit (v a / 4) ++ digit ((v a mod 4) * 16 + v b / 16) ++
       digit ((v b mod 16) * 4) ++ "=")%N%string
  | a :: b :: c :: rest =>
      (digit (v a / 4) ++ digit ((v a mod 4) * 16 + v b / 16) ++
       digit ((v b mod 16) * 4 + v c / 64) ++ digit (v c mod 64) ++
       EncodeToString rest)%N%string
  end.

End base64.

(** ** Package [models] (models/models.go) *)

Module models.

(** BoundingBox: [x, y, width, height, confidence_score, class_id]. *)
Record BoundingBox : Type := mkBox {
  box_x : Z; box_y : Z; box_w : Z; box_h : Z; box_score : Z; box_target : Z
}.

(** Classification: [confidence_score, class_id]. *)
Record Classification : Type := mkClass {
  class_score : Z; class_target : Z
}.

Record InferenceData : Type := mkInferenceData {
  Boxes : list BoundingBox;
  Classes : list Classification;
  ClassesName : list string
}.

Record SensorData : Type := mkSensorData {
  Temperature : option float;
  Humidity : option Z;
  CO2 : option Z
}.

Record EventData : Type := mkEventData {
  Inference : option InferenceData;
  Sensor : option SensorData
}.

Record Events : Type := mkEvents {
  Timestamp : option Z;
  Text : option string;
  Img : option string;
  Data : option EventData
}.

Record NotificationEventRequest : Type := mkNotificationEventRequest {
  RequestID : string;
  DeviceEUI : string;
  events : Events
}.

Record ImageAnalyzerRequest : Type := mkImageAnalyzerRequest {
  img : string;
  Prompt : string;
  AudioTxt : string;
  type : Z
}.

End models.

(** ** Package [time] *)

Module time.

Definition Second : Z := 1000000000.

(** [int(d.Seconds())], for a duration of whole seconds. *)
Definition wholeSeconds (d : Z) : Z := d / Second.

(** [t.UnixMilli()] *)
Definition UnixMilli (t : Z) : Z := t / 1000000.

End time.

(** ** Package [net/http]: requests, responses, upstream replies *)

Module http.

(** A request: [Header.Get], and the body as the handler comes to see
    it. *)
Record Request (B : Type) : Type := mkRequest {
  Header : string -> string;
  Body : B
}.

(** The body of a request whose handler wants JSON for an [A]:
    [io.ReadAll] failed, [json.Unmarshal] failed, or the value read. *)
Inductive JSONBody (A : Type) : Type :=
| Unreadable
| Malformed
| Decoded (a : A).

Arguments Unreadable {A}.
Arguments Malformed {A}.
Arguments Decoded {A} a.

Record Response : Type := mkResponse {
  StatusCode : Z;
  ResponseHeader : list (string * string);
  ResponseBody : list byte
}.

Definition bytes (s : string) : list byte := list_byte_of_string s.

(** [w.Header().Get] on a response *)
Definition Get (key : string) (r : Response) : option string :=
  option_map snd (find (fun h => (fst h =? key)%string) (ResponseHeader r)).

(** [http.Error] *)
Definition Error (error : string) (code : Z) : Response :=
  mkResponse code
    [("Content-Type", "text/plain; charset=utf-8"); ("X-Content-Type-Options", "nosniff")]
    (bytes (error ++ String "010" EmptyString)).

(** A JSON answer: the header, the status, and
    [json.NewEncoder(w).Encode], which ends the text with a newline. *)
Definition WriteJSON (code : Z) (v : json.Value) : Response :=
  mkResponse code [("Content-Type", "application/json")]
    (bytes (json.encode v ++ String "010" EmptyString)).

(** What [http.Post] to an upstream service came to: no reply, or a
    status with the payload read off the body when it decodes. *)
Inductive Upstream (A : Type) : Type :=
| PostFailed (err : string)
| Replied (status : Z) (payload : option A).

Arguments PostFailed {A} err.
Arguments Replied {A} status payload.

End http.

(** ** Package [handlers] *)

Module handlers.

Import http.

Definition len {A : Type} (l : list A) : Z := Z.of_nat (List.length l).

(** The upstream services a handler calls: Whisper on the captured audio,
    Ollama on a prompt, LLaVA on an image and a prompt, Piper on a text.
    The decoded payloads are the fields [text] and [response] of the JSON
    replies and the raw bytes of the WAV. *)
Record Services : Type := mkServices {
  Whisper : list byte -> Upstream string;
  Ollama : string -> Upstream string;
  LLaVA : string -> string -> Upstream string;
  Piper : string -> Upstream (list byte)
}.

(** *** constants.go *)

Definition TFModuleTypeAICamera : string := "ai camera".
Definition TFModuleTypeImageAnalyzer : string := "image analyzer".
Definition TFModuleTypeLocalAlarm : string := "local alarm".
Definition TFModuleTypeSenseCraftAlarm : string := "sensecraft alarm".
Definition TFModuleAICameraModesInference : Z := 0.
Definition TFModuleAICameraModeAppear : Z := 1.
Definition TFModuleAICameraTypePreset : Z := 2.
Definition TFModuleAICameraOutputBoth : Z := 1.
Definition TFModuleAICameraShutterTriggerConstantly : Z := 0.
Definition TFModuleAICameraConditionsComboAND : Z := 0.
Definition TFModuleImgAnalyzerTypeMonitoring : Z := 1.
Definition DefaultSilenceDuration : Z := 5 * time.Second.
Definition DefaultAlarmDuration : Z := 5 * time.Second.
Definition DefaultNotificationSilence : Z := 30 * time.Second.

(** *** audio_stream.go *)

(** transcribeAudio sends audio to the Python audio service for
    transcription. *)
Definition transcribeAudio (svc : Services) (audioData : list byte) : Result string :=
  match Whisper svc audioData with
  | PostFailed e => Err ("failed to call transcription service: " ++ e)
  | Replied status payload =>
      if negb (status =? 200) then
        Err ("transcription service returned " ++ strconv.Itoa status)
      else match payload with
           | None => Err "failed to decode transcription response"
           | Some text => Ok text
           end
  end.

Definition modePrompt (transcription : string) : string :=
  Sprintf [
"Your name is "; dq; "watcher"; dq; " and you are a function selection assistant. You analyze the user's input in relation to the definition of the "; dq; "Mode List"; dq; " and then select the most appropriate function from the list.

Mode List:
- Mode 0 (CHAT): General conversation, questions, casual interaction
- Mode 1 (TASK): User wants to set up a monitoring task or automation (e.g., "; dq; "notify me when..."; dq; ", "; dq; "alert me if..."; dq; ", "; dq; "watch for..."; dq; ")
- Mode 2 (TASK_AUTO): Automatic task execution (rarely used)

User input: "; dq; transcription; dq; "

Respond with ONLY the mode number (0, 1, or 2). No explanation."].

(** The last lines of [determineMode]: the mode read off the reply. *)
Definition parseMode (response : string) : Z :=
  let modeStr := strings.TrimSpace response in
  if strings.Contains modeStr "1" then 1
  else if strings.Contains modeStr "2" then 2
  else 0.

(** determineMode analyzes the transcription to determine the interaction
    mode.  Returns: 0 = VI_MODE_CHAT, 1 = VI_MODE_TASK,
    2 = VI_MODE_TASK_AUTO.  The status of the reply is not looked at. *)
Definition determineMode (svc : Services) (transcription : string) : Z :=
  match Ollama svc (modePrompt transcription) with
  | PostFailed _ => 0
  | Replied _ None => 0
  | Replied _ (Some response) => parseMode response
  end.

Definition chatPrompt (transcription : string) : string :=
  Sprintf [
"Your name is watcher, and you're a chatbot that can have a nice chat with users based on their input. At the same time, you'll reject all answers to questions about terrorism, racism, yellow violence, political sensitivity, LGBT issues, etc.

User said: "; dq; transcription; dq; "

Provide a brief, conversational response (1-2 sentences max)."].

(** callOllamaSimple is a helper to call Ollama with a simple prompt. *)
Definition callOllamaSimple (svc : Services) (prompt : string) : Result string :=
  match Ollama svc prompt with
  | PostFailed e => Err ("failed to call Ollama: " ++ e)
  | Replied status payload =>
      if negb (status =? 200) then Err ("Ollama returned " ++ strconv.Itoa status)
      else match payload with
           | None => Err "failed to decode response"
           | Some response => Ok response
           end
  end.

(** processChatMode handles conversational chat requests. *)
Definition processChatMode (svc : Services) (transcription : string) : Result string :=
  match Ollama svc (chatPrompt transcription) with
  | PostFailed e => Err ("failed to call Ollama for chat: " ++ e)
  | Replied status payload =>
      if negb (status =? 200) then Err ("Ollama returned " ++ strconv.Itoa status)
      else match payload with
           | None => Err "failed to decode chat response"
           | Some response => Ok response
           end
  end.

Definition triggerPrompt (transcription : string) : string :=
  Sprintf [
"Extract the trigger condition from this request. Remove time, place, intervals, and actions. Focus on what to detect.

User input: "; dq; transcription; dq; "

CRITICAL: Respond with a simple phrase describing what to detect. No quotes. No punctuation at the end. Maximum 5 words.
Example: "; dq; "person enters room"; dq; " or "; dq; "cat on counter"; dq].

Definition cocoClasses : list string := [
  "person"; "bicycle"; "car"; "motorcycle"; "airplane"; "bus"; "train"; "truck"; "boat";
  "traffic light"; "fire hydrant"; "stop sign"; "parking meter"; "bench";
  "bird"; "cat"; "dog"; "horse"; "sheep"; "cow"; "elephant"; "bear"; "zebra"; "giraffe";
  "backpack"; "umbrella"; "handbag"; "tie"; "suitcase"
].

Definition matchPrompt (trigger : string) : string :=
  Sprintf [
"You are the word matching assistant. Match the scenario to ONE keyword from the list.

Scenario: "; dq; trigger; dq; "

Target Keywords: "; strings.Join cocoClasses ", "; "

CRITICAL: Respond with ONLY ONE WORD from the list above. No explanation. No quotes. No punctuation.
If the scenario mentions a human/man/woman/person, respond with: person
Otherwise pick the most relevant keyword from the list."].

Definition modelSelectionPrompt (targetObject : string) : string :=
  Sprintf [
"Target object: "; dq; targetObject; dq; "

The device has 3 built-in TinyML models:
- Model 1: Person detection (person, human, people, man, woman)
- Model 2: Pet detection (dog, cat, puppy, kitten, pet)
- Model 3: Gesture detection (rock, paper, scissors, hand gesture)

CRITICAL: Which model should be used? Respond with ONLY ONE NUMBER: 1, 2, 3, or 0
- 1 if person/human related
- 2 if dog/cat/pet related
- 3 if rock/paper/scissors gesture
- 0 if none match (will require cloud model download)

Respond with ONLY the number. No explanation."].

Definition headlinePrompt (transcription : string) : string :=
  Sprintf [
"Create a short headline summarizing this task.

User input: "; dq; transcription; dq; "

CRITICAL: Respond with a short headline. Maximum 6 words. No quotes. No punctuation at the end.
Example: "; dq; "Watch for delivery person"; dq; " or "; dq; "Monitor front door activity"; dq].

(** "Parse model type" in [processTaskMode]: the model kind read off the
    normalised reply. *)
Definition parseModelType (modelTypeStr : string) : Z :=
  if strings.Contains modelTypeStr "2" then 2
  else if strings.Contains modelTypeStr "3" then 3
  else if strings.Contains modelTypeStr "0" then 0
  else 1.

(** "Delete old tasks" in [processTaskMode]: every flow read for the
    device is deleted by its ID; a failed deletion is logged and the loop
    goes on. *)
Definition deleteOldTasks (oldTasks : list database.TaskFlow) (db : database.DB) : database.DB :=
  fold_left (fun d oldTask => snd (database.DeleteTaskFlow (database.ID oldTask) d)) oldTasks db.

(** processTaskMode handles task automation requests. *)
Definition processTaskMode (svc : Services) (now : Z) (transcription : string)
    (mode : Z) (deviceEUI : string) (db : database.DB) : Result string * database.DB :=
  match callOllamaSimple svc (triggerPrompt transcription) with
  | Err e => (Err ("failed to extract trigger: " ++ e), db)
  | Ok trigger =>
      let trigger := cleanLLMResponse trigger in
      let targetObject :=
        match callOllamaSimple svc (matchPrompt trigger) with
        | Err _ => "person"
        | Ok targetObject => targetObject
        end in
      let targetObject := cleanLLMResponse targetObject in
      let targetObject := strings.TrimSpace (strings.ToLower targetObject) in
      let modelTypeStr :=
        match callOllamaSimple svc (modelSelectionPrompt targetObject) with
        | Err _ => "1"
        | Ok modelTypeStr => modelTypeStr
        end in
      let modelTypeStr := cleanLLMResponse modelTypeStr in
      let modelType := parseModelType modelTypeStr in
      let headline :=
        match callOllamaSimple svc (headlinePrompt transcription) with
        | Err _ => "Task created"
        | Ok headline => headline
        end in
      let headline := cleanLLMResponse headline in
      let headline := strings.TrimSpace headline in
      let db :=
        match database.GetTaskFlowsByDevice deviceEUI db with
        | Ok oldTasks => if 0 <? len oldTasks then deleteOldTasks oldTasks db else db
        | Err _ => db
        end in
      let taskFlow :=
        database.mkTaskFlow 0 deviceEUI transcription headline trigger
          [targetObject] ["notify"] modelType 0 0 in
      let db := snd (database.SaveTaskFlow now taskFlow db) in
      (Ok (Sprintf ["I've created a monitoring task: "; headline;
                    ". I'll watch for "; trigger; "."]), db)
  end.

(** synthesizeSpeech sends text to the Python audio service for TTS. *)
Definition synthesizeSpeech (svc : Services) (text : string) : Result (list byte) :=
  match Piper svc text with
  | PostFailed e => Err ("failed to call TTS service: " ++ e)
  | Replied status payload =>
      if negb (status =? 200) then Err ("TTS service returned " ++ strconv.Itoa status)
      else match payload with
           | None => Err "failed to read TTS audio"
           | Some audioData => Ok audioData
           end
  end.

(** [float64(n)] for an [int] from 0 up, and [int(f)] for a finite
    [float64] within the range of [int]: the fraction is dropped. *)
Definition float64_of_int (n : Z) : float := PrimFloat.of_uint63 (Uint63.of_Z n).

Definition int_of_float64 (f : float) : Z :=
  match Prim2SF f with
  | S754_finite s m e =>
      let v := if 0 <=? e then Z.pos m * 2 ^ e else Z.pos m / 2 ^ (- e) in
      if s then - v else v
  | _ => 0
  end.

(** "Calculate audio duration from WAV file" in [AudioStreamHandler]: WAV
    header is 44 bytes, then raw PCM data; 16kHz, mono, 16-bit = 32000
    bytes/sec. *)
Definition durationOfSize (size : Z) : Z :=
  let audioDataSize := size - 44 in
  let audioDataSize := if audioDataSize <? 0 then 0 else audioDataSize in
  int_of_float64 ((float64_of_int audioDataSize / 32000) * 1000)%float.

Definition audioDurationMs (audioData : list byte) : Z :=
  durationOfSize (len audioData).

Definition boundary : string := "---sensecraftboundary---".

(** The JSON metadata of the voice response. *)
Definition jsonResponse (mode audioDurationMs : Z) (transcription ollamaResponse : string)
  : json.Value :=
  json.Map [
    ("code", json.Int 200);
    ("data", json.Map [
      ("mode", json.Int mode);
      ("duration", json.Int audioDurationMs);
      ("stt_result", json.Str transcription);
      ("screen_text", json.Str ollamaResponse)
    ])
  ].

(** AudioStreamHandler handles /v2/watcher/talk/audio_stream POST
    requests. *)
Definition AudioStreamHandler (svc : Services) (now : Z)
    (r : Request (option (list byte))) (db : database.DB) : Response * database.DB :=
  let deviceEUI := Header r "API-OBITER-DEVICE-EUI" in
  match Body r with
  | None => (Error "Failed to read request body" 400, db)
  | Some body =>
  match transcribeAudio svc body with
  | Err _ => (Error "Transcription failed" 500, db)
  | Ok transcription =>
  let mode := determineMode svc transcription in
  let step3 : Response * database.DB + string * database.DB :=
    if mode =? 0 then
      match processChatMode svc transcription with
      | Err _ => inl (Error "Chat processing failed" 500, db)
      | Ok response => inr (response, db)
      end
    else
      match processTaskMode svc now transcription mode deviceEUI db with
      | (Err _, db') => inl (Error "Task processing failed" 500, db')
      | (Ok response, db') => inr (response, db')
      end in
  match step3 with
  | inl failed => failed
  | inr (ollamaResponse, db') =>
  match synthesizeSpeech svc ollamaResponse with
  | Err _ => (Error "Speech synthesis failed" 500, db')
  | Ok audioData =>
  let audioDurationMs := audioDurationMs audioData in
  match json.Marshal (jsonResponse mode audioDurationMs transcription ollamaResponse) with
  | Err _ => (Error "Failed to create response" 500, db')
  | Ok jsonBytes =>
      let totalSize :=
        len (bytes jsonBytes) + len (bytes boundary) + 1 + len audioData in
      (mkResponse 200
         [("Content-Type", "application/octet-stream");
          ("Content-Length", strconv.Itoa totalSize)]
         (bytes jsonBytes ++ bytes (boundary ++ String "010" EmptyString) ++ audioData),
       db')
  end end end end end.

(** *** task_detail.go *)

(** selectModelType determines which local model to use based on target
    object. *)
Definition selectModelType (targetObject : string) : Z :=
  let obj := strings.ToLower targetObject in
  if (obj =? "person")%string then 1
  else if ((obj =? "dog") || (obj =? "cat"))%string then 2
  else if ((obj =? "rock") || (obj =? "paper") || (obj =? "scissors"))%string then 3
  else 0.

(** convertToNodeREDFormat converts our simple TaskFlow to the firmware's
    Node-RED style format.  [task.TargetObjects[0]] is an index
    expression: on an empty list the function panics, which is [None]. *)
Definition convertToNodeREDFormat (task : database.TaskFlow) : option json.Value :=
  let tlid := database.ID task in
  let ctd := time.UnixMilli (database.CreatedAt task) in
  let modelType := database.ModelType task in
  match nth_error (database.TargetObjects task) 0 with
  | None => None
  | Some target0 =>
      let aiCameraNode :=
        json.Map [
          ("id", json.Int 1);
          ("type", json.Str TFModuleTypeAICamera);
          ("index", json.Int 0);
          ("params", json.Map [
            ("modes", json.Int TFModuleAICameraModesInference);
            ("model_type", json.Int modelType);
            ("conditions", json.Slice [
              json.Map [
                ("class", json.Str target0);
                ("mode", json.Int TFModuleAICameraModeAppear);
                ("type", json.Int TFModuleAICameraTypePreset);
                ("num", json.Int 0)
              ]
            ]);
            ("conditions_combo", json.Int TFModuleAICameraConditionsComboAND);
            ("silent_period", json.Map [
              ("silence_duration", json.Int (time.wholeSeconds DefaultSilenceDuration))
            ]);
            ("output_type", json.Int TFModuleAICameraOutputBoth);
            ("shutter", json.Int TFModuleAICameraShutterTriggerConstantly)
          ]);
          ("wires", json.Slice [json.Slice [json.Int 2]])
        ] in
      let imageAnalyzerNode :=
        json.Map [
          ("id", json.Int 2);
          ("type", json.Str TFModuleTypeImageAnalyzer);
          ("index", json.Int 1);
          ("params", json.Map [
            ("body", json.Map [
              ("prompt", json.Str (database.TriggerCondition task));
              ("type", json.Int TFModuleImgAnalyzerTypeMonitoring);
              ("audio_txt", json.Str EmptyString)
            ])
          ]);
          ("wires", json.Slice [json.Slice [json.Int 3; json.Int 4]])
        ] in
      let localAlarmNode :=
        json.Map [
          ("id", json.Int 3);
          ("type", json.Str TFModuleTypeLocalAlarm);
          ("index", json.Int 2);
          ("params", json.Map [
            ("sound", json.Int 1);
            ("rgb", json.Int 1);
            ("img", json.Int 0);
            ("text", json.Int 0);
            ("duration", json.Int (time.wholeSeconds DefaultAlarmDuration))
          ]);
          ("wires", json.Slice [])
        ] in
      let sensecraftAlarmNode :=
        json.Map [
          ("id", json.Int 4);
          ("type", json.Str TFModuleTypeSenseCraftAlarm);
          ("index", json.Int 3);
          ("params", json.Map [
            ("silence_duration", json.Int (time.wholeSeconds DefaultNotificationSilence))
          ]);
          ("wires", json.Slice [])
        ] in
      Some (json.Map [
        ("type", json.Int 0);
        ("tlid", json.Int tlid);
        ("ctd", json.Int ctd);
        ("tn", json.Str (database.Headline task));
        ("task_flow", json.Slice [
          aiCameraNode; imageAnalyzerNode; localAlarmNode; sensecraftAlarmNode
        ])
      ])
  end.

(** TaskDetailHandler handles /v2/watcher/talk/view_task_detail POST
    requests.  [None]: the handler panicked and wrote no response. *)
Definition TaskDetailHandler (r : Request unit) (db : database.DB) : option Response :=
  let deviceEUI := Header r "API-OBITER-DEVICE-EUI" in
  match database.GetTaskFlowsByDevice deviceEUI db with
  | Err _ => Some (Error "Failed to retrieve task flows" 500)
  | Ok taskFlows =>
      match taskFlows with
      | task0 :: _ =>
          match convertToNodeREDFormat task0 with
          | None => None
          | Some taskFlowData =>
              Some (WriteJSON 200
                      (json.Map [("code", json.Int 200);
                                 ("data", json.Map [("tl", taskFlowData)])]))
          end
      | [] =>
          Some (WriteJSON 200
                  (json.Map [("code", json.Int 200);
                             ("data", json.Map [("tl", json.Map [])])]))
      end
  end.

(** *** vision.go *)

(** analyzeImageWithLLaVA sends base64-encoded image to Ollama's LLaVA
    model for analysis. *)
Definition analyzeImageWithLLaVA (svc : Services) (imageBase64 prompt : string) : Result string :=
  match LLaVA svc imageBase64 prompt with
  | PostFailed e => Err ("failed to call LLaVA: " ++ e)
  | Replied status payload =>
      if negb (status =? 200) then Err ("LLaVA returned " ++ strconv.Itoa status)
      else match payload with
           | None => Err "failed to decode LLaVA response"
           | Some response => Ok response
           end
  end.

(** "Step 2: Determine if event should be triggered" in [VisionHandler]. *)
Definition eventState (reqType : Z) (analysis : string) : Z :=
  if reqType =? 1 then
    let analysisLower := strings.ToLower analysis in
    let isPositive :=
      strings.Contains analysisLower "yes" ||
      strings.Contains analysisLower "there is" ||
      strings.Contains analysisLower "i can see" ||
      strings.Contains analysisLower "visible" ||
      strings.Contains analysisLower "present" ||
      strings.Contains analysisLower "wearing" ||
      strings.Contains analysisLower "detected" in
    let isNegative :=
      strings.Contains analysisLower "no" ||
      strings.Contains analysisLower "not" ||
      strings.Contains analysisLower "cannot" ||
      strings.Contains analysisLower "can't" ||
      strings.Contains analysisLower "unable" in
    if isPositive && negb isNegative then 1 else 0
  else 0.

(** A struct field tagged [omitempty]. *)
Definition omitempty (k : string) (v : option json.Value) : list (string * json.Value) :=
  match v with
  | Some x => [(k, x)]
  | None => []
  end.

(** [models.ImageAnalyzerResponse] as the encoder sees it; [Img] is
    always nil. *)
Definition ImageAnalyzerResponse (state type : Z) (audio : option string) : json.Value :=
  json.Struct [
    ("code", json.Int 200);
    ("data", json.Struct ([("state", json.Int state); ("type", json.Int type)] ++
                          omitempty "audio" (option_map json.Str audio) ++
                          omitempty "img" None))
  ].

(** VisionHandler handles /v1/watcher/vision POST requests. *)
Definition VisionHandler (svc : Services)
    (r : Request (JSONBody models.ImageAnalyzerRequest)) : Response :=
  match Body r with
  | Unreadable => Error "Failed to read request body" 400
  | Malformed => Error "Invalid JSON" 400
  | Decoded req =>
      if (models.img req =? "")%string then Error "No image provided" 400
      else
        let prompt :=
          if (models.Prompt req =? "")%string then "what's in the picture?"
          else models.Prompt req in
        match analyzeImageWithLLaVA svc (models.img req) prompt with
        | Err _ => Error "Image analysis failed" 500
        | Ok analysis =>
            let state := eventState (models.type req) analysis in
            let audioBase64 :=
              if negb (models.AudioTxt req =? "")%string then
                match synthesizeSpeech svc (models.AudioTxt req) with
                | Err _ => None
                | Ok audioData => Some (base64.EncodeToString audioData)
                end
              else None in
            WriteJSON 200 (ImageAnalyzerResponse state (models.type req) audioBase64)
        end
  end.

(** *** notification.go *)

Section Notification.

(** The literal [encoding/json] writes for a [float64]
    ([strconv.AppendFloat], shortest form). *)
Variable FormatFloat : float -> string.

Definition getTimestamp (ts : option Z) : Z :=
  match ts with
  | None => 0
  | Some t => t
  end.

Definition getString (s : option string) : string :=
  match s with
  | None => EmptyString
  | Some t => t
  end.

Definition nonEmpty {A : Type} (l : list A) (v : json.Value) : option json.Value :=
  match l with
  | [] => None
  | _ => Some v
  end.

(** [models.InferenceData] and [models.SensorData] as the encoder sees
    them: every field is tagged [omitempty]. *)
Definition inferenceValue (i : models.InferenceData) : json.Value :=
  let box (b : models.BoundingBox) :=
    json.Slice (map json.Int [models.box_x b; models.box_y b; models.box_w b;
                              models.box_h b; models.box_score b; models.box_target b]) in
  let class (c : models.Classification) :=
    json.Slice (map json.Int [models.class_score c; models.class_target c]) in
  json.Struct (
    omitempty "boxes" (nonEmpty (models.Boxes i) (json.Slice (map box (models.Boxes i)))) ++
    omitempty "classes" (nonEmpty (models.Classes i) (json.Slice (map class (models.Classes i)))) ++
    omitempty "classes_name"
      (nonEmpty (models.ClassesName i) (json.Slice (map json.Str (models.ClassesName i))))).

Definition sensorValue (s : models.SensorData) : json.Value :=
  json.Struct (
    omitempty "temperature" (option_map (fun t => json.Number (FormatFloat t)) (models.Temperature s)) ++
    omitempty "humidity" (option_map json.Int (models.Humidity s)) ++
    omitempty "CO2" (option_map json.Int (models.CO2 s))).

(** saveNotificationToDatabase: the event is built from the header's
    device EUI and the body's request ID and events; a failed insertion is
    logged. *)
Definition saveNotificationToDatabase (now : Z) (deviceEUI : string)
    (req : models.NotificationEventRequest) (db : database.DB) : database.DB :=
  let marshalled (v : json.Value) : string :=
    match json.Marshal v with
    | Ok jsonBytes => jsonBytes
    | Err _ => EmptyString
    end in
  let inferenceJSON :=
    match models.Data (models.events req) with
    | Some data =>
        match models.Inference data with
        | Some inference => marshalled (inferenceValue inference)
        | None => EmptyString
        end
    | None => EmptyString
    end in
  let sensorJSON :=
    match models.Data (models.events req) with
    | Some data =>
        match models.Sensor data with
        | Some sensor => marshalled (sensorValue sensor)
        | None => EmptyString
        end
    | None => EmptyString
    end in
  let event :=
    database.NotificationEvent.mk 0
      (models.RequestID req)
      deviceEUI
      (getTimestamp (models.Timestamp (models.events req)))
      (getString (models.Text (models.events req)))
      (getString (models.Img (models.events req)))
      inferenceJSON
      sensorJSON
      0 in
  snd (database.SaveNotificationEvent now event db).

(** logNotificationRequest only writes to the log, but it indexes
    [inference.ClassesName] with each class identifier below the length of
    the table: on a negative one it panics.  [true]: it returns. *)
Definition logNotificationRequest (req : models.NotificationEventRequest) : bool :=
  match models.Data (models.events req) with
  | Some data =>
      match models.Inference data with
      | Some inference =>
          negb (existsb (fun b => models.box_target b <? 0) (models.Boxes inference)) &&
          negb (existsb (fun c => models.class_target c <? 0) (models.Classes inference))
      | None => true
      end
  | None => true
  end.

(** NotificationHandler handles /v1/notification/event POST requests.
    [None]: the handler panicked and wrote no response. *)
Definition NotificationHandler (now : Z)
    (r : Request (JSONBody models.NotificationEventRequest)) (db : database.DB)
  : option Response * database.DB :=
  let deviceEUI := Header r "API-OBITER-DEVICE-EUI" in
  match Body r with
  | Unreadable => (Some (Error "Failed to read request body" 400), db)
  | Malformed => (Some (Error "Invalid JSON" 400), db)
  | Decoded req =>
      if logNotificationRequest req then
        let db := saveNotificationToDatabase now deviceEUI req db in
        (Some (WriteJSON 200 (json.Struct [("code", json.Int 200)])), db)
      else (None, db)
  end.

End Notification.

End handlers.

(** ** The request line *)

Module incoming.

(** A request as the middleware and the catch-all handler read it:
    [r.Method] and [r.URL.Path], beside the headers and the body. *)
Record t (B : Type) : Type := mk {
  Method : string;
  Path : string;
  request : http.Request B
}.

End incoming.

(** ** Package [handlers], notfound.go *)

Module notfound.

(** NotFoundHandler handles all unmatched routes (404). *)
Definition NotFoundHandler (B : Type) (r : incoming.t B) : http.Response :=
  http.WriteJSON 404
    (json.Map [("error", json.Str "Not Found");
               ("path", json.Str (incoming.Path r));
               ("method", json.Str (incoming.Method r))]).

End notfound.

(** ** Package [middleware] (middleware/middleware.go) *)

Module middleware.

Import http.

(** An [http.Handler] that runs on the store; [None]: it panicked and
    wrote no response. *)
Definition Handler (B : Type) : Type :=
  incoming.t B -> database.DB -> option Response * database.DB.

(** [w.Header().Set] *)
Definition SetHeader (key value : string) (h : list (string * string))
  : list (string * string) :=
  if existsb (fun e => (fst e =? key)%string) h
  then map (fun e => if (fst e =? key)%string then (key, value) else e) h
  else h ++ [(key, value)].

(** The response of a handler that ran on a writer whose header map
    already held [h]: what the handler set is set on top of it. *)
Definition onto (h : list (string * string)) (resp : Response) : Response :=
  mkResponse (StatusCode resp)
    (fold_left (fun acc e => SetHeader (fst e) (snd e) acc) (ResponseHeader resp) h)
    (ResponseBody resp).

(** Logger middleware logs incoming requests. *)
Definition Logger (B : Type) (next : Handler B) : Handler B :=
  fun r db => next r db.

(** AuthValidator middleware validates the Authorization header. *)
Definition AuthValidator (B : Type) (requiredToken : string) (next : Handler B) : Handler B :=
  fun r db =>
    let authHeader := Header (incoming.request r) "Authorization" in
    if negb (requiredToken =? "")%string then
      if negb (authHeader =? requiredToken)%string then
        (Some (Error (Sprintf ["{"; dq; "code"; dq; ": 401}"]) 401), db)
      else next r db
    else next r db.

(** DeviceEUIValidator middleware validates the API-OBITER-DEVICE-EUI
    header: a missing one, and one that is not 16 bytes long, are logged,
    and the request goes through. *)
Definition DeviceEUIValidator (B : Type) (next : Handler B) : Handler B :=
  fun r db =>
    let deviceEUI := Header (incoming.request r) "API-OBITER-DEVICE-EUI" in
    if (deviceEUI =? "")%string then next r db
    else if negb (Z.of_nat (String.length deviceEUI) =? 16) then next r db
    else next r db.

(** CORS middleware adds CORS headers for development. *)
Definition CORS (B : Type) (next : Handler B) : Handler B :=
  fun r db =>
    let h := SetHeader "Access-Control-Allow-Origin" "*" [] in
    let h := SetHeader "Access-Control-Allow-Methods" "POST, GET, OPTIONS" h in
    let h := SetHeader "Access-Control-Allow-Headers"
               "Content-Type, Authorization, API-OBITER-DEVICE-EUI" h in
    if (incoming.Method r =? "OPTIONS")%string then (Some (mkResponse 200 h []), db)
    else match next r db with
         | (Some resp, db') => (Some (onto h resp), db')
         | (None, db') => (None, db')
         end.

End middleware.

(** ** Package [config] (config/config.go) *)

Module config.

Record ServerConfig : Type := mkServerConfig {
  Port : string;
  Host : string;
  ReadTimeout : Z;
  WriteTimeout : Z
}.

Record APIConfig : Type := mkAPIConfig {
  BaseURL : string;
  Schema : string
}.

Record DatabaseConfig : Type := mkDatabaseConfig {
  Path : string
}.

Record AIConfig : Type := mkAIConfig {
  WhisperURL : string;
  OllamaURL : string;
  OllamaModel : string;
  LLaVAModel : string;
  PiperURL : string
}.

Record AuthConfig : Type := mkAuthConfig {
  Token : string;
  Enabled : bool
}.

Record Config : Type := mkConfig {
  Server : ServerConfig;
  Database : DatabaseConfig;
  AI : AIConfig;
  Auth : AuthConfig;
  API : APIConfig
}.

(** Validate checks if the configuration is valid; [None] is [nil]. *)
Definition Validate (c : Config) : option string :=
  if (Port (Server c) =? "")%string then Some "server port cannot be empty"
  else if (Path (Database c) =? "")%string then Some "database path cannot be empty"
  else if (WhisperURL (AI c) =? "")%string then Some "whisper URL cannot be empty"
  else if (OllamaURL (AI c) =? "")%string then Some "ollama URL cannot be empty"
  else if (PiperURL (AI c) =? "")%string then Some "piper URL cannot be empty"
  else None.

(** [flag.String] after [flag.Parse]: the value given on the command
    line, or the default. *)
Definition flagString (args : string -> option string) (name value : string) : string :=
  match args name with
  | Some given => given
  | None => value
  end.

(** "Override with environment variables if set" *)
Definition override (Getenv : string -> string) (key current : string) : string :=
  if negb (Getenv key =? "")%string then Getenv key else current.

(** Load reads configuration from flags and environment variables. *)
Definition Load (args : string -> option string) (Getenv : string -> string) : Result Config :=
  let port := flagString args "port" "8834" in
  let host := flagString args "host" "localhost" in
  let token := flagString args "token" "" in
  let dbPath := flagString args "db" "sensecap.db" in
  let whisperURL := flagString args "whisper-url" "http://localhost:5000" in
  let ollamaURL := flagString args "ollama-url" "http://localhost:11434" in
  let ollamaModel := flagString args "ollama-model" "llama3.1:8b-instruct-q4_1" in
  let llavaModel := flagString args "llava-model" "llava:7b" in
  let piperURL := flagString args "piper-url" "http://localhost:5000" in
  let apiSchema := flagString args "api-schema" "http" in
  let apiBaseURL := flagString args "api-base-url" "" in
  let port := override Getenv "PORT" port in
  let host := override Getenv "HOST" host in
  let token := override Getenv "AUTH_TOKEN" token in
  let dbPath := override Getenv "DB_PATH" dbPath in
  let whisperURL := override Getenv "WHISPER_URL" whisperURL in
  let ollamaURL := override Getenv "OLLAMA_URL" ollamaURL in
  let ollamaModel := override Getenv "OLLAMA_MODEL" ollamaModel in
  let llavaModel := override Getenv "LLAVA_MODEL" llavaModel in
  let piperURL := override Getenv "PIPER_URL" piperURL in
  let apiSchema := override Getenv "API_SCHEMA" apiSchema in
  let apiBaseURL := override Getenv "API_BASE_URL" apiBaseURL in
  let apiBaseURL :=
    if (apiBaseURL =? "")%string then Sprintf [apiSchema; "://"; host; ":"; port]
    else apiBaseURL in
  let cfg :=
    mkConfig
      (mkServerConfig port host (30 * time.Second) (30 * time.Second))
      (mkDatabaseConfig dbPath)
      (mkAIConfig whisperURL ollamaURL ollamaModel llavaModel piperURL)
      (mkAuthConfig token (negb (token =? "")%string))
      (mkAPIConfig apiBaseURL apiSchema) in
  match Validate cfg with
  | Some err => Err err
  | None => Ok cfg
  end.

End config.

(** ** The server (cmd/server/main.go)

    The routes of [main], each with the middleware gorilla/mux runs
    around its handler.  Which route a request matches is the router's
    business and is not modelled. *)

Module main.

Import middleware.

(** "Apply global middleware": the router wraps the handler of the
    matched route in its middleware, the first one added outermost. *)
Definition global (B : Type) (next : Handler B) : Handler B :=
  CORS (Logger (DeviceEUIValidator next)).

(** A route of the subrouters [/v1] and [/v2]: "Apply authentication
    middleware if token is configured", inside the global middleware. *)
Definition api (B : Type) (cfg : config.Config) (next : Handler B) : Handler B :=
  global (if config.Enabled (config.Auth cfg)
          then AuthValidator (config.Token (config.Auth cfg)) next
          else next).

(** POST /v1/notification/event *)
Definition notificationEvent (cfg : config.Config) (FormatFloat : float -> string) (now : Z)
  : Handler (http.JSONBody models.NotificationEventRequest) :=
  api cfg (fun r db => handlers.NotificationHandler FormatFloat now (incoming.request r) db).

(** POST /v1/watcher/vision *)
Definition vision (cfg : config.Config) (svc : handlers.Services)
  : Handler (http.JSONBody models.ImageAnalyzerRequest) :=
  api cfg (fun r db => (Some (handlers.VisionHandler svc (incoming.request r)), db)).

(** POST /v2/watcher/talk/audio_stream *)
Definition audioStream (cfg : config.Config) (svc : handlers.Services) (now : Z)
  : Handler (option (list byte)) :=
  api cfg (fun r db =>
             let (resp, db') := handlers.AudioStreamHandler svc now (incoming.request r) db in
             (Some resp, db')).

(** GET, POST /v2/watcher/talk/view_task_detail *)
Definition viewTaskDetail (cfg : config.Config) : Handler unit :=
  api cfg (fun r db => (handlers.TaskDetailHandler (incoming.request r) db, db)).

(** "Health check endpoint (no auth required)" *)
Definition health : Handler unit :=
  global (fun _ db =>
            (Some (http.mkResponse 200 [("Content-Type", "application/json")]
                     (http.bytes (Sprintf ["{"; dq; "status"; dq; ":"; dq; "ok"; dq; ",";
                                           dq; "service"; dq; ":"; dq; "sensecap-local-server";
                                           dq; "}"]))), db)).

(** "Catch-all 404 handler - must be last" *)
Definition notFound (B : Type) : Handler B :=
  global (fun r db => (Some (notfound.NotFoundHandler r), db)).

End main.

(** ** The specification's own wording

    Definitions that follow the words of the specification, to be
    compared with the code above. *)

Module Spec.

(** "Scan the output for the first occurrence of any of these digits":
    the first byte of [s] that is one of [digits]. *)
Fixpoint firstDigitOf (digits : string) (s : string) : option ascii :=
  match s with
  | EmptyString => None
  | String c s' => if strings.inCutset digits c then Some c else firstDigitOf digits s'
  end.

(** "Parse the first occurrence of digit '1' or '2' in the response;
    default to Chat (0)". *)
Definition modeByFirstOccurrence (s : string) : Z :=
  match firstDigitOf "12" s with
  | Some c => if (c =? "1")%char then 1 else 2
  | None => 0
  end.

(** The model kind of the first of the digits 0, 1, 2, 3 in [s]; Person
    when there is none. *)
Definition modelTypeByFirstOccurrence (s : string) : Z :=
  match firstDigitOf "0123" s with
  | Some c =>
      if (c =? "2")%char then 2
      else if (c =? "3")%char then 3
      else if (c =? "0")%char then 0
      else 1
  | None => 1
  end.

(** "duration-ms = max(0, (size - 44) x 1000 / 32000), integer
    truncated". *)
Definition duration_ms (size : Z) : Z :=
  Z.max 0 ((size - 44) * 1000 / 32000).



(** "lower-case the analysis": each letter of [A]..[Z] becomes the
    letter at the same place of [a]..[z]; any other byte stays. *)
Fixpoint letterAt (from to : list ascii) (c : ascii) : ascii :=
  match from, to with
  | x :: from', y :: to' => if (c =? x)%char then y else letterAt from' to' c
  | _, _ => c
  end.

Definition lowerCased (text : string) : string :=
  string_of_list_ascii
    (map (letterAt (chars "ABCDEFGHIJKLMNOPQRSTUVWXYZ") (chars "abcdefghijklmnopqrstuvwxyz"))
         (chars text)).

(** A text of ASCII bytes: none from 128 ([utf8.RuneSelf]) up.  On such
    a text Go's [strings.ToLower] changes the letters [A]..[Z] only and
    [strings.TrimSpace] cuts the six bytes of [asciiSpace] only. *)
Definition isASCII (text : string) : bool :=
  forallb (fun c => (N_of_ascii c <? 128)%N) (chars text).


(** The quote characters and the closing punctuation the normalisation
    strips. *)
Definition isQuote : ascii -> bool := strings.inCutset (dq ++ "'")%string.
Definition isPunct : ascii -> bool := strings.inCutset ".,!?;:".

(** [{"code":200,"data":{"tl":{}}}], and the newline the encoder ends
    with. *)
Definition emptyTaskDetail : string :=
  Sprintf ["{"; dq; "code"; dq; ":200,"; dq; "data"; dq; ":{"; dq; "tl"; dq; ":{}}}"].

Definition newline : string := String "010" EmptyString.

(** "The UTF-8 JSON header encoding {code:200, data:{mode, duration,
    stt_result:T, screen_text:R}}", written out: no white space, the
    members of [data] by increasing key. *)
Definition jsonHeader (mode duration : Z) (T R : string) : string :=
  Sprintf ["{"; dq; "code"; dq; ":200,"; dq; "data"; dq; ":{";
           dq; "duration"; dq; ":"; strconv.Itoa duration; ",";
           dq; "mode"; dq; ":"; strconv.Itoa mode; ",";
           dq; "screen_text"; dq; ":"; json.quote R; ",";
           dq; "stt_result"; dq; ":"; json.quote T; "}}"].

(** "Voice response framing": status 200, the content type, the length,
    and the three body parts in order. *)
Definition framed (mode : Z) (T R : string) (A : list byte) : http.Response :=
  let jsonHeader :=
    json.encode (handlers.jsonResponse mode (handlers.audioDurationMs A) T R) in
  http.mkResponse 200
    [("Content-Type", "application/octet-stream");
     ("Content-Length",
      strconv.Itoa (handlers.len (http.bytes jsonHeader) + 24 + 1 + handlers.len A))]
    (http.bytes jsonHeader ++ http.bytes "---sensecraftboundary---" ++ [x0a]%byte ++ A).

(** "Node 1 ... conditions": the member [conditions] of the parameters of
    the first node of a task-flow document. *)
Definition node1Conditions (tl : json.Value) : option json.Value :=
  match json.member "task_flow" tl with
  | Some nodes =>
      match json.element 0 nodes with
      | Some node1 =>
          match json.member "params" node1 with
          | Some params => json.member "conditions" params
          | None => None
          end
      | None => None
      end
  | None => None
  end.

(** "conditions=[{class=target[0], mode=Appear(1), type=Preset(2),
    num=0}]" *)
Definition conditionsOn (class : string) : json.Value :=
  json.Slice [json.Map [("class", json.Str class); ("mode", json.Int 1);
                        ("type", json.Int 2); ("num", json.Int 0)]].

End Spec.

(** ** Sample services, requests and stores

    Concrete inputs on which the properties below are run. *)

Module Sample.

(** Services that answer every prompt with [reply]: Whisper hears
    "set an alarm", Piper returns an empty WAV. *)
Definition answering (reply : string) : handlers.Services :=
  handlers.mkServices
    (fun _ => http.Replied 200 (Some "set an alarm"))
    (fun _ => http.Replied 200 (Some reply))
    (fun _ _ => http.Replied 200 (Some reply))
    (fun _ => http.Replied 200 (Some []%list)).

(** The device of the specification's scenarios. *)
Definition device : string := "2CF7F1C04430000C".

(** Scenario "voice chat": Whisper hears "hello", the classifier answers
    0, the chat model "Hi there.", and Piper returns a WAV of 44 + 64
    bytes. *)
Definition chat : handlers.Services :=
  handlers.mkServices
    (fun _ => http.Replied 200 (Some "hello"))
    (fun prompt =>
       if strings.Contains prompt "function selection assistant"
       then http.Replied 200 (Some "0")
       else http.Replied 200 (Some "Hi there."))
    (fun _ _ => http.PostFailed "connection refused")
    (fun _ => http.Replied 200 (Some (repeat "000"%byte 108))).

Definition voiceRequest : http.Request (option (list byte)) :=
  http.mkRequest (fun _ => device) (Some [x52; x49; x46; x46]%byte).

Definition detailRequest : http.Request unit :=
  http.mkRequest (fun _ => device) tt.

(** A flow as the voice pipeline stores it. *)
Definition watchPerson : database.TaskFlow :=
  database.mkTaskFlow 1 device "notify me when a person arrives" "Watch for person"
    "person arrives" ["person"] ["notify"] 1 1700000000000000000 1700000000000000000.

(** A store whose only row holds a [target_objects] text that is no
    JSON. *)
Definition damaged : database.DB :=
  database.mkDB
    [database.task_flows.mk 1 device "notify me when a person arrives" "Watch for person"
       "person arrives" "person" "[]" 1 1700000000000000000 1700000000000000000]
    1 [] 0.

(** Scenario "voice task": the classifier answers 1; the other prompts
    are answered for a dog when they speak of one, for a person
    otherwise. *)
Definition tasks : handlers.Services :=
  let reply (text : string) : http.Upstream string := http.Replied 200 (Some text) in
  handlers.mkServices
    (fun _ => http.Replied 200 (Some "notify me when a person arrives"))
    (fun prompt =>
       if strings.Contains prompt "function selection assistant" then reply "1"
       else if strings.Contains prompt "Extract the trigger condition" then
         if strings.Contains prompt "the dog" then reply "dog on the sofa"
         else reply "person arrives"
       else if strings.Contains prompt "word matching assistant" then
         if strings.Contains prompt "dog on the sofa" then reply "Dog"
         else reply "Person."
       else if strings.Contains prompt "Target object:" then
         if strings.Contains prompt (dq ++ "dog" ++ dq)%string then reply "2"
         else reply "1"
       else if strings.Contains prompt "the dog" then reply "Watch for dog"
       else reply "Watch for person")
    (fun _ _ => http.PostFailed "connection refused")
    (fun _ => http.Replied 200 (Some (repeat "000"%byte 108))).

Definition firstRequest : string := "notify me when a person arrives".
Definition secondRequest : string := "tell me when the dog is on the sofa".

(** The store after the first request, and after the second. *)
Definition afterFirst : database.DB :=
  snd (handlers.processTaskMode tasks 1700000000000000000 firstRequest 1 device database.empty).

Definition afterSecond : database.DB :=
  snd (handlers.processTaskMode tasks 1700000060000000000 secondRequest 1 device afterFirst).



(** Scenario "notification": two boxes, sensor data, and a body that
    names a device of its own. *)
Definition notification (deviceEui : string) : models.NotificationEventRequest :=
  models.mkNotificationEventRequest "req-0001" deviceEui
    (models.mkEvents (Some 1700000000000) (Some "person detected") None
       (Some (models.mkEventData
          (Some (models.mkInferenceData
             [models.mkBox 10 20 100 200 87 0; models.mkBox 50 60 70 80 55 1]
             [] ["person"; "dog"]))
          (Some (models.mkSensorData None (Some 45) (Some 612)))))).

Definition shortest (_ : float) : string := "23.5".

End Sample.

(** ** Valid encodings

    What the UTF-8 decoder's items look like; used to read back what the
    JSON encoder wrote. *)

Module Encoding.

(** The bytes an item stands for once U+FFFD has taken the place of an
    invalid byte. *)
Definition bytesOf (i : utf8.Item) : string :=
  match i with
  | utf8.Rune bytes => bytes
  | utf8.Invalid => utf8.EncodeRune utf8.RuneError
  end.

Definition settled (i : utf8.Item) : utf8.Item := utf8.Rune (bytesOf i).

Definition isHigh (c : ascii) : bool := (128 <=? N_of_ascii c)%N.

(** [b] is decoded as one rune, whatever follows. *)
Definition selfDecoding (b : string) : Prop :=
  forall rest, utf8.itemsFrom None (b ++ rest) = utf8.Rune b :: utf8.itemsFrom None rest.

(** One ASCII byte, or two bytes and more, all from 0x80 up. *)
Definition shaped (b : string) : Prop :=
  (exists c, b = String c EmptyString /\ (N_of_ascii c <? 128)%N = true) \/
  (exists c d b', b = String c (String d b') /\ forallb isHigh (chars b) = true).

Definition good (i : utf8.Item) : Prop :=
  match i with
  | utf8.Rune b => selfDecoding b /\ shaped b
  | utf8.Invalid => True
  end.

(** The state of a decoder that has read the bytes [seen q] of an
    encoding and nothing else. *)
Definition underway (q : utf8.Pending) : Prop :=
  (forall rest, utf8.itemsFrom None (utf8.seen q ++ rest) = utf8.itemsFrom (Some q) rest) /\
  forallb isHigh (chars (utf8.seen q)) = true /\
  utf8.seen q <> EmptyString /\
  (128 <= utf8.lo q)%N.

End Encoding.

(** ** Stores

    Predicates on the store, and the stores the server can be in. *)

Module Store.

(** The identifiers of a table: increasing with the rows, none above the
    counter. *)
Definition ascending (seq : Z) (ids : list Z) : Prop :=
  StronglySorted Z.lt ids /\ Forall (fun i => i <= seq) ids.

Definition consistent (db : database.DB) : Prop :=
  ascending (database.flows_seq db) (map database.task_flows.id (database.flows db)) /\
  ascending (database.events_seq db)
    (map database.notification_events.id (database.events db)).

Definition ofDevice (deviceEUI : string) (r : database.task_flows.row) : bool :=
  (database.task_flows.device_eui r =? deviceEUI)%string.

(** "Delete old tasks" in [processTaskMode]: the store the new flow is
    saved in. *)
Definition cleared (deviceEUI : string) (db : database.DB) : database.DB :=
  match database.GetTaskFlowsByDevice deviceEUI db with
  | Ok oldTasks =>
      if 0 <? handlers.len oldTasks then handlers.deleteOldTasks oldTasks db else db
  | Err _ => db
  end.

(** A row as the compilation path writes it: one target object, the
    action [notify], a model kind of the enumeration, one instant. *)
Definition compiled (r : database.task_flows.row) : Prop :=
  (exists target : string,
     database.task_flows.target_objects r = json.encode (json.Slice [json.Str target])) /\
  database.task_flows.actions r = json.encode (json.Slice [json.Str "notify"]) /\
  0 <= database.task_flows.model_type r <= 3 /\
  database.task_flows.updated_at r = database.task_flows.created_at r.

Definition sound (db : database.DB) : Prop :=
  consistent db /\
  Forall compiled (database.flows db) /\
  forall D, (List.length (filter (ofDevice D) (database.flows db)) <= 1)%nat.

(** Step 4 of [processTaskMode] for a run that read [oldTasks]: the
    deletions by identifier, then the insert. *)
Definition written (oldTasks : list database.TaskFlow) (now : Z)
    (taskFlow : database.TaskFlow) (db : database.DB) : database.DB :=
  snd (database.SaveTaskFlow now taskFlow
         (if 0 <? handlers.len oldTasks then handlers.deleteOldTasks oldTasks db else db)).

(** The stores the server can be in when it handles its requests one
    after another, each to its end, on a database that answers every
    statement: it starts on a new database file, and of its handlers only
    [AudioStreamHandler] and [NotificationHandler] write.  The server
    takes no lock and opens no transaction: a store left by two runs
    that overlap is not among these. *)
Inductive Reachable : database.DB -> Prop :=
| reach_new : Reachable database.empty
| reach_audio_stream (svc : handlers.Services) (now : Z)
    (r : http.Request (option (list byte))) (db : database.DB) :
    Reachable db -> Reachable (snd (handlers.AudioStreamHandler svc now r db))
| reach_notification (FormatFloat : float -> string) (now : Z)
    (r : http.Request (http.JSONBody models.NotificationEventRequest)) (db : database.DB) :
    Reachable db -> Reachable (snd (handlers.NotificationHandler FormatFloat now r db)).

End Store.

(** ** Requests and answers on the wire *)

Module Wire.

(** A notification whose inference data holds a negative class
    identifier, in a bounding box or in a classification. *)
Definition negativeClass (req : models.NotificationEventRequest) : Prop :=
  exists data inference,
    models.Data (models.events req) = Some data /\
    models.Inference data = Some inference /\
    ((exists b, In b (models.Boxes inference) /\ models.box_target b < 0) \/
     (exists c, In c (models.Classes inference) /\ models.class_target c < 0)).

(** The three headers the CORS middleware sets. *)
Definition corsHeader : list (string * string) :=
  [("Access-Control-Allow-Origin", "*");
   ("Access-Control-Allow-Methods", "POST, GET, OPTIONS");
   ("Access-Control-Allow-Headers", "Content-Type, Authorization, API-OBITER-DEVICE-EUI")].

Definition carriesCORS (resp : http.Response) : Prop :=
  http.Get "Access-Control-Allow-Origin" resp = Some "*" /\
  http.Get "Access-Control-Allow-Methods" resp = Some "POST, GET, OPTIONS" /\
  http.Get "Access-Control-Allow-Headers" resp =
    Some "Content-Type, Authorization, API-OBITER-DEVICE-EUI".

(** The headers the handlers set themselves. *)
Definition plainKeys : list string :=
  ["Content-Type"; "Content-Length"; "X-Content-Type-Options"].

Definition plain (resp : http.Response) : Prop :=
  forall e, In e (http.ResponseHeader resp) -> In (fst e) plainKeys.

(** The answer of [AuthValidator] to a wrong token. *)
Definition unauthorized : http.Response :=
  http.Error (Sprintf ["{"; dq; "code"; dq; ": 401}"]) 401.

End Wire.

(** ** More sample inputs *)

Module Fixture.

(** The services of the scenario "voice task", with a Piper that is
    down. *)
Definition mute : handlers.Services :=
  handlers.mkServices (handlers.Whisper Sample.tasks) (handlers.Ollama Sample.tasks)
    (handlers.LLaVA Sample.tasks) (fun _ => http.PostFailed "connection refused").

(** An Ollama that answers the trigger prompt and no other. *)
Definition triggerOnly : handlers.Services :=
  handlers.mkServices
    (fun _ => http.Replied 200 (Some "notify me when a person arrives"))
    (fun prompt =>
       if strings.Contains prompt "Extract the trigger condition"
       then http.Replied 200 (Some "person arrives.")
       else http.PostFailed "connection refused")
    (fun _ _ => http.PostFailed "connection refused")
    (fun _ => http.PostFailed "connection refused").

(** A second device, with a flow of its own beside the flow of the first
    request. *)
Definition otherDevice : string := "2CF7F1C04430000D".

Definition otherRequest : http.Request unit :=
  http.mkRequest (fun _ => otherDevice) tt.

Definition twoDevices : database.DB :=
  snd (handlers.processTaskMode Sample.tasks 1700000030000000000 Sample.secondRequest 1
         otherDevice Sample.afterFirst).

(** No flag on the command line, and the token [secret] in the
    environment. *)
Definition noFlags (_ : string) : option string := None.

Definition tokenInEnv (key : string) : string :=
  if (key =? "AUTH_TOKEN")%string then "secret" else EmptyString.

Definition guarded : config.Config :=
  config.mkConfig
    (config.mkServerConfig "8834" "localhost" (30 * time.Second) (30 * time.Second))
    (config.mkDatabaseConfig "sensecap.db")
    (config.mkAIConfig "http://localhost:5000" "http://localhost:11434"
       "llama3.1:8b-instruct-q4_1" "llava:7b" "http://localhost:5000")
    (config.mkAuthConfig "secret" true)
    (config.mkAPIConfig "http://localhost:8834" "http").

(** The task-detail route, and requests to it: with a wrong token, with
    the right one, and a preflight. *)
Definition detail : middleware.Handler unit :=
  fun r db => (handlers.TaskDetailHandler (incoming.request r) db, db).

Definition withToken (method token : string) : incoming.t unit :=
  incoming.mk method "/v2/watcher/talk/view_task_detail"
    (http.mkRequest
       (fun key => if (key =? "Authorization")%string then token else Sample.device) tt).

Definition intruder : incoming.t unit := withToken "POST" "guess".
Definition owner : incoming.t unit := withToken "POST" "secret".
Definition preflight : incoming.t unit := withToken "OPTIONS" EmptyString.

End Fixture.

(** ** Vocabulary for the frame of the voice answer *)

Module Frame.

(** [signed s f]: the float [f] carries the sign [s], or is no number. *)
Definition signed (s : bool) (f : spec_float) : Prop :=
  match f with
  | S754_zero s' | S754_infinity s' | S754_finite s' _ _ => s' = s
  | S754_nan => True
  end.

(** The byte the boundary "---sensecraftboundary---" starts with. *)
Definition dash : ascii := "-"%char.

(** The services of scenario "voice chat" with a Whisper that hears
    [T]. *)
Definition hears (T : string) : handlers.Services :=
  handlers.mkServices (fun _ => http.Replied 200 (Some T)) (handlers.Ollama Sample.chat)
    (handlers.LLaVA Sample.chat) (handlers.Piper Sample.chat).

End Frame.

(** ** Proof steps *)


(** * Properties *)

Unset Implicit Arguments.

(** ** Trimming *)

Section Trimming.

Variable f : ascii -> bool.

Lemma TrimLeftFunc_length (s : string) :
  (String.length (strings.TrimLeftFunc f s) <= String.length s)%nat.
Proof.
  induction s as [|c s IH]; simpl; [lia|].
  destruct (f c); simpl; lia.
Qed.

Lemma TrimRightFunc_length (s : string) :
  (String.length (strings.TrimRightFunc f s) <= String.length s)%nat.
Proof.
  induction s as [|c s IH]; simpl; [lia|].
  destruct (strings.TrimRightFunc f s) as [|d t]; simpl in *.
  - destruct (f c); simpl; lia.
  - lia.
Qed.

Lemma TrimLeftFunc_fixed (s : string) :
  strings.startsWith f s = false -> strings.TrimLeftFunc f s = s.
Proof.
  destruct s as [|c s]; simpl; [reflexivity|].
  intros ->. reflexivity.
Qed.

Lemma TrimRightFunc_fixed (s : string) :
  strings.endsWith f s = false -> strings.TrimRightFunc f s = s.
Proof.
  induction s as [|c s IH]; [reflexivity|].
  intros H. cbn [strings.TrimRightFunc].
  destruct s as [|d s].
  - simpl in *. rewrite H. reflexivity.
  - rewrite IH by exact H. reflexivity.
Qed.

Lemma TrimLeftFunc_same_length (s : string) :
  String.length (strings.TrimLeftFunc f s) = String.length s ->
  strings.startsWith f s = false.
Proof.
  destruct s as [|c s]; simpl; [reflexivity|].
  destruct (f c); [|reflexivity].
  intros H. pose proof (TrimLeftFunc_length s). lia.
Qed.

Lemma TrimRightFunc_same_length (s : string) :
  String.length (strings.TrimRightFunc f s) = String.length s ->
  strings.endsWith f s = false.
Proof.
  induction s as [|c s IH]; [reflexivity|].
  cbn [strings.TrimRightFunc].
  destruct (strings.TrimRightFunc f s) as [|d t] eqn:E.
  - destruct (f c) eqn:Efc; simpl; [lia|].
    destruct s as [|d s]; simpl; [intros _; exact Efc | lia].
  - simpl. intros H.
    destruct s as [|d' s']; [discriminate E|].
    apply IH. simpl in *. lia.
Qed.

Lemma TrimLeftFunc_starts (s : string) :
  strings.startsWith f (strings.TrimLeftFunc f s) = false.
Proof.
  induction s as [|c s IH]; simpl; [reflexivity|].
  destruct (f c) eqn:E; [exact IH | simpl; exact E].
Qed.

Lemma TrimRightFunc_ends (s : string) :
  strings.endsWith f (strings.TrimRightFunc f s) = false.
Proof.
  induction s as [|c s IH]; [reflexivity|].
  cbn [strings.TrimRightFunc].
  destruct (strings.TrimRightFunc f s) as [|d t] eqn:E.
  - destruct (f c) eqn:Efc; simpl; [reflexivity | exact Efc].
  - exact IH.
Qed.

(** Trimming on the right keeps the first byte, if any is left. *)
Lemma TrimRightFunc_keeps_start (g : ascii -> bool) (s : string) :
  strings.startsWith g s = false ->
  strings.startsWith g (strings.TrimRightFunc f s) = false.
Proof.
  destruct s as [|c s]; [reflexivity|].
  cbn [strings.TrimRightFunc strings.startsWith]. intros H.
  destruct (strings.TrimRightFunc f s); [destruct (f c)|]; simpl; auto.
Qed.

(** A byte the trim does not remove is in the result iff it is in the
    argument. *)
Lemma TrimLeftFunc_In (c : ascii) (s : string) :
  f c = false ->
  In c (chars (strings.TrimLeftFunc f s)) <-> In c (chars s).
Proof.
  intros Hc. induction s as [|d s IH]; simpl; [tauto|].
  destruct (f d) eqn:E; simpl; [|tauto].
  rewrite IH. split; [tauto|].
  intros [->|H]; [congruence | exact H].
Qed.

Lemma TrimRightFunc_In (c : ascii) (s : string) :
  f c = false ->
  In c (chars (strings.TrimRightFunc f s)) <-> In c (chars s).
Proof.
  intros Hc. induction s as [|d s IH]; [simpl; tauto|].
  cbn [strings.TrimRightFunc].
  destruct (strings.TrimRightFunc f s) as [|e t] eqn:E.
  - destruct (f d) eqn:Efd; simpl in *.
    + split; [tauto|]. intros [->|H]; [congruence | tauto].
    + tauto.
  - change (d = c \/ In c (chars (String e t)) <-> d = c \/ In c (chars s)).
    rewrite IH. tauto.
Qed.

End Trimming.

Lemma TrimSpace_trimmed (s : string) :
  strings.startsWith strings.asciiSpace (strings.TrimSpace s) = false /\
  strings.endsWith strings.asciiSpace (strings.TrimSpace s) = false.
Proof.
  unfold strings.TrimSpace. split.
  - apply TrimRightFunc_keeps_start, TrimLeftFunc_starts.
  - apply TrimRightFunc_ends.
Qed.

Lemma TrimSpace_fixed (s : string) :
  strings.startsWith strings.asciiSpace s = false ->
  strings.endsWith strings.asciiSpace s = false ->
  strings.TrimSpace s = s.
Proof.
  intros H1 H2. unfold strings.TrimSpace.
  rewrite (TrimLeftFunc_fixed _ _ H1). apply TrimRightFunc_fixed, H2.
Qed.

Lemma TrimSpace_In (c : ascii) (s : string) :
  strings.asciiSpace c = false ->
  In c (chars (strings.TrimSpace s)) <-> In c (chars s).
Proof.
  intros H. unfold strings.TrimSpace.
  rewrite TrimRightFunc_In, TrimLeftFunc_In by exact H. tauto.
Qed.

(** [strings.Contains] with a one-byte substring is membership. *)
Lemma Contains_byte (c : ascii) (s : string) :
  strings.Contains s (String c EmptyString) = true <-> In c (chars s).
Proof.
  induction s as [|d s IH]; simpl.
  - split; [discriminate | tauto].
  - rewrite orb_true_iff, IH.
    destruct s; simpl; rewrite andb_true_r, Ascii.eqb_eq; tauto.
Qed.

Lemma Contains_byte_false (c : ascii) (s : string) :
  strings.Contains s (String c EmptyString) = false <-> ~ In c (chars s).
Proof.
  rewrite <- Contains_byte. destruct (strings.Contains s (String c EmptyString)).
  - split; [discriminate | intros H; exfalso; auto].
  - split; [discriminate | reflexivity].
Qed.

(** ** Normalisation of LLM replies *)

Lemma cleanLLMResponse_trimmed (s : string) :
  strings.startsWith strings.asciiSpace (cleanLLMResponse s) = false /\
  strings.endsWith strings.asciiSpace (cleanLLMResponse s) = false.
Proof. unfold cleanLLMResponse. apply TrimSpace_trimmed. Qed.

(** The strings the normalisation leaves as they are: no white space,
    quote or closing punctuation at the ends. *)
Lemma cleanLLMResponse_fixed_iff (r : string) :
  cleanLLMResponse r = r <->
  strings.startsWith strings.asciiSpace r = false /\
  strings.endsWith strings.asciiSpace r = false /\
  strings.startsWith Spec.isQuote r = false /\
  strings.endsWith Spec.isQuote r = false /\
  strings.endsWith Spec.isPunct r = false.
Proof.
  unfold cleanLLMResponse, strings.Trim, strings.TrimRight, strings.TrimSpace.
  fold Spec.isQuote. fold Spec.isPunct.
  set (sp := strings.asciiSpace).
  split.
  - intros H.
    pose proof (TrimLeftFunc_length sp r) as L1.
    pose proof (TrimRightFunc_length sp (strings.TrimLeftFunc sp r)) as L2.
    set (a := strings.TrimRightFunc sp (strings.TrimLeftFunc sp r)) in *.
    pose proof (TrimRightFunc_length Spec.isQuote a) as L3.
    pose proof (TrimLeftFunc_length Spec.isQuote (strings.TrimRightFunc Spec.isQuote a)) as L4.
    set (b := strings.TrimLeftFunc Spec.isQuote (strings.TrimRightFunc Spec.isQuote a)) in *.
    pose proof (TrimRightFunc_length Spec.isPunct b) as L5.
    set (c := strings.TrimRightFunc Spec.isPunct b) in *.
    pose proof (TrimLeftFunc_length sp c) as L6.
    pose proof (TrimRightFunc_length sp (strings.TrimLeftFunc sp c)) as L7.
    assert (L : String.length (strings.TrimRightFunc sp (strings.TrimLeftFunc sp c))
                = String.length r) by (rewrite H; reflexivity).
    assert (Da : a = strings.TrimRightFunc sp (strings.TrimLeftFunc sp r)) by reflexivity.
    assert (Db : b = strings.TrimLeftFunc Spec.isQuote (strings.TrimRightFunc Spec.isQuote a))
      by reflexivity.
    assert (Dc : c = strings.TrimRightFunc Spec.isPunct b) by reflexivity.
    clearbody a b c sp.
    assert (H1 : strings.startsWith sp r = false)
      by (apply TrimLeftFunc_same_length; lia).
    rewrite (TrimLeftFunc_fixed sp r H1) in *.
    assert (H2 : strings.endsWith sp r = false)
      by (apply TrimRightFunc_same_length; rewrite <- Da; lia).
    rewrite (TrimRightFunc_fixed sp r H2) in Da. subst a.
    assert (H4 : strings.endsWith Spec.isQuote r = false)
      by (apply TrimRightFunc_same_length; lia).
    rewrite (TrimRightFunc_fixed _ r H4) in *.
    assert (H3 : strings.startsWith Spec.isQuote r = false)
      by (apply TrimLeftFunc_same_length; rewrite <- Db; lia).
    rewrite (TrimLeftFunc_fixed _ r H3) in Db. subst b.
    assert (H5 : strings.endsWith Spec.isPunct r = false)
      by (apply TrimRightFunc_same_length; rewrite <- Dc; lia).
    auto.
  - intros (H1 & H2 & H3 & H4 & H5).
    rewrite (TrimLeftFunc_fixed sp r H1), (TrimRightFunc_fixed sp r H2).
    rewrite (TrimRightFunc_fixed _ r H4), (TrimLeftFunc_fixed _ r H3).
    rewrite (TrimRightFunc_fixed _ r H5).
    rewrite (TrimLeftFunc_fixed sp r H1). apply TrimRightFunc_fixed, H2.
Qed.

(** C8 (as amended).  The normalisation maps the example of the
    specification to [Hello world], and applying it twice is applying it
    once exactly on the inputs whose normalisation neither begins nor ends
    with a quote and does not end with one of [.,!?;:]. *)
Theorem cleanLLMResponse_twice :
  cleanLLMResponse (" " ++ dq ++ "Hello world." ++ dq ++ " ")%string = "Hello world" /\
  forall s : string,
    cleanLLMResponse (cleanLLMResponse s) = cleanLLMResponse s <->
    strings.startsWith Spec.isQuote (cleanLLMResponse s) = false /\
    strings.endsWith Spec.isQuote (cleanLLMResponse s) = false /\
    strings.endsWith Spec.isPunct (cleanLLMResponse s) = false.
Proof.
  split; [reflexivity|].
  intros s. rewrite cleanLLMResponse_fixed_iff.
  destruct (cleanLLMResponse_trimmed s) as [H1 H2].
  rewrite H1, H2. tauto.
Qed.

(** C8, the claim as stated fails: a reply whose closing quote is
    followed by a full stop keeps the quote after one pass and loses it in
    the second. *)
Lemma cleanLLMResponse_not_idempotent :
  cleanLLMResponse (dq ++ "Hello world" ++ dq ++ ".")%string = ("Hello world" ++ dq)%string /\
  cleanLLMResponse (cleanLLMResponse (dq ++ "Hello world" ++ dq ++ ".")%string) = "Hello world" /\
  cleanLLMResponse (cleanLLMResponse (dq ++ "Hello world" ++ dq ++ ".")%string)
    <> cleanLLMResponse (dq ++ "Hello world" ++ dq ++ ".")%string.
Proof.
  repeat split; try reflexivity. vm_compute. discriminate.
Qed.

(** ** The mode parser *)

Lemma parseMode_cases (s : string) :
  (In "1"%char (chars s) -> handlers.parseMode s = 1) /\
  (~ In "1"%char (chars s) -> In "2"%char (chars s) -> handlers.parseMode s = 2) /\
  (~ In "1"%char (chars s) -> ~ In "2"%char (chars s) -> handlers.parseMode s = 0).
Proof.
  unfold handlers.parseMode.
  pose proof (TrimSpace_In "1"%char s eq_refl) as T1.
  pose proof (TrimSpace_In "2"%char s eq_refl) as T2.
  destruct (strings.Contains (strings.TrimSpace s) "1") eqn:E1.
  - apply Contains_byte in E1. rewrite T1 in E1. repeat split; tauto.
  - apply Contains_byte_false in E1. rewrite T1 in E1.
    destruct (strings.Contains (strings.TrimSpace s) "2") eqn:E2.
    + apply Contains_byte in E2. rewrite T2 in E2. repeat split; tauto.
    + apply Contains_byte_false in E2. rewrite T2 in E2. repeat split; tauto.
Qed.

(** C2 (as amended).  Whatever the status of the classifier's reply, the
    mode is 1 when the reply holds a digit 1 anywhere, 2 when it holds a
    digit 2 and no 1, and 0 (Chat) when it holds neither. *)
Theorem determineMode_precedence
    (svc : handlers.Services) (transcription : string) (status : Z) (response : string) :
  handlers.Ollama svc (handlers.modePrompt transcription) = http.Replied status (Some response) ->
  (In "1"%char (chars response) -> handlers.determineMode svc transcription = 1) /\
  (~ In "1"%char (chars response) -> In "2"%char (chars response) ->
   handlers.determineMode svc transcription = 2) /\
  (~ In "1"%char (chars response) -> ~ In "2"%char (chars response) ->
   handlers.determineMode svc transcription = 0).
Proof.
  intros H. unfold handlers.determineMode. rewrite H. apply parseMode_cases.
Qed.

Lemma determineMode_precedence_witness :
  handlers.determineMode (Sample.answering "Mode 2") "set an alarm" = 2.
Proof.
  refine (proj1 (proj2 (determineMode_precedence (Sample.answering "Mode 2") "set an alarm"
                          200 "Mode 2" eq_refl)) _ _).
  - vm_compute. intuition discriminate.
  - vm_compute. tauto.
Defined.

(** C2, the claim as stated fails: in the reply [21] the digit 2 comes
    before any digit 1, and the mode is 1. *)
Lemma determineMode_not_first_occurrence :
  Spec.firstDigitOf "12" "21" = Some "2"%char /\
  Spec.modeByFirstOccurrence "21" = 2 /\
  handlers.parseMode "21" = 1 /\
  handlers.determineMode (Sample.answering "21") "set an alarm" = 1.
Proof. repeat split. Qed.

(** ** The model selector *)

Lemma firstDigitOf_Some (digits s : string) (c : ascii) :
  Spec.firstDigitOf digits s = Some c ->
  strings.inCutset digits c = true /\ In c (chars s).
Proof.
  induction s as [|d s IH]; simpl; [discriminate|].
  destruct (strings.inCutset digits d) eqn:E.
  - intros [= <-]. auto.
  - intros H. destruct (IH H). auto.
Qed.

Lemma firstDigitOf_None (digits s : string) (c : ascii) :
  Spec.firstDigitOf digits s = None ->
  strings.inCutset digits c = true -> ~ In c (chars s).
Proof.
  induction s as [|d s IH]; simpl; [tauto|].
  destruct (strings.inCutset digits d) eqn:E; [discriminate|].
  intros H Hc [->|Hin]; [congruence | exact (IH H Hc Hin)].
Qed.

Lemma parseModelType_cases (s : string) :
  (In "2"%char (chars s) -> handlers.parseModelType s = 2) /\
  (~ In "2"%char (chars s) -> In "3"%char (chars s) -> handlers.parseModelType s = 3) /\
  (~ In "2"%char (chars s) -> ~ In "3"%char (chars s) -> In "0"%char (chars s) ->
   handlers.parseModelType s = 0) /\
  (~ In "2"%char (chars s) -> ~ In "3"%char (chars s) -> ~ In "0"%char (chars s) ->
   handlers.parseModelType s = 1).
Proof.
  unfold handlers.parseModelType.
  destruct (strings.Contains s "2") eqn:E2;
    [apply Contains_byte in E2 | apply Contains_byte_false in E2];
    [repeat split; tauto|].
  destruct (strings.Contains s "3") eqn:E3;
    [apply Contains_byte in E3 | apply Contains_byte_false in E3];
    [repeat split; tauto|].
  destruct (strings.Contains s "0") eqn:E0;
    [apply Contains_byte in E0 | apply Contains_byte_false in E0];
    repeat split; tauto.
Qed.

Lemma inCutset_0123 (c : ascii) :
  strings.inCutset "0123" c = true ->
  c = "0"%char \/ c = "1"%char \/ c = "2"%char \/ c = "3"%char.
Proof.
  unfold strings.inCutset. simpl.
  rewrite !orb_true_iff, !Ascii.eqb_eq. intuition congruence.
Qed.

(** C7 (as amended).  The model kind follows the precedence 2, 3, 0, else
    1, wherever the digits stand in the reply; it is the kind of the first
    digit found when the reply holds no two different digits among 0, 1,
    2 and 3. *)
Theorem parseModelType_precedence (s : string) :
  (In "2"%char (chars s) -> handlers.parseModelType s = 2) /\
  (~ In "2"%char (chars s) -> In "3"%char (chars s) -> handlers.parseModelType s = 3) /\
  (~ In "2"%char (chars s) -> ~ In "3"%char (chars s) -> In "0"%char (chars s) ->
   handlers.parseModelType s = 0) /\
  (~ In "2"%char (chars s) -> ~ In "3"%char (chars s) -> ~ In "0"%char (chars s) ->
   handlers.parseModelType s = 1) /\
  ((forall c d : ascii,
       strings.inCutset "0123" c = true -> strings.inCutset "0123" d = true ->
       In c (chars s) -> In d (chars s) -> c = d) ->
   handlers.parseModelType s = Spec.modelTypeByFirstOccurrence s).
Proof.
  destruct (parseModelType_cases s) as (P2 & P3 & P0 & P1).
  repeat split; try assumption.
  intros U. unfold Spec.modelTypeByFirstOccurrence.
  destruct (Spec.firstDigitOf "0123" s) as [c|] eqn:E.
  - destruct (firstDigitOf_Some _ _ _ E) as [Hc Hin].
    assert (N : forall d, strings.inCutset "0123" d = true -> d <> c -> ~ In d (chars s)).
    { intros d Hd Hne Hd'. apply Hne. exact (U d c Hd Hc Hd' Hin). }
    destruct (inCutset_0123 c Hc) as [-> | [-> | [-> | ->]]]; simpl.
    + apply P0; auto; apply N; (reflexivity || discriminate).
    + apply P1; apply N; (reflexivity || discriminate).
    + apply P2; auto.
    + apply P3; auto; apply N; (reflexivity || discriminate).
  - apply P1; apply (firstDigitOf_None _ _ _ E); reflexivity.
Qed.

(** C7, the claim as stated fails: the normalised reply [32] gives the
    kind 2 (Pet), and the first of the digits in it is 3, whether or not
    the digit 1 counts among them. *)
Lemma parseModelType_not_first_occurrence :
  cleanLLMResponse "32" = "32" /\
  Spec.firstDigitOf "0123" "32" = Some "3"%char /\
  Spec.firstDigitOf "230" "32" = Some "3"%char /\
  Spec.modelTypeByFirstOccurrence "32" = 3 /\
  handlers.parseModelType "32" = 2.
Proof. repeat split. Qed.

(** ** The duration of the synthesised audio *)

(** A blob shorter than the WAV header has duration 0. *)
Lemma durationOfSize_short (size : Z) :
  size < 44 -> handlers.durationOfSize size = 0.
Proof.
  intros H. unfold handlers.durationOfSize.
  replace (size - 44 <? 0) with true by (symmetry; apply Z.ltb_lt; lia).
  reflexivity.
Qed.

(** One second of PCM after the header is 1000 ms. *)
Lemma durationOfSize_one_second :
  handlers.durationOfSize 32044 = 1000 /\ Spec.duration_ms 32044 = 1000.
Proof. split; reflexivity. Qed.

(** C3, where the code and the claim part: a WAV of 32076 bytes holds
    32032 bytes of PCM, which is 1001 ms exactly; the quotient by 32000.0
    is rounded below 1.001, its product by 1000 falls short of 1001, and
    the conversion to [int] drops the fraction. *)
Theorem audioDurationMs_falls_short :
  handlers.len (repeat "000"%byte (Z.to_nat 32076)) = 32076 /\
  handlers.audioDurationMs (repeat "000"%byte (Z.to_nat 32076)) = 1000 /\
  Spec.duration_ms 32076 = 1001.
Proof. repeat split; vm_compute; reflexivity. Qed.

(** ** The framing of the voice response *)

Lemma bytes_app (a b : string) : http.bytes (a ++ b)%string = http.bytes a ++ http.bytes b.
Proof.
  unfold http.bytes, list_byte_of_string.
  induction a as [|c a IH]; simpl; [reflexivity|].
  f_equal. exact IH.
Qed.


Lemma append_assoc_r (a b c : string) : ((a ++ b) ++ c = a ++ (b ++ c))%string.
Proof. induction a; simpl; congruence. Qed.

(** The bytes of the JSON metadata: the encoder writes the keys of a map
    in increasing order, with no white space. *)
Lemma jsonResponse_encode (mode duration : Z) (T R : string) :
  json.encode (handlers.jsonResponse mode duration T R) =
  Sprintf ["{"; dq; "code"; dq; ":200,"; dq; "data"; dq; ":{";
           dq; "duration"; dq; ":"; strconv.Itoa duration; ",";
           dq; "mode"; dq; ":"; strconv.Itoa mode; ",";
           dq; "screen_text"; dq; ":"; json.quote R; ",";
           dq; "stt_result"; dq; ":"; json.quote T; "}}"].
Proof.
  unfold handlers.jsonResponse, Sprintf.
  cbn [json.encode map json.sortEntries fold_right].
  generalize (strconv.Itoa mode) (strconv.Itoa duration) (json.quote T) (json.quote R).
  intros m d t r.
  cbv -[String.append].
  rewrite !append_assoc_r. reflexivity.
Qed.


(** The two ways to a 200 answer: a chat reply, and the confirmation of
    a compiled task. *)
Lemma AudioStreamHandler_chat
    (svc : handlers.Services) (now : Z) (r : http.Request (option (list byte)))
    (db : database.DB) (body : list byte) (T R : string) (A : list byte) :
  http.Body r = Some body ->
  handlers.transcribeAudio svc body = Ok T ->
  handlers.determineMode svc T = 0 ->
  handlers.processChatMode svc T = Ok R ->
  handlers.synthesizeSpeech svc R = Ok A ->
  handlers.AudioStreamHandler svc now r db = (Spec.framed 0 T R A, db).
Proof.
  intros Hb HT Hm HR HA. unfold handlers.AudioStreamHandler.
  rewrite Hb, HT. cbv zeta. rewrite Hm. cbn [Z.eqb]. rewrite HR, HA.
  unfold json.Marshal, Spec.framed, handlers.boundary. cbv zeta.
  rewrite bytes_app. reflexivity.
Qed.

Lemma AudioStreamHandler_task
    (svc : handlers.Services) (now : Z) (r : http.Request (option (list byte)))
    (db db' : database.DB) (body : list byte) (T R : string) (A : list byte) :
  http.Body r = Some body ->
  handlers.transcribeAudio svc body = Ok T ->
  handlers.determineMode svc T <> 0 ->
  handlers.processTaskMode svc now T (handlers.determineMode svc T)
    (http.Header r "API-OBITER-DEVICE-EUI") db = (Ok R, db') ->
  handlers.synthesizeSpeech svc R = Ok A ->
  handlers.AudioStreamHandler svc now r db =
    (Spec.framed (handlers.determineMode svc T) T R A, db').
Proof.
  intros Hb HT Hm HR HA. unfold handlers.AudioStreamHandler.
  rewrite Hb, HT. cbv zeta. apply Z.eqb_neq in Hm. rewrite Hm, HR, HA.
  unfold json.Marshal, Spec.framed, handlers.boundary. cbv zeta.
  rewrite bytes_app. reflexivity.
Qed.


(** Scenario "voice chat", end to end: the answer on the sample
    services. *)
Example AudioStreamHandler_chat_scenario :
  let resp := fst (handlers.AudioStreamHandler Sample.chat 0 Sample.voiceRequest
                     database.empty) in
  http.StatusCode resp = 200 /\
  http.Get "Content-Length" resp = Some "223" /\
  firstn 115 (http.ResponseBody resp) =
    http.bytes (Sprintf ["{"; dq; "code"; dq; ":200,"; dq; "data"; dq; ":{";
                         dq; "duration"; dq; ":2,"; dq; "mode"; dq; ":0,";
                         dq; "screen_text"; dq; ":"; dq; "Hi there."; dq; ",";
                         dq; "stt_result"; dq; ":"; dq; "hello"; dq; "}}";
                         "---sensecraftboundary---"; Spec.newline]) /\
  skipn 115 (http.ResponseBody resp) = repeat "000"%byte 108.
Proof. vm_compute. repeat split. Qed.

(** ** The task-detail endpoint *)

Lemma filter_none {A : Type} (f : A -> bool) (l : list A) :
  (forall x, In x l -> f x = false) -> filter f l = [].
Proof.
  induction l as [|x l IH]; simpl; [reflexivity|].
  intros H. rewrite (H x) by auto. apply IH. auto.
Qed.

(** The read path on a device that has no row. *)
Lemma GetTaskFlowsByDevice_none (deviceEUI : string) (db : database.DB) :
  (forall row, In row (database.flows db) ->
               database.task_flows.device_eui row <> deviceEUI) ->
  database.GetTaskFlowsByDevice deviceEUI db = Ok [].
Proof.
  intros H. unfold database.GetTaskFlowsByDevice.
  rewrite filter_none; [reflexivity|].
  intros row Hin. apply String.eqb_neq. auto.
Qed.

(** C5.  For a device with no stored task flow the task-detail endpoint
    answers 200 with the JSON document whose [data.tl] is the empty
    object: the body is [{"code":200,"data":{"tl":{}}}] and the newline
    the encoder ends with. *)
Theorem TaskDetailHandler_no_task (r : http.Request unit) (db : database.DB) :
  (forall row, In row (database.flows db) ->
               database.task_flows.device_eui row <> http.Header r "API-OBITER-DEVICE-EUI") ->
  exists resp : http.Response,
    handlers.TaskDetailHandler r db = Some resp /\
    http.StatusCode resp = 200 /\
    resp = http.WriteJSON 200
             (json.Map [("code", json.Int 200);
                        ("data", json.Map [("tl", json.Map [])])]) /\
    http.ResponseBody resp = http.bytes (Spec.emptyTaskDetail ++ Spec.newline).
Proof.
  intros H. unfold handlers.TaskDetailHandler.
  rewrite (GetTaskFlowsByDevice_none _ db H).
  eexists. split; [reflexivity|]. repeat split.
Qed.

Lemma TaskDetailHandler_no_task_witness :
  exists resp : http.Response,
    handlers.TaskDetailHandler Sample.detailRequest database.empty = Some resp /\
    http.StatusCode resp = 200 /\
    resp = http.WriteJSON 200
             (json.Map [("code", json.Int 200);
                        ("data", json.Map [("tl", json.Map [])])]) /\
    http.ResponseBody resp = http.bytes (Spec.emptyTaskDetail ++ Spec.newline).
Proof.
  apply (TaskDetailHandler_no_task Sample.detailRequest database.empty).
  simpl. tauto.
Defined.

(** ** Reification to the node graph *)

Lemma orderByDesc_In {A : Type} (key : A -> Z) (x : A) (l : list A) :
  In x (database.orderByDesc key l) <-> In x l.
Proof.
  unfold database.orderByDesc.
  assert (Hins : forall y acc, In x (database.insertDesc key y acc) <-> x = y \/ In x acc).
  { intros y acc. induction acc as [|z acc IH]; simpl; [intuition|].
    destruct (key z <? key y); simpl; [intuition | rewrite IH; intuition]. }
  assert (G : forall acc, In x (fold_left (fun acc y => database.insertDesc key y acc) l acc)
                          <-> In x l \/ In x acc).
  { induction l as [|y l IH]; intros acc; simpl; [tauto|].
    rewrite IH, Hins. intuition. }
  rewrite G. simpl. tauto.
Qed.

(** C9.  Reification is defined on every flow with a first target
    object, and node 1 then carries one condition, on that class; the
    read path turns a row whose [target_objects] text does not parse into
    a flow with no target object, on which reification is undefined; and
    such rows exist. *)
Theorem convertToNodeREDFormat_defined :
  (forall (task : database.TaskFlow) (class : string) (others : list string),
      database.TargetObjects task = class :: others ->
      exists tl : json.Value,
        handlers.convertToNodeREDFormat task = Some tl /\
        Spec.node1Conditions tl = Some (Spec.conditionsOn class)) /\
  (forall (db : database.DB) (row : database.task_flows.row) (e : string),
      In row (database.flows db) ->
      json.UnmarshalStrings (database.task_flows.target_objects row) = Err e ->
      exists (flows : list database.TaskFlow) (task : database.TaskFlow),
        database.GetTaskFlowsByDevice (database.task_flows.device_eui row) db = Ok flows /\
        In task flows /\
        database.ID task = database.task_flows.id row /\
        database.TargetObjects task = [] /\
        handlers.convertToNodeREDFormat task = None) /\
  (exists task : database.TaskFlow,
      database.GetTaskFlowsByDevice Sample.device Sample.damaged = Ok [task] /\
      database.TargetObjects task = [] /\
      handlers.convertToNodeREDFormat task = None /\
      handlers.TaskDetailHandler Sample.detailRequest Sample.damaged = None).
Proof.
  split; [|split].
  - intros task class others H. unfold handlers.convertToNodeREDFormat.
    rewrite H. cbn [nth_error]. eexists. split; reflexivity.
  - intros db row e Hin He.
    unfold database.GetTaskFlowsByDevice.
    eexists. exists (database.scanTaskFlow row).
    split; [reflexivity|]. split; [|split; [reflexivity|]].
    + apply in_map, orderByDesc_In, filter_In. split; [exact Hin|].
      apply String.eqb_refl.
    + assert (Ht : database.TargetObjects (database.scanTaskFlow row) = []).
      { cbn [database.scanTaskFlow database.TargetObjects].
        unfold database.parseArray. rewrite He. reflexivity. }
      split; [exact Ht|].
      unfold handlers.convertToNodeREDFormat. rewrite Ht. reflexivity.
  - eexists. repeat split.
Qed.

Lemma convertToNodeREDFormat_defined_witness :
  exists tl : json.Value,
    handlers.convertToNodeREDFormat Sample.watchPerson = Some tl /\
    Spec.node1Conditions tl = Some (Spec.conditionsOn "person").
Proof.
  apply (proj1 convertToNodeREDFormat_defined Sample.watchPerson "person" []).
  reflexivity.
Defined.

(** ** Supersession of task flows *)

Section Supersession.

Import handlers.

Lemma filter_all {A : Type} (l : list A) : filter (fun _ => true) l = l.
Proof. induction l; simpl; congruence. Qed.

Lemma filter_filter {A : Type} (f g : A -> bool) (l : list A) :
  filter f (filter g l) = filter (fun x => g x && f x) l.
Proof.
  induction l as [|x l IH]; simpl; [reflexivity|].
  destruct (g x); simpl; [destruct (f x)|]; rewrite IH; reflexivity.
Qed.

(** What the deletion loop leaves: the rows whose identifier is that of
    none of the flows it was given; the counters and the events stay. *)
Lemma deleteOldTasks_flows (oldTasks : list database.TaskFlow) (db : database.DB) :
  deleteOldTasks oldTasks db =
  database.mkDB
    (filter (fun r => negb (existsb (fun t => database.task_flows.id r =? database.ID t) oldTasks))
            (database.flows db))
    (database.flows_seq db) (database.events db) (database.events_seq db).
Proof.
  revert db. induction oldTasks as [|t ts IH]; intros db.
  - simpl. rewrite filter_all. destruct db; reflexivity.
  - cbn [deleteOldTasks fold_left]. fold (deleteOldTasks ts).
    change (deleteOldTasks ts (snd (database.DeleteTaskFlow (database.ID t) db)) = 
      database.mkDB
    (filter (fun r => negb (existsb (fun t => database.task_flows.id r =? database.ID t) (t :: ts)))
            (database.flows db))
    (database.flows_seq db) (database.events db) (database.events_seq db)).
    rewrite IH.
    unfold database.DeleteTaskFlow.
    match goal with |- context [if ?c then _ else _] => destruct c end;
      cbn [snd database.flows database.flows_seq database.events database.events_seq];
      rewrite filter_filter; f_equal; apply filter_ext; intros r; simpl;
      rewrite negb_orb; reflexivity.
Qed.

Lemma old_flows_gone (deviceEUI : string) (db : database.DB) :
  let db1 :=
    match database.GetTaskFlowsByDevice deviceEUI db with
    | Ok oldTasks => if 0 <? len oldTasks then deleteOldTasks oldTasks db else db
    | Err _ => db
    end in
  (forall r, In r (database.flows db1) ->
             (database.task_flows.device_eui r =? deviceEUI)%string = false) /\
  (forall r, In r (database.flows db1) -> In r (database.flows db)) /\
  database.flows_seq db1 = database.flows_seq db.
Proof.
  unfold database.GetTaskFlowsByDevice.
  set (mine := filter _ (database.flows db)).
  assert (Hold : forall r, In r (database.flows db) ->
                 (database.task_flows.device_eui r =? deviceEUI)%string = true ->
                 In (database.scanTaskFlow r)
                    (map database.scanTaskFlow
                       (database.orderByDesc database.task_flows.created_at mine))).
  { intros r Hin Hd. apply in_map, orderByDesc_In. unfold mine.
    apply filter_In. auto. }
  set (oldTasks := map database.scanTaskFlow _) in *.
  cbv zeta. destruct (0 <? len oldTasks) eqn:E.
  - rewrite deleteOldTasks_flows. cbn [database.flows database.flows_seq].
    split; [|split; [|reflexivity]].
    + intros r Hr. apply filter_In in Hr. destruct Hr as [Hin Hno].
      destruct (database.task_flows.device_eui r =? deviceEUI)%string eqn:Ed; [|reflexivity].
      exfalso. apply negb_true_iff in Hno.
      assert (Hex : existsb (fun t => database.task_flows.id r =? database.ID t) oldTasks = true).
      { apply existsb_exists. exists (database.scanTaskFlow r).
        split; [apply Hold; assumption | apply Z.eqb_refl]. }
      congruence.
    + intros r Hr. apply filter_In in Hr. tauto.
  - split; [|split; [tauto | reflexivity]].
    intros r Hin.
    destruct (database.task_flows.device_eui r =? deviceEUI)%string eqn:Ed; [|reflexivity].
    exfalso. specialize (Hold r Hin Ed).
    destruct oldTasks; [exact Hold|].
    unfold len in E. simpl in E. apply Z.ltb_ge in E. lia.
Qed.

Lemma processTaskMode_stores
    (svc : Services) (now : Z) (T : string) (mode : Z) (D : string)
    (db db' : database.DB) (reply : string) :
  processTaskMode svc now T mode D db = (Ok reply, db') ->
  exists (kept : list database.task_flows.row) (new : database.task_flows.row),
    database.flows db' = kept ++ [new] /\
    (forall r, In r kept ->
       (database.task_flows.device_eui r =? D)%string = false /\ In r (database.flows db)) /\
    database.task_flows.device_eui new = D /\
    database.task_flows.name new = T /\
    database.task_flows.created_at new = now /\
    database.task_flows.id new = database.nextID (database.flows_seq db)
                                   (map database.task_flows.id kept) /\
    database.flows_seq db' = database.task_flows.id new /\
    reply = Sprintf ["I've created a monitoring task: "; database.task_flows.headline new;
                     ". I'll watch for "; database.task_flows.trigger_condition new; "."].
Proof.
  unfold processTaskMode. intros H.
  destruct (callOllamaSimple svc (triggerPrompt T)) as [trigger|e]; [|discriminate H].
  cbv zeta in H.
  pose proof (old_flows_gone D db) as G. cbv zeta in G.
  match type of G with
  | (forall r, In r (database.flows ?d) -> _) /\ _ => set (db1 := d) in *
  end.
  destruct G as (G1 & G2 & G3).
  injection H as Hreply Hdb.
  unfold database.SaveTaskFlow, json.MarshalStrings, json.Marshal in Hdb.
  cbn [snd database.TargetObjects database.Actions database.DeviceEUI database.Name
       database.Headline database.TriggerCondition database.ModelType] in Hdb.
  subst db'. cbn [database.flows database.flows_seq].
  eexists. eexists. split; [reflexivity|].
  split; [intros r Hr; split; [apply G1 | apply G2]; exact Hr|].
  cbn [database.task_flows.device_eui database.task_flows.name
       database.task_flows.created_at database.task_flows.id
       database.task_flows.headline database.task_flows.trigger_condition].
  rewrite G3. repeat split. symmetry. exact Hreply.
Qed.

Lemma nextID_above (seq : Z) (ids : list Z) :
  seq < database.nextID seq ids /\ forall x, In x ids -> x < database.nextID seq ids.
Proof.
  unfold database.nextID. induction ids as [|i ids [IH1 IH2]]; cbn [fold_right In].
  - split; [lia | tauto].
  - split; [lia|]. intros x [->|Hx]; [lia|]. specialize (IH2 x Hx). lia.
Qed.

(** After a compilation that completes, the device has one flow: the
    row just inserted. *)
Lemma processTaskMode_one_flow
    (svc : Services) (now : Z) (T : string) (mode : Z) (D : string)
    (db db' : database.DB) (reply : string) :
  processTaskMode svc now T mode D db = (Ok reply, db') ->
  exists new : database.task_flows.row,
    In new (database.flows db') /\
    database.GetTaskFlowsByDevice D db' = Ok [database.scanTaskFlow new] /\
    database.task_flows.device_eui new = D /\
    database.task_flows.name new = T /\
    database.task_flows.created_at new = now /\
    database.flows_seq db < database.task_flows.id new /\
    (forall r, In r (database.flows db') ->
               database.task_flows.id r <= database.flows_seq db') /\
    reply = Sprintf ["I've created a monitoring task: "; database.task_flows.headline new;
                     ". I'll watch for "; database.task_flows.trigger_condition new; "."].
Proof.
  intros H.
  destruct (processTaskMode_stores _ _ _ _ _ _ _ _ H)
    as (kept & new & Hf & Hk & Hd & Hn & Hc & Hi & Hs & Hr).
  destruct (nextID_above (database.flows_seq db) (map database.task_flows.id kept)) as [N1 N2].
  exists new. split; [rewrite Hf; apply in_or_app; simpl; auto|].
  split; [|repeat split; try assumption].
  - unfold database.GetTaskFlowsByDevice. rewrite Hf, filter_app.
    rewrite (filter_none _ kept) by (intros r Hr'; apply Hk; exact Hr').
    cbn [filter app]. rewrite Hd, String.eqb_refl. reflexivity.
  - lia.
  - intros r Hr'. rewrite Hf in Hr'. apply in_app_or in Hr'. rewrite Hs.
    destruct Hr' as [Hr'|[<-|[]]]; [|lia].
    specialize (N2 _ (in_map database.task_flows.id _ _ Hr')). lia.
Qed.

(** C4.  When the compilation path completes for a first request and
    then for a second request of the same device, the read path returns
    one flow for the device: the one of the second request (its name is
    the second transcript, its creation instant the second one, its
    headline and trigger those of the second confirmation), with an
    identifier above that of every row the first request left. *)
Theorem processTaskMode_supersedes
    (svc1 svc2 : Services) (now1 now2 : Z) (T1 T2 : string) (mode1 mode2 : Z)
    (D : string) (db0 db1 db2 : database.DB) (reply1 reply2 : string) :
  processTaskMode svc1 now1 T1 mode1 D db0 = (Ok reply1, db1) ->
  processTaskMode svc2 now2 T2 mode2 D db1 = (Ok reply2, db2) ->
  exists t2 : database.TaskFlow,
    database.GetTaskFlowsByDevice D db2 = Ok [t2] /\
    database.DeviceEUI t2 = D /\
    database.Name t2 = T2 /\
    database.CreatedAt t2 = now2 /\
    (forall row, In row (database.flows db1) -> database.task_flows.id row < database.ID t2) /\
    reply2 = Sprintf ["I've created a monitoring task: "; database.Headline t2;
                      ". I'll watch for "; database.TriggerCondition t2; "."].
Proof.
  intros H1 H2.
  destruct (processTaskMode_one_flow _ _ _ _ _ _ _ _ H1) as (new1 & _ & _ & _ & _ & _ & _ & I1 & _).
  destruct (processTaskMode_one_flow _ _ _ _ _ _ _ _ H2)
    as (new2 & _ & G & Hd & Hn & Hc & Hi & _ & Hr).
  exists (database.scanTaskFlow new2).
  split; [exact G|]. repeat split; try assumption.
  intros row Hrow. specialize (I1 row Hrow).
  cbn [database.scanTaskFlow database.ID]. lia.
Qed.

Lemma processTaskMode_supersedes_witness :
  exists t2 : database.TaskFlow,
    database.GetTaskFlowsByDevice Sample.device Sample.afterSecond = Ok [t2] /\
    database.DeviceEUI t2 = Sample.device /\
    database.Name t2 = Sample.secondRequest /\
    database.CreatedAt t2 = 1700000060000000000 /\
    (forall row, In row (database.flows Sample.afterFirst) ->
                 database.task_flows.id row < database.ID t2) /\
    "I've created a monitoring task: Watch for dog. I'll watch for dog on the sofa." =
      Sprintf ["I've created a monitoring task: "; database.Headline t2;
               ". I'll watch for "; database.TriggerCondition t2; "."].
Proof.
  apply (processTaskMode_supersedes Sample.tasks Sample.tasks
           1700000000000000000 1700000060000000000
           Sample.firstRequest Sample.secondRequest 1 1 Sample.device
           database.empty Sample.afterFirst Sample.afterSecond
           "I've created a monitoring task: Watch for person. I'll watch for person arrives."
           "I've created a monitoring task: Watch for dog. I'll watch for dog on the sofa.").
  - vm_compute. reflexivity.
  - vm_compute. reflexivity.
Defined.

(** Scenario "voice task": the confirmation, and the flow stored. *)
Example voice_task_scenario :
  processTaskMode Sample.tasks 1700000000000000000 Sample.firstRequest 1 Sample.device
    database.empty =
    (Ok "I've created a monitoring task: Watch for person. I'll watch for person arrives.",
     Sample.afterFirst) /\
  database.GetTaskFlowsByDevice Sample.device Sample.afterFirst =
    Ok [database.mkTaskFlow 1 Sample.device Sample.firstRequest "Watch for person"
          "person arrives" ["person"] ["notify"] 1
          1700000000000000000 1700000000000000000].
Proof. split; vm_compute; reflexivity. Qed.

(** Scenario "task detail after supersession": the stored flow is the
    second one, and the endpoint answers with its graph. *)
Example task_detail_after_supersession :
  database.GetTaskFlowsByDevice Sample.device Sample.afterSecond =
    Ok [database.mkTaskFlow 2 Sample.device Sample.secondRequest "Watch for dog"
          "dog on the sofa" ["dog"] ["notify"] 2
          1700000060000000000 1700000060000000000] /\
  exists tl : json.Value,
    TaskDetailHandler Sample.detailRequest Sample.afterSecond =
      Some (http.WriteJSON 200
              (json.Map [("code", json.Int 200); ("data", json.Map [("tl", tl)])])) /\
    json.member "tn" tl = Some (json.Str "Watch for dog") /\
    json.member "tlid" tl = Some (json.Int 2) /\
    Spec.node1Conditions tl = Some (Spec.conditionsOn "dog").
Proof.
  split; [vm_compute; reflexivity|].
  destruct (convertToNodeREDFormat
              (database.mkTaskFlow 2 Sample.device Sample.secondRequest "Watch for dog"
                 "dog on the sofa" ["dog"] ["notify"] 2
                 1700000060000000000 1700000060000000000)) as [tl|] eqn:E;
    [|discriminate E].
  exists tl. injection E as <-.
  split; [vm_compute; reflexivity | repeat split].
Qed.

End Supersession.

(** ** The state of a vision request *)








(** Lower-casing decides: the cue [yes] is found in [YES], and the cue
    [no] in [NOT]. *)
Example eventState_upper_case :
  handlers.eventState 1 "YES." = 1 /\
  handlers.eventState 1 "YES, BUT NOT NOW." = 0 /\
  Spec.lowerCased "YES, BUT NOT NOW." = "yes, but not now.".
Proof. repeat split. Qed.

(** Scenarios "vision monitoring positive" and "negative". *)
Example eventState_scenarios :
  handlers.eventState 1 "Yes, there is a person in the frame." = 1 /\
  handlers.eventState 1 "No person is visible." = 0 /\
  handlers.eventState 0 "Yes, there is a person in the frame." = 0.
Proof. repeat split. Qed.

(** ** The device identifier of a stored notification *)

(** C10.  Two notification requests with the same headers, request
    identifier and events are handled alike whatever the field
    [deviceEui] of their bodies: same answer, same store.  When the
    handler answers, the row it appended carries the value of the header
    [API-OBITER-DEVICE-EUI] as its device identifier. *)
Theorem NotificationHandler_device_from_header
    (FormatFloat : float -> string) (now : Z) (header : string -> string)
    (requestID eui1 eui2 : string) (events : models.Events) (db : database.DB) :
  handlers.NotificationHandler FormatFloat now
    (http.mkRequest header
       (http.Decoded (models.mkNotificationEventRequest requestID eui1 events))) db =
  handlers.NotificationHandler FormatFloat now
    (http.mkRequest header
       (http.Decoded (models.mkNotificationEventRequest requestID eui2 events))) db /\
  forall (resp : http.Response) (db' : database.DB),
    handlers.NotificationHandler FormatFloat now
      (http.mkRequest header
         (http.Decoded (models.mkNotificationEventRequest requestID eui1 events))) db
      = (Some resp, db') ->
    exists row : database.notification_events.row,
      database.events db' = database.events db ++ [row] /\
      database.notification_events.device_eui row = header "API-OBITER-DEVICE-EUI" /\
      database.notification_events.request_id row = requestID.
Proof.
  split; [reflexivity|].
  unfold handlers.NotificationHandler. cbn [http.Body http.Header].
  intros resp db' H.
  destruct (handlers.logNotificationRequest _); [|discriminate H].
  injection H as _ <-.
  unfold handlers.saveNotificationToDatabase, database.SaveNotificationEvent.
  cbn [snd database.events]. eexists. split; [reflexivity|].
  split; reflexivity.
Qed.

Lemma NotificationHandler_device_from_header_witness :
  exists row : database.notification_events.row,
    database.events
      (snd (handlers.NotificationHandler Sample.shortest 1700000000500000000
              (http.mkRequest (fun _ => Sample.device)
                 (http.Decoded (Sample.notification "FFFFFFFFFFFFFFFF")))
              database.empty))
      = database.events database.empty ++ [row] /\
    database.notification_events.device_eui row = Sample.device /\
    database.notification_events.request_id row = "req-0001".
Proof.
  apply (proj2 (NotificationHandler_device_from_header Sample.shortest 1700000000500000000
                  (fun _ => Sample.device) "req-0001" "FFFFFFFFFFFFFFFF" "0000000000000000"
                  (models.events (Sample.notification "FFFFFFFFFFFFFFFF")) database.empty)
               (http.WriteJSON 200 (json.Struct [("code", json.Int 200)]))).
  vm_compute. reflexivity.
Defined.

(** Scenario "notification roundtrip": the stored row. *)
Example notification_stored :
  database.GetNotificationEventsByDevice Sample.device 10
    (snd (handlers.NotificationHandler Sample.shortest 1700000000500000000
            (http.mkRequest (fun _ => Sample.device)
               (http.Decoded (Sample.notification "FFFFFFFFFFFFFFFF")))
            database.empty)) =
  Ok [database.NotificationEvent.mk 1 "req-0001" Sample.device 1700000000000
        "person detected" EmptyString
        (Sprintf ["{"; dq; "boxes"; dq; ":[[10,20,100,200,87,0],[50,60,70,80,55,1]],";
                  dq; "classes_name"; dq; ":["; dq; "person"; dq; ","; dq; "dog"; dq; "]}"])
        (Sprintf ["{"; dq; "humidity"; dq; ":45,"; dq; "CO2"; dq; ":612}"])
        1700000000500000000].
Proof. vm_compute. reflexivity. Qed.

(** ** JSON arrays of strings, written and read back *)

Lemma Sprintf_cons (x : string) (xs : list string) :
  String.concat EmptyString (x :: xs) = (x ++ String.concat EmptyString xs)%string.
Proof.
  destruct xs as [|y ys]; simpl; [|reflexivity].
  induction x; simpl; congruence.
Qed.

Lemma append_nil_r (s : string) : (s ++ "")%string = s.
Proof. induction s; simpl; congruence. Qed.

Lemma chars_app (a b : string) : chars (a ++ b) = chars a ++ chars b.
Proof. unfold chars. induction a; simpl; congruence. Qed.

Lemma run_app (st : json.State) (a b : string) :
  json.run st (a ++ b) = json.run (json.run st a) b.
Proof. revert st. induction a as [|c a IH]; intros st; simpl; [reflexivity | apply IH]. Qed.

Section Decoding.

Import Encoding.

Lemma Forall_repeat_Invalid (n : nat) : Forall good (repeat utf8.Invalid n).
Proof. induction n; simpl; constructor; simpl; auto. Qed.

Lemma lead_underway (c : ascii) (q : utf8.Pending) :
  (N_of_ascii c <? 128)%N = false -> utf8.lead c = Some q -> underway q.
Proof.
  intros Hc Hl.
  assert (Hf : utf8.fresh c = ([], Some q)).
  { unfold utf8.fresh. rewrite Hc, Hl. reflexivity. }
  assert (Hs : utf8.seen q = String c EmptyString /\ (128 <= utf8.lo q)%N).
  { unfold utf8.lead in Hl.
    repeat match type of Hl with
           | (if ?b then _ else _) = _ => destruct b
           end; try discriminate Hl; injection Hl as <-; simpl; split; (reflexivity || lia). }
  destruct Hs as [Hs Hlo].
  split; [|split; [|split]].
  - intros rest. rewrite Hs. simpl. rewrite Hf. reflexivity.
  - rewrite Hs. simpl. unfold isHigh. apply N.ltb_ge in Hc. apply N.leb_le in Hc.
    rewrite Hc. reflexivity.
  - rewrite Hs. discriminate.
  - exact Hlo.
Qed.

Lemma fresh_good (c : ascii) :
  Forall good (fst (utf8.fresh c)) /\
  match snd (utf8.fresh c) with Some q => underway q | None => True end.
Proof.
  unfold utf8.fresh. destruct (N_of_ascii c <? 128)%N eqn:Hc.
  - simpl. split; [|exact I]. constructor; [|constructor].
    split.
    + intros rest. simpl. unfold utf8.fresh. rewrite Hc. reflexivity.
    + left. exists c. auto.
  - destruct (utf8.lead c) as [q|] eqn:Hl; simpl.
    + split; [constructor | exact (lead_underway c q Hc Hl)].
    + split; [repeat constructor | exact I].
Qed.

Lemma step_good (p : option utf8.Pending) (c : ascii) :
  match p with Some q => underway q | None => True end ->
  Forall good (fst (utf8.step p c)) /\
  match snd (utf8.step p c) with Some q => underway q | None => True end.
Proof.
  destruct p as [q|]; [|intros _; apply fresh_good].
  intros (Hd & Hh & Hn & Hlo).
  assert (Hstep : forall rest,
            utf8.itemsFrom None ((utf8.seen q ++ String c EmptyString) ++ rest) =
            (let (out, p') := utf8.step (Some q) c in out ++ utf8.itemsFrom p' rest)).
  { intros rest. rewrite append_assoc_r. rewrite Hd. reflexivity. }
  unfold utf8.step in *.
  destruct ((utf8.lo q <=? N_of_ascii c) && (N_of_ascii c <=? utf8.hi q))%N eqn:Hr.
  - apply andb_true_iff in Hr. destruct Hr as [Hr1 Hr2]. apply N.leb_le in Hr1.
    assert (Hc : isHigh c = true) by (unfold isHigh; apply N.leb_le; lia).
    assert (Hall : forallb isHigh (chars (utf8.seen q ++ String c EmptyString)) = true).
    { rewrite chars_app, forallb_app, Hh. simpl. rewrite Hc. reflexivity. }
    destruct (utf8.due q) as [|[|k]]; cbn [fst snd].
    + split; [|exact I]. constructor; [|constructor]. split; [exact Hstep|].
      right. destruct (utf8.seen q) as [|a s]; [congruence|].
      destruct s; simpl; eauto.
    + split; [|exact I]. constructor; [|constructor]. split; [exact Hstep|].
      right. destruct (utf8.seen q) as [|a s]; [congruence|].
      destruct s; simpl; eauto.
    + split; [constructor|]. split; [|split; [|split]]; cbn [utf8.seen utf8.lo].
      * exact Hstep.
      * exact Hall.
      * destruct (utf8.seen q); discriminate.
      * lia.
  - destruct (fresh_good c) as [F1 F2]. destruct (utf8.fresh c) as [out p']. cbn [fst snd] in *.
    split; [|exact F2]. apply Forall_app. split; [apply Forall_repeat_Invalid | exact F1].
Qed.

Lemma itemsFrom_good (s : string) (p : option utf8.Pending) :
  match p with Some q => underway q | None => True end ->
  Forall good (utf8.itemsFrom p s).
Proof.
  revert p. induction s as [|c s IH]; intros p Hp.
  - destruct p; simpl; [apply Forall_repeat_Invalid | constructor].
  - simpl. destruct (step_good p c Hp) as [F1 F2].
    destruct (utf8.step p c) as [out p']. cbn [fst snd] in *.
    apply Forall_app. split; [exact F1 | apply IH; exact F2].
Qed.

(** Every rune the decoder finds is an ASCII byte or a run of high
    bytes, and is decoded the same way wherever it stands. *)
Lemma items_good (s : string) : Forall good (utf8.items s).
Proof. apply itemsFrom_good. exact I. Qed.

Lemma RuneError_selfDecoding : selfDecoding (utf8.EncodeRune utf8.RuneError).
Proof. intros rest. reflexivity. Qed.

Lemma items_concat (l : list utf8.Item) (rest : string) :
  Forall good l ->
  utf8.itemsFrom None (String.concat EmptyString (map bytesOf l) ++ rest) =
  map settled l ++ utf8.itemsFrom None rest.
Proof.
  induction 1 as [|i l Hi Hl IH]; [reflexivity|].
  cbn [map]. rewrite Sprintf_cons, append_assoc_r.
  assert (Hsd : selfDecoding (bytesOf i)).
  { destruct i; [apply Hi | apply RuneError_selfDecoding]. }
  rewrite Hsd, IH. reflexivity.
Qed.

Lemma ToValid_concat (s : string) :
  utf8.ToValid s = String.concat EmptyString (map bytesOf (utf8.items s)).
Proof. reflexivity. Qed.

(** A string that was made valid stays as it is. *)
Lemma ToValid_idempotent (s : string) : utf8.ToValid (utf8.ToValid s) = utf8.ToValid s.
Proof.
  rewrite !ToValid_concat. unfold utf8.items at 1.
  rewrite <- (append_nil_r (String.concat _ (map bytesOf (utf8.items s)))) at 1.
  rewrite items_concat by apply items_good.
  cbn [utf8.itemsFrom utf8.abandon]. rewrite app_nil_r, map_map.
  reflexivity.
Qed.

Lemma step_high (c : ascii) (acc : list string) (cur : string) :
  isHigh c = true ->
  json.step (json.InString acc cur None) c =
  json.InString acc (cur ++ String c EmptyString) None.
Proof.
  destruct c as [[] [] [] [] [] [] [] []]; intros H; try discriminate H; reflexivity.
Qed.

Lemma run_high (b : string) (acc : list string) (cur rest : string) :
  forallb isHigh (chars b) = true ->
  json.run (json.InString acc cur None) (b ++ rest) =
  json.run (json.InString acc (cur ++ b) None) rest.
Proof.
  revert cur. induction b as [|c b IH]; intros cur H.
  - simpl. rewrite append_nil_r. reflexivity.
  - simpl in H. apply andb_true_iff in H. destruct H as [Hc Hb].
    cbn [String.append json.run]. rewrite step_high by exact Hc. rewrite IH by exact Hb.
    rewrite append_assoc_r. reflexivity.
Qed.

(** The decoder undoes every escape the encoder writes for an ASCII
    byte. *)
Lemma run_escapeASCII (c : ascii) (acc : list string) (cur rest : string) :
  (N_of_ascii c <? 128)%N = true ->
  json.run (json.InString acc cur None) (json.escapeASCII c ++ rest) =
  json.run (json.InString acc (cur ++ String c EmptyString) None) rest.
Proof.
  destruct c as [[] [] [] [] [] [] [] []]; intros H; try discriminate H; reflexivity.
Qed.

Lemma run_escapeItem (i : utf8.Item) (acc : list string) (cur rest : string) :
  good i ->
  json.run (json.InString acc cur None) (json.escapeItem i ++ rest) =
  json.run (json.InString acc (cur ++ bytesOf i) None) rest.
Proof.
  destruct i as [b|]; [|intros _; reflexivity].
  intros [_ [(c & -> & Hc)|(c & d & b' & -> & Hh)]].
  - apply run_escapeASCII. exact Hc.
  - cbn [json.escapeItem bytesOf].
    destruct (String.eqb_spec (String c (String d b')) (utf8.EncodeRune 8232)) as [->|_];
      [reflexivity|].
    destruct (String.eqb_spec (String c (String d b')) (utf8.EncodeRune 8233)) as [->|_];
      [reflexivity|].
    apply run_high. exact Hh.
Qed.

Lemma run_escaped (l : list utf8.Item) (acc : list string) (cur rest : string) :
  Forall good l ->
  json.run (json.InString acc cur None)
    (String.concat EmptyString (map json.escapeItem l) ++ rest) =
  json.run (json.InString acc (cur ++ String.concat EmptyString (map bytesOf l)) None) rest.
Proof.
  intros H. revert cur. induction H as [|i l Hi Hl IH]; intros cur.
  - simpl. rewrite append_nil_r. reflexivity.
  - cbn [map]. rewrite !Sprintf_cons, append_assoc_r.
    rewrite run_escapeItem by exact Hi. rewrite IH, append_assoc_r. reflexivity.
Qed.

(** A string literal the encoder wrote is read back as the string, its
    invalid bytes replaced. *)
Lemma run_quote (s : string) (acc : list string) (rest : string) :
  json.run (json.InString acc EmptyString None)
    (String.concat EmptyString (map json.escapeItem (utf8.items s)) ++ dq ++ rest) =
  json.run (json.After (acc ++ [utf8.ToValid s])) rest.
Proof.
  rewrite run_escaped by apply items_good.
  change (EmptyString ++ String.concat EmptyString (map bytesOf (utf8.items s)))%string
    with (utf8.ToValid s).
  change (dq ++ rest)%string with (String "034" rest).
  cbn [json.run].
  change (json.step (json.InString acc (utf8.ToValid s) None) "034")
    with (json.After (acc ++ [utf8.ToValid (utf8.ToValid s)])).
  rewrite ToValid_idempotent. reflexivity.
Qed.

End Decoding.

Lemma quote_unfold (s rest : string) :
  (json.quote s ++ rest)%string =
  String "034" (String.concat EmptyString (map json.escapeItem (utf8.items s)) ++ dq ++ rest).
Proof. unfold json.quote. cbn [dq String.append]. rewrite append_assoc_r. reflexivity. Qed.

Lemma run_elements (x : string) (l : list string) (acc : list string) (st : json.State) :
  st = json.Next acc \/ (st = json.Open /\ acc = []) ->
  json.run st (String.concat "," (map json.quote (x :: l)) ++ "]") =
  json.Done (acc ++ map utf8.ToValid (x :: l)).
Proof.
  revert x acc st. induction l as [|y l IH]; intros x acc st Hst.
  - cbn [map String.concat]. rewrite quote_unfold.
    assert (E : json.step st "034" = json.InString acc EmptyString None).
    { destruct Hst as [->|[-> ->]]; reflexivity. }
    cbn [json.run]. rewrite E, run_quote. reflexivity.
  - change (String.concat "," (map json.quote (x :: y :: l)))
      with (json.quote x ++ "," ++ String.concat "," (map json.quote (y :: l)))%string.
    rewrite append_assoc_r, quote_unfold.
    assert (E : json.step st "034" = json.InString acc EmptyString None).
    { destruct Hst as [->|[-> ->]]; reflexivity. }
    cbn [json.run]. rewrite E, run_quote.
    rewrite append_assoc_r. cbn [String.append json.run].
    change (json.step (json.After (acc ++ [utf8.ToValid x])) ",")
      with (json.Next (acc ++ [utf8.ToValid x])).
    rewrite (IH y (acc ++ [utf8.ToValid x]) _ (or_introl eq_refl)).
    rewrite <- app_assoc. reflexivity.
Qed.

Lemma UnmarshalStrings_encode (v : list string) :
  json.UnmarshalStrings (json.encode (json.Slice (map json.Str v))) =
  Ok (map utf8.ToValid v).
Proof.
  unfold json.UnmarshalStrings. cbn [json.encode].
  rewrite map_map. change (fun x => json.encode (json.Str x)) with json.quote.
  destruct v as [|x l]; [reflexivity|].
  cbn [String.append json.run]. change (json.step json.Start "[") with json.Open.
  rewrite (run_elements x l [] json.Open) by auto. reflexivity.
Qed.

Lemma parseArray_encode (v : list string) :
  database.parseArray (json.encode (json.Slice (map json.Str v))) = map utf8.ToValid v.
Proof. unfold database.parseArray. rewrite UnmarshalStrings_encode. reflexivity. Qed.

(** X1.  What [json.Marshal] writes for a list of strings,
    [json.Unmarshal] reads back as a list of the same length whose
    elements are the strings with every byte that is no part of a valid
    UTF-8 encoding replaced by U+FFFD; [json.Marshal] returns no error on
    such a list, and the decoder none on its output. *)
Theorem UnmarshalStrings_MarshalStrings (v : list string) :
  exists text : string,
    json.MarshalStrings v = Ok text /\
    json.UnmarshalStrings text = Ok (map utf8.ToValid v).
Proof.
  eexists. split; [reflexivity|]. apply UnmarshalStrings_encode.
Qed.

(** The round trip on two strings, one of them with a quote, a control
    byte, an ampersand, a two-byte rune and a stray continuation byte. *)
Example UnmarshalStrings_MarshalStrings_sample :
  json.MarshalStrings ["person"; String "034" (String "009" (String "&" (String "195"
                         (String "169" (String "128" EmptyString)))))] =
    Ok (Sprintf ["["; dq; "person"; dq; ","; dq; "\"; dq; "\t\u0026";
                 String "195" (String "169" EmptyString); "\ufffd"; dq; "]"]) /\
  json.UnmarshalStrings
    (Sprintf ["["; dq; "person"; dq; ","; dq; "\"; dq; "\t\u0026";
              String "195" (String "169" EmptyString); "\ufffd"; dq; "]"]) =
    Ok ["person"; String "034" (String "009" (String "&" (String "195"
                    (String "169" (String "239" (String "191" (String "189"
                       EmptyString)))))))].
Proof. split; vm_compute; reflexivity. Qed.

(** ** The store: ordering, identifiers, deletion *)

Section Ordering.

Variable A : Type.
Variable key : A -> Z.

Lemma insertDesc_Permutation (x : A) (l : list A) :
  Permutation (database.insertDesc key x l) (x :: l).
Proof.
  induction l as [|y l IH]; simpl; [reflexivity|].
  destruct (key y <? key x); [reflexivity|].
  rewrite IH. apply perm_swap.
Qed.

Lemma orderByDesc_Permutation (l : list A) : Permutation (database.orderByDesc key l) l.
Proof.
  unfold database.orderByDesc.
  assert (G : forall acc,
            Permutation (fold_left (fun acc x => database.insertDesc key x acc) l acc)
              (acc ++ l)).
  { induction l as [|x l IH]; intros acc; simpl; [rewrite app_nil_r; reflexivity|].
    rewrite IH, insertDesc_Permutation.
    change (x :: acc ++ l) with ((x :: acc) ++ l).
    rewrite (Permutation_middle acc l x). reflexivity. }
  apply (G []).
Qed.

Lemma insertDesc_sorted (x : A) (l : list A) :
  StronglySorted (fun a b => key b <= key a) l ->
  StronglySorted (fun a b => key b <= key a) (database.insertDesc key x l).
Proof.
  induction 1 as [|y l Hl IH Hy]; simpl; [repeat constructor|].
  destruct (key y <? key x) eqn:E.
  - apply Z.ltb_lt in E. constructor; [constructor; assumption|].
    constructor; [lia|].
    eapply Forall_impl; [|exact Hy]. cbv beta. intros a Ha. lia.
  - apply Z.ltb_ge in E. constructor; [exact IH|].
    apply Forall_forall. intros z Hz.
    apply (Permutation_in z (insertDesc_Permutation x l)) in Hz.
    destruct Hz as [<-|Hz]; [exact E|].
    rewrite Forall_forall in Hy. apply Hy, Hz.
Qed.

(** [ORDER BY key DESC] returns the rows by decreasing key. *)
Lemma orderByDesc_sorted (l : list A) :
  StronglySorted (fun a b => key b <= key a) (database.orderByDesc key l).
Proof.
  unfold database.orderByDesc.
  assert (G : forall acc,
            StronglySorted (fun a b => key b <= key a) acc ->
            StronglySorted (fun a b => key b <= key a)
              (fold_left (fun acc x => database.insertDesc key x acc) l acc)).
  { induction l as [|x l IH]; intros acc Hacc; simpl; [exact Hacc|].
    apply IH, insertDesc_sorted, Hacc. }
  apply G. constructor.
Qed.

End Ordering.

Lemma StronglySorted_map {A B : Type} (f : A -> B) (R : B -> B -> Prop) (l : list A) :
  StronglySorted (fun a b => R (f a) (f b)) l -> StronglySorted R (map f l).
Proof.
  induction 1 as [|x l Hl IH Hx]; simpl; constructor; [exact IH|].
  apply Forall_map. exact Hx.
Qed.

Lemma StronglySorted_snoc {A : Type} (R : A -> A -> Prop) (l : list A) (y : A) :
  StronglySorted R l -> Forall (fun x => R x y) l -> StronglySorted R (l ++ [y]).
Proof.
  induction 1 as [|x l Hl IH Hx]; intros Hy; simpl; [repeat constructor|].
  inversion Hy as [|? ? Hxy Hly]; subst.
  constructor; [apply IH, Hly|].
  apply Forall_app. split; [exact Hx | constructor; [exact Hxy | constructor]].
Qed.

Lemma StronglySorted_lt_NoDup (l : list Z) : StronglySorted Z.lt l -> NoDup l.
Proof.
  induction 1 as [|x l Hl IH Hx]; constructor; [|exact IH].
  intros Hin. rewrite Forall_forall in Hx. specialize (Hx x Hin). lia.
Qed.

Lemma map_filter_sorted {A : Type} (f : A -> Z) (g : A -> bool) (l : list A) :
  StronglySorted Z.lt (map f l) -> StronglySorted Z.lt (map f (filter g l)).
Proof.
  induction l as [|x l IH]; simpl; [auto|].
  intros H. apply StronglySorted_inv in H. destruct H as [Hl Hx].
  destruct (g x); simpl; [|apply IH, Hl].
  constructor; [apply IH, Hl|].
  rewrite Forall_forall in *. intros y Hy. apply Hx.
  apply in_map_iff in Hy. destruct Hy as (z & <- & Hz). apply filter_In in Hz.
  apply in_map. tauto.
Qed.

Lemma NoDup_map_eq {A B : Type} (f : A -> B) (l : list A) (x y : A) :
  NoDup (map f l) -> In x l -> In y l -> f x = f y -> x = y.
Proof.
  induction l as [|z l IH]; simpl; [tauto|].
  intros Hnd [->|Hx] [->|Hy] E; auto.
  - exfalso. inversion Hnd as [|? ? Hn _]. apply Hn. rewrite E. apply in_map, Hy.
  - exfalso. inversion Hnd as [|? ? Hn _]. apply Hn. rewrite <- E. apply in_map, Hx.
  - apply IH; auto. inversion Hnd; assumption.
Qed.

Lemma find_last {A : Type} (f : A -> bool) (l : list A) (x : A) :
  (forall y, In y l -> f y = false) -> f x = true -> find f (l ++ [x]) = Some x.
Proof.
  intros Hl Hx. induction l as [|y l IH]; simpl; [rewrite Hx; reflexivity|].
  rewrite (Hl y) by (left; reflexivity). apply IH. intros z Hz. apply Hl. right. exact Hz.
Qed.

Lemma find_none_iff {A : Type} (f : A -> bool) (l : list A) :
  find f l = None <-> forall x, In x l -> f x = false.
Proof.
  split; [apply find_none|].
  induction l as [|x l IH]; simpl; [reflexivity|].
  intros H. rewrite (H x) by auto. apply IH. auto.
Qed.

Lemma find_filter_other {A : Type} (f g : A -> bool) (l : list A) :
  (forall x, f x = true -> g x = true) -> find f (filter g l) = find f l.
Proof.
  intros H. induction l as [|x l IH]; simpl; [reflexivity|].
  destruct (g x) eqn:Eg; simpl.
  - destruct (f x); [reflexivity | exact IH].
  - destruct (f x) eqn:Ef; [rewrite (H x Ef) in Eg; discriminate Eg | exact IH].
Qed.

Lemma filter_length_all {A : Type} (f : A -> bool) (l : list A) :
  (List.length (filter f l) <= List.length l)%nat /\
  (List.length (filter f l) = List.length l <-> forall x, In x l -> f x = true).
Proof.
  induction l as [|x l [IH1 IH2]]; simpl; [split; [lia | tauto]|].
  destruct (f x) eqn:E; simpl.
  - split; [lia|]. split.
    + intros H y [<-|Hy]; [exact E|]. apply IH2; [lia | exact Hy].
    + intros H. f_equal. apply IH2. auto.
  - split; [lia|]. split; [lia|].
    intros H. rewrite (H x) in E by auto. discriminate E.
Qed.

Lemma filter_id {A : Type} (f : A -> bool) (l : list A) :
  (forall x, In x l -> f x = true) -> filter f l = l.
Proof.
  induction l as [|x l IH]; simpl; [reflexivity|].
  intros H. rewrite (H x) by auto. f_equal. apply IH. auto.
Qed.

(** What [SaveTaskFlow] returns and leaves. *)
Lemma SaveTaskFlow_eq (now : Z) (taskFlow : database.TaskFlow) (db : database.DB) :
  database.SaveTaskFlow now taskFlow db =
  (let id := database.nextID (database.flows_seq db)
               (map database.task_flows.id (database.flows db)) in
   (Ok (database.mkTaskFlow id (database.DeviceEUI taskFlow) (database.Name taskFlow)
          (database.Headline taskFlow) (database.TriggerCondition taskFlow)
          (database.TargetObjects taskFlow) (database.Actions taskFlow)
          (database.ModelType taskFlow) now now),
    database.mkDB
      (database.flows db ++
       [database.task_flows.mk id (database.DeviceEUI taskFlow) (database.Name taskFlow)
          (database.Headline taskFlow) (database.TriggerCondition taskFlow)
          (json.encode (json.Slice (map json.Str (database.TargetObjects taskFlow))))
          (json.encode (json.Slice (map json.Str (database.Actions taskFlow))))
          (database.ModelType taskFlow) now now])
      id (database.events db) (database.events_seq db))).
Proof. reflexivity. Qed.

(** X2.  [SaveTaskFlow] returns no error; the identifier it assigns is
    above that of every row of the table; and [GetTaskFlowByID] on that
    identifier then returns the flow that was given, with the two
    instants of the clock, and with its target objects and actions as the
    JSON round trip leaves them (invalid UTF-8 replaced by U+FFFD). *)
Theorem SaveTaskFlow_GetTaskFlowByID (now : Z) (taskFlow : database.TaskFlow)
    (db : database.DB) :
  exists (saved : database.TaskFlow) (db' : database.DB),
    database.SaveTaskFlow now taskFlow db = (Ok saved, db') /\
    (forall r, In r (database.flows db) -> database.task_flows.id r < database.ID saved) /\
    database.GetTaskFlowByID (database.ID saved) db' =
      Ok (Some (database.mkTaskFlow (database.ID saved)
                  (database.DeviceEUI taskFlow) (database.Name taskFlow)
                  (database.Headline taskFlow) (database.TriggerCondition taskFlow)
                  (map utf8.ToValid (database.TargetObjects taskFlow))
                  (map utf8.ToValid (database.Actions taskFlow))
                  (database.ModelType taskFlow) now now)).
Proof.
  rewrite SaveTaskFlow_eq. cbv zeta.
  destruct (nextID_above (database.flows_seq db)
              (map database.task_flows.id (database.flows db))) as [_ Hid].
  eexists. eexists. split; [reflexivity|].
  cbn [database.ID]. split.
  - intros r Hr. apply Hid, in_map, Hr.
  - unfold database.GetTaskFlowByID. cbn [database.flows].
    rewrite find_last.
    + unfold database.scanTaskFlow.
      cbn [option_map database.task_flows.id
           database.task_flows.device_eui database.task_flows.name
           database.task_flows.headline database.task_flows.trigger_condition
           database.task_flows.target_objects database.task_flows.actions
           database.task_flows.model_type database.task_flows.created_at
           database.task_flows.updated_at].
      rewrite !parseArray_encode. reflexivity.
    + intros r Hr. apply Z.eqb_neq.
      specialize (Hid _ (in_map database.task_flows.id _ _ Hr)). lia.
    + apply Z.eqb_refl.
Qed.

(** X3.  [DeleteTaskFlow] returns [nil] when a row has the identifier,
    and the error "task flow not found: <id>" with the store as it was
    when none has; either way no row has the identifier afterwards,
    [GetTaskFlowByID] finds the rows of the other identifiers as before,
    and the counter of the table and the events stay. *)
Theorem DeleteTaskFlow_found (id : Z) (db : database.DB) :
  ((exists r, In r (database.flows db) /\ database.task_flows.id r = id) /\
   fst (database.DeleteTaskFlow id db) = Ok tt \/
   (forall r, In r (database.flows db) -> database.task_flows.id r <> id) /\
   database.DeleteTaskFlow id db = (Err ("task flow not found: " ++ strconv.Itoa id), db)) /\
  database.GetTaskFlowByID id (snd (database.DeleteTaskFlow id db)) = Ok None /\
  (forall other, other <> id ->
     database.GetTaskFlowByID other (snd (database.DeleteTaskFlow id db)) =
     database.GetTaskFlowByID other db) /\
  database.flows_seq (snd (database.DeleteTaskFlow id db)) = database.flows_seq db /\
  database.events (snd (database.DeleteTaskFlow id db)) = database.events db.
Proof.
  unfold database.DeleteTaskFlow.
  set (keep := fun r => negb (database.task_flows.id r =? id)).
  destruct (filter_length_all keep (database.flows db)) as [Hle Hall].
  assert (Hgone : find (fun r => database.task_flows.id r =? id)
                    (filter keep (database.flows db)) = None).
  { apply find_none_iff. intros x Hx. apply filter_In in Hx.
    destruct Hx as [_ Hx]. unfold keep in Hx. apply negb_true_iff in Hx. exact Hx. }
  assert (Hother : forall other, other <> id ->
            find (fun r => database.task_flows.id r =? other)
              (filter keep (database.flows db)) =
            find (fun r => database.task_flows.id r =? other) (database.flows db)).
  { intros other Ho. apply find_filter_other.
    intros x Hx. unfold keep. apply Z.eqb_eq in Hx. apply negb_true_iff, Z.eqb_neq.
    congruence. }
  destruct (Z.eqb_spec (Z.of_nat (List.length (database.flows db)) -
                        Z.of_nat (List.length (filter keep (database.flows db)))) 0) as [E|E];
    cbn [fst snd]; unfold database.GetTaskFlowByID; cbn [database.flows database.flows_seq
                                                           database.events].
  - assert (Hk : forall x, In x (database.flows db) -> keep x = true) by (apply Hall; lia).
    split; [right; split|split; [rewrite Hgone; reflexivity|split; [|split; reflexivity]]].
    + intros r Hr Hid. specialize (Hk r Hr). unfold keep in Hk.
      rewrite Hid, Z.eqb_refl in Hk. discriminate Hk.
    + rewrite (filter_id keep _ Hk). destruct db; reflexivity.
    + intros other Ho. rewrite (Hother other Ho). reflexivity.
  - split; [left; split|split; [rewrite Hgone; reflexivity|split; [|split; reflexivity]]].
    + destruct (find (fun r => database.task_flows.id r =? id) (database.flows db))
        as [r|] eqn:Ef.
      * apply find_some in Ef. destruct Ef as [Hin Hid]. apply Z.eqb_eq in Hid. eauto.
      * exfalso. apply E.
        assert (Hk : forall x, In x (database.flows db) -> keep x = true).
        { intros x Hx. unfold keep. rewrite (proj1 (find_none_iff _ _) Ef x Hx). reflexivity. }
        apply Hall in Hk. lia.
    + reflexivity.
    + intros other Ho. rewrite (Hother other Ho). reflexivity.
Qed.

(** X4.  [GetTaskFlowsByDevice] never fails on a store that answers,
    and returns the flows of the rows of the device, each once and no
    other (a permutation of them, whatever the order of the query), every
    one with the device identifier asked for. *)
Theorem GetTaskFlowsByDevice_of_device (deviceEUI : string) (db : database.DB) :
  exists flows : list database.TaskFlow,
    database.GetTaskFlowsByDevice deviceEUI db = Ok flows /\
    Permutation flows
      (map database.scanTaskFlow
         (filter (fun r => (database.task_flows.device_eui r =? deviceEUI)%string)
                 (database.flows db))) /\
    Forall (fun t => database.DeviceEUI t = deviceEUI) flows.
Proof.
  unfold database.GetTaskFlowsByDevice. eexists. split; [reflexivity|]. split.
  - apply Permutation_map, orderByDesc_Permutation.
  - apply Forall_map, Forall_forall. intros r Hr.
    apply orderByDesc_In, filter_In in Hr. destruct Hr as [_ Hr].
    apply String.eqb_eq in Hr. exact Hr.
Qed.

(** X5.  [GetNotificationEventsByDevice] with a negative limit returns
    the events of the device, each once, by decreasing timestamp; with a
    limit from 0 up it returns the first [limit] of them, so as many as
    the smaller of the limit and their number. *)
Theorem GetNotificationEventsByDevice_limit (deviceEUI : string) (limit : Z)
    (db : database.DB) :
  exists events all : list database.NotificationEvent.t,
    database.GetNotificationEventsByDevice deviceEUI limit db = Ok events /\
    database.GetNotificationEventsByDevice deviceEUI (-1) db = Ok all /\
    Permutation all
      (map database.scanEvent
         (filter (fun r => (database.notification_events.device_eui r =? deviceEUI)%string)
                 (database.events db))) /\
    StronglySorted (fun a b => database.NotificationEvent.Timestamp b <=
                               database.NotificationEvent.Timestamp a) all /\
    events = (if limit <? 0 then all else firstn (Z.to_nat limit) all) /\
    (0 <= limit -> handlers.len events = Z.min limit (handlers.len all)).
Proof.
  unfold database.GetNotificationEventsByDevice. cbn [Z.ltb Z.compare].
  eexists. eexists. split; [reflexivity|]. split; [reflexivity|].
  split; [|split; [|split]].
  - apply Permutation_map, orderByDesc_Permutation.
  - apply StronglySorted_map.
    apply (orderByDesc_sorted _ database.notification_events.timestamp).
  - destruct (limit <? 0); [reflexivity|]. symmetry. apply firstn_map.
  - intros Hl. apply Z.ltb_ge in Hl. rewrite Hl. apply Z.ltb_ge in Hl.
    unfold handlers.len. rewrite !length_map, length_firstn. lia.
Qed.

(** X6.  An identifier is never handed out twice: whatever rows are
    deleted after a flow was saved, the flow saved next gets a larger
    identifier. *)
Theorem SaveTaskFlow_never_reuses
    (now1 now2 : Z) (first second : database.TaskFlow) (deleted : list Z)
    (db : database.DB) :
  exists saved1 saved2 : database.TaskFlow,
    fst (database.SaveTaskFlow now1 first db) = Ok saved1 /\
    fst (database.SaveTaskFlow now2 second
           (fold_left (fun d id => snd (database.DeleteTaskFlow id d)) deleted
              (snd (database.SaveTaskFlow now1 first db)))) = Ok saved2 /\
    database.ID saved1 < database.ID saved2.
Proof.
  rewrite !SaveTaskFlow_eq. cbv zeta. cbn [fst snd].
  eexists. eexists. split; [reflexivity|]. split; [reflexivity|].
  cbn [database.ID].
  set (db1 := database.mkDB _ _ _ _).
  assert (Hseq : forall l d,
            database.flows_seq
              (fold_left (fun d id => snd (database.DeleteTaskFlow id d)) l d) =
            database.flows_seq d).
  { induction l as [|i l IH]; intros d; simpl; [reflexivity|].
    rewrite IH. unfold database.DeleteTaskFlow.
    destruct (_ =? 0); reflexivity. }
  rewrite Hseq.
  match goal with
  | |- _ < database.nextID ?s ?ids => destruct (nextID_above s ids) as [H _]
  end.
  exact H.
Qed.

(** ** The compilation path and the stores it leaves *)

Section Compilation.

Import handlers.

Lemma parseModelType_range (s : string) : 0 <= parseModelType s <= 3.
Proof.
  unfold parseModelType.
  repeat match goal with |- context [if ?b then _ else _] => destruct b end; lia.
Qed.

(** With identifiers that are unique, the deletion loop removes the rows
    of the device and no other. *)
Lemma cleared_flows (D : string) (db : database.DB) :
  NoDup (map database.task_flows.id (database.flows db)) ->
  Store.cleared D db =
  database.mkDB
    (filter (fun r => negb (database.task_flows.device_eui r =? D)%string) (database.flows db))
    (database.flows_seq db) (database.events db) (database.events_seq db).
Proof.
  intros Hnd. unfold Store.cleared, database.GetTaskFlowsByDevice.
  set (mine := filter _ (database.flows db)).
  set (oldTasks := map database.scanTaskFlow _).
  assert (Hold : forall r, In r (database.flows db) ->
            existsb (fun t => database.task_flows.id r =? database.ID t) oldTasks =
            (database.task_flows.device_eui r =? D)%string).
  { intros r Hr. destruct (database.task_flows.device_eui r =? D)%string eqn:Ed.
    - apply existsb_exists. exists (database.scanTaskFlow r). split; [|apply Z.eqb_refl].
      apply in_map, orderByDesc_In, filter_In. auto.
    - destruct (existsb _ oldTasks) eqn:Ex; [|reflexivity]. exfalso.
      apply existsb_exists in Ex. destruct Ex as (t & Ht & Hid).
      apply in_map_iff in Ht. destruct Ht as (r' & <- & Hr').
      apply orderByDesc_In, filter_In in Hr'. destruct Hr' as [Hr' Hd'].
      apply Z.eqb_eq in Hid. cbn [database.scanTaskFlow database.ID] in Hid.
      rewrite (NoDup_map_eq _ _ r r' Hnd Hr Hr' Hid) in Ed. congruence. }
  destruct (0 <? len oldTasks) eqn:E.
  - rewrite deleteOldTasks_flows. f_equal. apply filter_ext_in.
    intros r Hr. rewrite (Hold r Hr). reflexivity.
  - rewrite filter_id; [destruct db; reflexivity|].
    intros r Hr. rewrite <- (Hold r Hr).
    destruct oldTasks; [reflexivity|].
    unfold len in E. simpl in E. apply Z.ltb_ge in E. lia.
Qed.

(** The two outcomes of [processTaskMode]: the trigger could not be
    extracted and the store is as it was, or a flow with one target
    object was saved in the cleared store. *)
Lemma processTaskMode_outcome
    (svc : Services) (now : Z) (T : string) (mode : Z) (D : string) (db : database.DB) :
  (exists e, callOllamaSimple svc (triggerPrompt T) = Err e /\
             processTaskMode svc now T mode D db =
               (Err ("failed to extract trigger: " ++ e), db)) \/
  (exists reply headline trigger target modelType,
     0 <= modelType <= 3 /\
     processTaskMode svc now T mode D db =
       (Ok reply,
        snd (database.SaveTaskFlow now
               (database.mkTaskFlow 0 D T headline trigger [target] ["notify"] modelType 0 0)
               (Store.cleared D db)))).
Proof.
  unfold processTaskMode.
  destruct (callOllamaSimple svc (triggerPrompt T)) as [trigger|e].
  - right. cbv zeta. do 5 eexists. split; [apply parseModelType_range | reflexivity].
  - left. exists e. split; reflexivity.
Qed.

Lemma ascending_snoc (seq : Z) (ids kept : list Z) :
  Store.ascending seq ids ->
  StronglySorted Z.lt kept -> (forall x, In x kept -> In x ids) ->
  Store.ascending (database.nextID seq kept) (kept ++ [database.nextID seq kept]).
Proof.
  intros [Hs Hb] Hk Hin.
  destruct (nextID_above seq kept) as [N1 N2].
  split.
  - apply StronglySorted_snoc; [exact Hk|]. apply Forall_forall. exact N2.
  - apply Forall_app. split; [|constructor; [lia | constructor]].
    apply Forall_forall. intros x Hx. specialize (N2 x Hx). lia.
Qed.

Lemma SaveTaskFlow_sound (now : Z) (D T headline trigger target : string) (modelType : Z)
    (db : database.DB) :
  0 <= modelType <= 3 ->
  Store.sound db ->
  Store.sound
    (snd (database.SaveTaskFlow now
            (database.mkTaskFlow 0 D T headline trigger [target] ["notify"] modelType 0 0)
            (Store.cleared D db))).
Proof.
  intros Hm ((Hf & He) & Hr & H1).
  rewrite SaveTaskFlow_eq. cbv zeta. cbn [snd].
  rewrite (cleared_flows D db) by (apply StronglySorted_lt_NoDup, Hf).
  cbn [database.flows database.flows_seq database.events database.events_seq
       database.DeviceEUI database.Name database.Headline database.TriggerCondition
       database.TargetObjects database.Actions database.ModelType].
  set (kept := filter _ (database.flows db)).
  split; [split|split].
  - cbn [database.flows database.flows_seq]. rewrite map_app.
    cbn [map database.task_flows.id].
    apply (ascending_snoc _ (map database.task_flows.id (database.flows db))).
    + exact Hf.
    + apply map_filter_sorted, Hf.
    + intros x Hx. apply in_map_iff in Hx. destruct Hx as (z & <- & Hz).
      apply filter_In in Hz. apply in_map. tauto.
  - exact He.
  - cbn [database.flows]. apply Forall_app. split.
    + apply Forall_forall. intros r Hin. apply filter_In in Hin.
      rewrite Forall_forall in Hr. apply Hr. tauto.
    + constructor; [|constructor]. unfold Store.compiled.
      cbn [database.task_flows.target_objects database.task_flows.actions
           database.task_flows.model_type database.task_flows.updated_at
           database.task_flows.created_at map].
      split; [eexists; reflexivity|]. split; [reflexivity|].
      split; [exact Hm | reflexivity].
  - intros D'. cbn [database.flows]. rewrite filter_app, length_app.
    unfold Store.ofDevice at 2. cbn [filter database.task_flows.device_eui].
    destruct (String.eqb_spec D D') as [<-|Hne].
    + rewrite (filter_none (Store.ofDevice D) kept); [simpl; lia|].
      intros r Hin. apply filter_In in Hin. destruct Hin as [_ Hin].
      apply negb_true_iff in Hin. exact Hin.
    + cbn [List.length]. rewrite Nat.add_0_r.
      specialize (H1 D'). unfold kept.
      destruct (filter_length_all
                  (fun r => negb (database.task_flows.device_eui r =? D)%string)
                  (filter (Store.ofDevice D') (database.flows db))) as [Hle _].
      rewrite filter_filter in Hle.
      rewrite filter_filter.
      erewrite filter_ext in Hle; [|intros r; apply andb_comm]. lia.
Qed.

Lemma processTaskMode_sound
    (svc : Services) (now : Z) (T : string) (mode : Z) (D : string) (db : database.DB) :
  Store.sound db -> Store.sound (snd (processTaskMode svc now T mode D db)).
Proof.
  intros H.
  destruct (processTaskMode_outcome svc now T mode D db)
    as [(e & _ & ->)|(reply & headline & trigger & target & modelType & Hm & ->)];
    cbn [snd].
  - exact H.
  - apply SaveTaskFlow_sound; assumption.
Qed.

(** The audio-stream handler changes the store through [processTaskMode]
    only. *)
Lemma AudioStreamHandler_store
    (svc : Services) (now : Z) (r : http.Request (option (list byte))) (db : database.DB) :
  snd (AudioStreamHandler svc now r db) = db \/
  exists body T,
    http.Body r = Some body /\ transcribeAudio svc body = Ok T /\
    determineMode svc T <> 0 /\
    snd (AudioStreamHandler svc now r db) =
      snd (processTaskMode svc now T (determineMode svc T)
             (http.Header r "API-OBITER-DEVICE-EUI") db).
Proof.
  unfold AudioStreamHandler.
  destruct (http.Body r) as [body|]; [|left; reflexivity].
  destruct (transcribeAudio svc body) as [T|e] eqn:ET; [|left; reflexivity].
  cbv zeta. destruct (determineMode svc T =? 0) eqn:Em.
  - left. destruct (processChatMode svc T) as [R|e]; [|reflexivity].
    destruct (synthesizeSpeech svc R); reflexivity.
  - right. exists body, T. split; [reflexivity|]. split; [exact ET|].
    split; [apply Z.eqb_neq, Em|].
    destruct (processTaskMode svc now T (determineMode svc T) _ db) as [[R|e] db'];
      [|reflexivity].
    destruct (synthesizeSpeech svc R); reflexivity.
Qed.

(** The notification handler leaves the store, or appends one event. *)
Lemma NotificationHandler_store
    (FormatFloat : float -> string) (now : Z)
    (r : http.Request (http.JSONBody models.NotificationEventRequest)) (db : database.DB) :
  snd (NotificationHandler FormatFloat now r db) = db \/
  exists row : database.notification_events.row,
    snd (NotificationHandler FormatFloat now r db) =
      database.mkDB (database.flows db) (database.flows_seq db)
        (database.events db ++ [row])
        (database.nextID (database.events_seq db)
           (map database.notification_events.id (database.events db))) /\
    database.notification_events.id row =
      database.nextID (database.events_seq db)
        (map database.notification_events.id (database.events db)).
Proof.
  unfold NotificationHandler.
  destruct (http.Body r) as [| |req]; [left; reflexivity | left; reflexivity |].
  destruct (logNotificationRequest req); [|left; reflexivity].
  right. cbn [snd]. unfold saveNotificationToDatabase, database.SaveNotificationEvent.
  cbn [snd]. eexists. split; reflexivity.
Qed.

(** Every store the server can be in is sound. *)
Lemma Reachable_sound (db : database.DB) : Store.Reachable db -> Store.sound db.
Proof.
  induction 1 as [|svc now r db _ IH|FormatFloat now r db _ IH].
  - split; [split; split; constructor|split; [constructor|]]. intros D. simpl. lia.
  - destruct (AudioStreamHandler_store svc now r db) as [->|(body & T & _ & _ & _ & ->)];
      [exact IH | apply processTaskMode_sound, IH].
  - destruct (NotificationHandler_store FormatFloat now r db) as [->|(row & -> & Hid)];
      [exact IH|].
    destruct IH as ((Hf & He) & Hr & H1).
    split; [split|split]; cbn [database.flows database.flows_seq database.events
                               database.events_seq]; try assumption.
    rewrite map_app. cbn [map]. rewrite Hid.
    apply (ascending_snoc _ (map database.notification_events.id (database.events db)));
      [exact He | apply He | auto].
Qed.

(** X7.  The task-detail endpoint serves a flow of the device that
    asks and of no other: when the device has no row it answers with the
    empty task list; when it has rows, the answer is built from the
    reification of one of them alone (a panic of the reification is a
    panic of the handler). *)
Theorem TaskDetailHandler_own_flow (r : http.Request unit) (db : database.DB) :
  ((forall row, In row (database.flows db) ->
      database.task_flows.device_eui row <> http.Header r "API-OBITER-DEVICE-EUI") /\
   TaskDetailHandler r db =
     Some (http.WriteJSON 200
             (json.Map [("code", json.Int 200);
                        ("data", json.Map [("tl", json.Map [])])]))) \/
  (exists row : database.task_flows.row,
      In row (database.flows db) /\
      database.task_flows.device_eui row = http.Header r "API-OBITER-DEVICE-EUI" /\
      TaskDetailHandler r db =
        option_map
          (fun tl => http.WriteJSON 200
                       (json.Map [("code", json.Int 200);
                                  ("data", json.Map [("tl", tl)])]))
          (convertToNodeREDFormat (database.scanTaskFlow row))).
Proof.
  unfold TaskDetailHandler, database.GetTaskFlowsByDevice.
  set (D := http.Header r "API-OBITER-DEVICE-EUI").
  set (mine := filter _ (database.flows db)).
  pose proof (orderByDesc_Permutation _ database.task_flows.created_at mine) as Hp.
  destruct (database.orderByDesc database.task_flows.created_at mine) as [|row rows].
  - left. split; [|reflexivity].
    intros row Hin E. apply Permutation_nil in Hp.
    assert (Hm : In row mine)
      by (apply filter_In; split; [exact Hin | apply String.eqb_eq, E]).
    rewrite Hp in Hm. exact Hm.
  - right. exists row.
    assert (Hin : In row mine) by (apply (Permutation_in _ Hp); left; reflexivity).
    apply filter_In in Hin. destruct Hin as [Hin Hd]. apply String.eqb_eq in Hd.
    split; [exact Hin|]. split; [exact Hd|].
    cbn [map]. destruct (convertToNodeREDFormat (database.scanTaskFlow row)); reflexivity.
Qed.

Lemma orderByDesc_one {A : Type} (key : A -> Z) (x : A) : database.orderByDesc key [x] = [x].
Proof. reflexivity. Qed.

(** The read path of the device after [SaveTaskFlow] on the cleared
    store. *)
Lemma GetTaskFlowsByDevice_saved (now : Z) (D : string) (taskFlow : database.TaskFlow)
    (db : database.DB) :
  database.DeviceEUI taskFlow = D ->
  exists id,
    database.flows_seq db < id /\
    database.GetTaskFlowsByDevice D
      (snd (database.SaveTaskFlow now taskFlow (Store.cleared D db))) =
    Ok [database.mkTaskFlow id D (database.Name taskFlow) (database.Headline taskFlow)
          (database.TriggerCondition taskFlow)
          (map utf8.ToValid (database.TargetObjects taskFlow))
          (map utf8.ToValid (database.Actions taskFlow))
          (database.ModelType taskFlow) now now].
Proof.
  intros HD. rewrite SaveTaskFlow_eq. cbv zeta. cbn [snd].
  pose proof (old_flows_gone D db) as G. cbv zeta in G. fold (Store.cleared D db) in G.
  destruct G as (G1 & _ & G3).
  eexists. split.
  2:{ unfold database.GetTaskFlowsByDevice. cbn [database.flows].
      rewrite filter_app, (filter_none _ _ G1).
      cbn [filter app database.task_flows.device_eui].
      rewrite HD, String.eqb_refl. rewrite orderByDesc_one. cbn [map].
      unfold database.scanTaskFlow.
      cbn [database.task_flows.id
           database.task_flows.device_eui database.task_flows.name
           database.task_flows.headline database.task_flows.trigger_condition
           database.task_flows.target_objects database.task_flows.actions
           database.task_flows.model_type database.task_flows.created_at
           database.task_flows.updated_at].
      rewrite !parseArray_encode. reflexivity. }
  rewrite G3.
  match goal with
  | |- _ < database.nextID ?s ?ids => destruct (nextID_above s ids) as [H _]
  end.
  exact H.
Qed.

(** X8.  The fallbacks of the compilation path: when Ollama answers the
    trigger prompt and fails on the three others, a task is compiled all
    the same, with the target object [person], the model kind 1 (Person),
    the headline [Task created] and the normalised trigger; the device
    then has that flow and no other, and the spoken confirmation names
    the headline and the trigger. *)
Theorem processTaskMode_fallbacks
    (svc : Services) (now : Z) (T : string) (mode : Z) (D : string) (db : database.DB)
    (reply e1 e2 e3 : string) :
  callOllamaSimple svc (triggerPrompt T) = Ok reply ->
  callOllamaSimple svc (matchPrompt (cleanLLMResponse reply)) = Err e1 ->
  callOllamaSimple svc (modelSelectionPrompt "person") = Err e2 ->
  callOllamaSimple svc (headlinePrompt T) = Err e3 ->
  exists (id : Z) (db' : database.DB),
    processTaskMode svc now T mode D db =
      (Ok (Sprintf ["I've created a monitoring task: Task created. I'll watch for ";
                    cleanLLMResponse reply; "."]), db') /\
    database.GetTaskFlowsByDevice D db' =
      Ok [database.mkTaskFlow id D T "Task created" (cleanLLMResponse reply)
            ["person"] ["notify"] 1 now now].
Proof.
  intros H0 H1 H2 H3.
  destruct (GetTaskFlowsByDevice_saved now D
              (database.mkTaskFlow 0 D T "Task created" (cleanLLMResponse reply)
                 ["person"] ["notify"] 1 0 0) db eq_refl) as (id & _ & G).
  exists id. eexists. unfold processTaskMode. rewrite H0. cbv zeta. rewrite H1.
  change (strings.TrimSpace (strings.ToLower (cleanLLMResponse "person"))) with "person".
  rewrite H2, H3.
  change (cleanLLMResponse "1") with "1".
  change (parseModelType "1") with 1.
  change (strings.TrimSpace (cleanLLMResponse "Task created")) with "Task created".
  split; [reflexivity|].
  fold (Store.cleared D db). exact G.
Qed.

Lemma processTaskMode_fallbacks_witness :
  exists (id : Z) (db' : database.DB),
    processTaskMode Fixture.triggerOnly 1700000000000000000 "notify me when a person arrives"
      1 Sample.device database.empty =
      (Ok (Sprintf ["I've created a monitoring task: Task created. I'll watch for ";
                    cleanLLMResponse "person arrives."; "."]), db') /\
    database.GetTaskFlowsByDevice Sample.device db' =
      Ok [database.mkTaskFlow id Sample.device "notify me when a person arrives"
            "Task created" (cleanLLMResponse "person arrives.")
            ["person"] ["notify"] 1 1700000000000000000 1700000000000000000].
Proof.
  apply (processTaskMode_fallbacks Fixture.triggerOnly 1700000000000000000
           "notify me when a person arrives" 1 Sample.device database.empty
           "person arrives."
           "failed to call Ollama: connection refused"
           "failed to call Ollama: connection refused"
           "failed to call Ollama: connection refused").
  - vm_compute. reflexivity.
  - vm_compute. reflexivity.
  - vm_compute. reflexivity.
  - vm_compute. reflexivity.
Defined.

(** X9.  The answers of the audio-stream handler and what they say of
    the store: a 200 answer is an octet stream; the answer 400 is given
    to a request whose body could not be read; and with each of
    the answers "Failed to read request body", "Transcription failed",
    "Chat processing failed" and "Task processing failed" the store is as
    it was.  Only "Speech synthesis failed" can come with a store that
    changed. *)
Theorem AudioStreamHandler_outcomes
    (svc : Services) (now : Z) (r : http.Request (option (list byte))) (db : database.DB) :
  (http.StatusCode (fst (AudioStreamHandler svc now r db)) = 200 /\
   http.Get "Content-Type" (fst (AudioStreamHandler svc now r db)) =
     Some "application/octet-stream") \/
  (AudioStreamHandler svc now r db = (http.Error "Failed to read request body" 400, db) /\
   http.Body r = None) \/
  AudioStreamHandler svc now r db = (http.Error "Transcription failed" 500, db) \/
  AudioStreamHandler svc now r db = (http.Error "Chat processing failed" 500, db) \/
  AudioStreamHandler svc now r db = (http.Error "Task processing failed" 500, db) \/
  fst (AudioStreamHandler svc now r db) = http.Error "Speech synthesis failed" 500.
Proof.
  unfold AudioStreamHandler.
  destruct (http.Body r) as [body|]; [|right; left; auto].
  destruct (transcribeAudio svc body) as [T|e]; [|right; right; left; auto].
  cbv zeta. destruct (determineMode svc T =? 0).
  - destruct (processChatMode svc T) as [R|e]; [|right; right; right; left; auto].
    destruct (synthesizeSpeech svc R); [left; auto | do 5 right; reflexivity].
  - destruct (processTaskMode_outcome svc now T (determineMode svc T)
                (http.Header r "API-OBITER-DEVICE-EUI") db)
      as [(e & _ & ->)|(reply & headline & trigger & target & modelType & _ & ->)].
    + right; right; right; right; left. auto.
    + destruct (synthesizeSpeech svc reply); [left; auto | do 5 right; reflexivity].
Qed.

(** X10.  A compiled task outlives a failed synthesis: when the
    compilation path has completed and Piper then fails on the
    confirmation, the handler answers 500 "Speech synthesis failed" and
    the store it leaves is the one of the compilation, in which the
    device has the new flow and no other. *)
Theorem AudioStreamHandler_task_outlives_synthesis
    (svc : Services) (now : Z) (r : http.Request (option (list byte)))
    (db db' : database.DB) (body : list byte) (T R e : string) :
  http.Body r = Some body ->
  transcribeAudio svc body = Ok T ->
  determineMode svc T <> 0 ->
  processTaskMode svc now T (determineMode svc T)
    (http.Header r "API-OBITER-DEVICE-EUI") db = (Ok R, db') ->
  synthesizeSpeech svc R = Err e ->
  AudioStreamHandler svc now r db = (http.Error "Speech synthesis failed" 500, db') /\
  exists flow : database.TaskFlow,
    database.GetTaskFlowsByDevice (http.Header r "API-OBITER-DEVICE-EUI") db' = Ok [flow] /\
    database.Name flow = T /\
    database.CreatedAt flow = now.
Proof.
  intros Hb HT Hm HR HA. split.
  - unfold AudioStreamHandler. rewrite Hb, HT. cbv zeta.
    apply Z.eqb_neq in Hm. rewrite Hm, HR, HA. reflexivity.
  - destruct (processTaskMode_one_flow _ _ _ _ _ _ _ _ HR)
      as (new & _ & G & _ & Hn & Hc & _).
    exists (database.scanTaskFlow new). split; [exact G|]. split; assumption.
Qed.

Lemma AudioStreamHandler_task_outlives_synthesis_witness :
  AudioStreamHandler Fixture.mute 1700000000000000000 Sample.voiceRequest database.empty =
    (http.Error "Speech synthesis failed" 500, Sample.afterFirst) /\
  exists flow : database.TaskFlow,
    database.GetTaskFlowsByDevice (http.Header Sample.voiceRequest "API-OBITER-DEVICE-EUI")
      Sample.afterFirst = Ok [flow] /\
    database.Name flow = "notify me when a person arrives" /\
    database.CreatedAt flow = 1700000000000000000.
Proof.
  apply (AudioStreamHandler_task_outlives_synthesis Fixture.mute 1700000000000000000
           Sample.voiceRequest database.empty Sample.afterFirst [x52; x49; x46; x46]%byte
           "notify me when a person arrives"
           "I've created a monitoring task: Watch for person. I'll watch for person arrives."
           "failed to call TTS service: connection refused").
  - reflexivity.
  - reflexivity.
  - vm_compute. discriminate.
  - vm_compute. reflexivity.
  - reflexivity.
Defined.

(** The rows of another device stay. *)
Lemma processTaskMode_other_device
    (svc : Services) (now : Z) (T : string) (mode : Z) (D other : string)
    (db : database.DB) :
  NoDup (map database.task_flows.id (database.flows db)) ->
  other <> D ->
  filter (Store.ofDevice other)
    (database.flows (snd (processTaskMode svc now T mode D db))) =
  filter (Store.ofDevice other) (database.flows db).
Proof.
  intros Hnd Hne.
  destruct (processTaskMode_outcome svc now T mode D db)
    as [(e & _ & ->)|(reply & headline & trigger & target & modelType & _ & ->)];
    cbn [snd]; [reflexivity|].
  rewrite SaveTaskFlow_eq. cbv zeta. cbn [snd database.flows].
  rewrite (cleared_flows D db Hnd). cbn [database.flows database.DeviceEUI].
  rewrite filter_app. unfold Store.ofDevice at 2.
  cbn [filter database.task_flows.device_eui].
  destruct (String.eqb_spec D other) as [E|_]; [congruence|].
  rewrite app_nil_r, filter_filter. apply filter_ext. intros r.
  unfold Store.ofDevice.
  destruct (String.eqb_spec (database.task_flows.device_eui r) other) as [->|_];
    [|apply andb_false_r].
  destruct (String.eqb_spec other D); [congruence | reflexivity].
Qed.

(** X11.  A voice request of one device leaves the task flows of every
    other device: on a store whose row identifiers are unique, whatever
    the handler does for the device of the request, the read path and the
    task-detail endpoint answer a request of another device as before. *)
Theorem AudioStreamHandler_other_device
    (svc : Services) (now : Z) (r : http.Request (option (list byte)))
    (r' : http.Request unit) (db : database.DB) :
  NoDup (map database.task_flows.id (database.flows db)) ->
  http.Header r' "API-OBITER-DEVICE-EUI" <> http.Header r "API-OBITER-DEVICE-EUI" ->
  database.GetTaskFlowsByDevice (http.Header r' "API-OBITER-DEVICE-EUI")
    (snd (AudioStreamHandler svc now r db)) =
  database.GetTaskFlowsByDevice (http.Header r' "API-OBITER-DEVICE-EUI") db /\
  TaskDetailHandler r' (snd (AudioStreamHandler svc now r db)) = TaskDetailHandler r' db.
Proof.
  intros Hnd Hne.
  assert (G : database.GetTaskFlowsByDevice (http.Header r' "API-OBITER-DEVICE-EUI")
                (snd (AudioStreamHandler svc now r db)) =
              database.GetTaskFlowsByDevice (http.Header r' "API-OBITER-DEVICE-EUI") db).
  { destruct (AudioStreamHandler_store svc now r db) as [->|(body & T & _ & _ & _ & ->)];
      [reflexivity|].
    unfold database.GetTaskFlowsByDevice.
    pose proof (processTaskMode_other_device svc now T (determineMode svc T)
                  (http.Header r "API-OBITER-DEVICE-EUI")
                  (http.Header r' "API-OBITER-DEVICE-EUI") db Hnd Hne) as E.
    unfold Store.ofDevice in E. rewrite E. reflexivity. }
  split; [exact G|]. unfold TaskDetailHandler. rewrite G. reflexivity.
Qed.

Lemma AudioStreamHandler_other_device_witness :
  database.GetTaskFlowsByDevice (http.Header Fixture.otherRequest "API-OBITER-DEVICE-EUI")
    (snd (AudioStreamHandler Sample.tasks 1700000060000000000 Sample.voiceRequest
            Fixture.twoDevices)) =
  database.GetTaskFlowsByDevice (http.Header Fixture.otherRequest "API-OBITER-DEVICE-EUI")
    Fixture.twoDevices /\
  TaskDetailHandler Fixture.otherRequest
    (snd (AudioStreamHandler Sample.tasks 1700000060000000000 Sample.voiceRequest
            Fixture.twoDevices)) =
  TaskDetailHandler Fixture.otherRequest Fixture.twoDevices.
Proof.
  apply (AudioStreamHandler_other_device Sample.tasks 1700000060000000000 Sample.voiceRequest
           Fixture.otherRequest Fixture.twoDevices).
  - vm_compute. repeat constructor; simpl; intuition discriminate.
  - vm_compute. discriminate.
Defined.

(** X12.  When the requests are handled one after another, each to its
    end, and the database answers every statement, a device has at most
    one task flow in the store, whatever the requests and the upstream
    services were. *)
Theorem Reachable_one_flow_per_device (db : database.DB) (deviceEUI : string) :
  Store.Reachable db ->
  exists flows : list database.TaskFlow,
    database.GetTaskFlowsByDevice deviceEUI db = Ok flows /\ len flows <= 1.
Proof.
  intros H. apply Reachable_sound in H. destruct H as (_ & _ & H1).
  unfold database.GetTaskFlowsByDevice. eexists. split; [reflexivity|].
  unfold len. rewrite length_map.
  rewrite (Permutation_length (orderByDesc_Permutation _ _ _)).
  specialize (H1 deviceEUI). unfold Store.ofDevice in H1. lia.
Qed.

Lemma Reachable_one_flow_per_device_witness :
  exists flows : list database.TaskFlow,
    database.GetTaskFlowsByDevice Sample.device
      (snd (AudioStreamHandler Sample.tasks 1700000060000000000 Sample.voiceRequest
              (snd (AudioStreamHandler Sample.tasks 1700000000000000000 Sample.voiceRequest
                      database.empty)))) = Ok flows /\
    len flows <= 1.
Proof.
  apply (Reachable_one_flow_per_device _ Sample.device).
  apply Store.reach_audio_stream, Store.reach_audio_stream, Store.reach_new.
Defined.

(** In a run that overlaps no other, step 4 writes to the store it
    read. *)
Lemma written_cleared (D : string) (old : list database.TaskFlow) (now : Z)
    (taskFlow : database.TaskFlow) (db : database.DB) :
  database.GetTaskFlowsByDevice D db = Ok old ->
  Store.written old now taskFlow db =
  snd (database.SaveTaskFlow now taskFlow (Store.cleared D db)).
Proof.
  intros E. unfold Store.written, Store.cleared. rewrite E. reflexivity.
Qed.

(** The premise of X12 is needed.  Two runs of step 4 for one device
    that both read the device's flows before either writes: the second
    finds the old flow gone, the failed deletion is logged, and both new
    flows stay. *)
Example overlapping_runs_two_flows :
  forall old : list database.TaskFlow,
    database.GetTaskFlowsByDevice Sample.device Sample.afterFirst = Ok old ->
    exists one other : database.TaskFlow,
      database.GetTaskFlowsByDevice Sample.device
        (Store.written old 1700000060000000002
           (database.mkTaskFlow 0 Sample.device "watch the cat" "Watch for cat" "cat on the table"
              ["cat"] ["notify"] 2 0 0)
           (Store.written old 1700000060000000001
              (database.mkTaskFlow 0 Sample.device Sample.secondRequest "Watch for dog"
                 "dog on the sofa" ["dog"] ["notify"] 2 0 0)
              Sample.afterFirst)) = Ok [one; other] /\
      database.ID one <> database.ID other.
Proof.
  intros old E. vm_compute in E. injection E as <-.
  eexists. eexists. split; [vm_compute; reflexivity|]. cbn. discriminate.
Qed.

(** X13.  On every store the server can reach, the task-detail endpoint
    answers: it does not panic, the status is 200 and the content type
    [application/json], for whatever device asks. *)
Theorem Reachable_TaskDetailHandler_answers (db : database.DB) (r : http.Request unit) :
  Store.Reachable db ->
  exists resp : http.Response,
    TaskDetailHandler r db = Some resp /\
    http.StatusCode resp = 200 /\
    http.Get "Content-Type" resp = Some "application/json".
Proof.
  intros H. apply Reachable_sound in H. destruct H as (_ & Hr & _).
  unfold TaskDetailHandler, database.GetTaskFlowsByDevice.
  destruct (database.orderByDesc _ _) as [|row rows] eqn:E.
  - eexists. split; [reflexivity|]. split; reflexivity.
  - assert (Hin : In row (database.flows db)).
    { assert (Hin : In row (row :: rows)) by (left; reflexivity).
      rewrite <- E in Hin. apply orderByDesc_In, filter_In in Hin. tauto. }
    rewrite Forall_forall in Hr. destruct (Hr row Hin) as ((target & Ht) & _).
    cbn [map]. unfold convertToNodeREDFormat.
    cbn [database.scanTaskFlow database.TargetObjects].
    pose proof (parseArray_encode [target]) as P. cbn [map] in P.
    rewrite Ht, P. cbn [nth_error].
    eexists. split; [reflexivity|]. split; reflexivity.
Qed.

Lemma Reachable_TaskDetailHandler_answers_witness :
  exists resp : http.Response,
    TaskDetailHandler Sample.detailRequest
      (snd (AudioStreamHandler Sample.tasks 1700000000000000000 Sample.voiceRequest
              database.empty)) = Some resp /\
    http.StatusCode resp = 200 /\
    http.Get "Content-Type" resp = Some "application/json".
Proof.
  apply (Reachable_TaskDetailHandler_answers _ Sample.detailRequest).
  apply Store.reach_audio_stream, Store.reach_new.
Defined.

(** X14.  On every store the server can reach, the identifiers of each
    table increase with the rows (so no two rows share one) and none is
    above the counter of its table. *)
Theorem Reachable_consistent (db : database.DB) :
  Store.Reachable db ->
  StronglySorted Z.lt (map database.task_flows.id (database.flows db)) /\
  Forall (fun i => i <= database.flows_seq db)
    (map database.task_flows.id (database.flows db)) /\
  StronglySorted Z.lt (map database.notification_events.id (database.events db)) /\
  Forall (fun i => i <= database.events_seq db)
    (map database.notification_events.id (database.events db)).
Proof.
  intros H. apply Reachable_sound in H. destruct H as (((H1 & H2) & (H3 & H4)) & _).
  auto.
Qed.

Lemma Reachable_consistent_witness :
  StronglySorted Z.lt
    (map database.task_flows.id
       (database.flows
          (snd (NotificationHandler Sample.shortest 1700000000500000000
                  (http.mkRequest (fun _ => Sample.device)
                     (http.Decoded (Sample.notification "FFFFFFFFFFFFFFFF")))
                  (snd (AudioStreamHandler Sample.tasks 1700000000000000000
                          Sample.voiceRequest database.empty)))))) /\
  Forall (fun i => i <= 1)
    (map database.task_flows.id
       (database.flows
          (snd (NotificationHandler Sample.shortest 1700000000500000000
                  (http.mkRequest (fun _ => Sample.device)
                     (http.Decoded (Sample.notification "FFFFFFFFFFFFFFFF")))
                  (snd (AudioStreamHandler Sample.tasks 1700000000000000000
                          Sample.voiceRequest database.empty)))))) /\
  StronglySorted Z.lt
    (map database.notification_events.id
       (database.events
          (snd (NotificationHandler Sample.shortest 1700000000500000000
                  (http.mkRequest (fun _ => Sample.device)
                     (http.Decoded (Sample.notification "FFFFFFFFFFFFFFFF")))
                  (snd (AudioStreamHandler Sample.tasks 1700000000000000000
                          Sample.voiceRequest database.empty)))))) /\
  Forall (fun i => i <= 1)
    (map database.notification_events.id
       (database.events
          (snd (NotificationHandler Sample.shortest 1700000000500000000
                  (http.mkRequest (fun _ => Sample.device)
                     (http.Decoded (Sample.notification "FFFFFFFFFFFFFFFF")))
                  (snd (AudioStreamHandler Sample.tasks 1700000000000000000
                          Sample.voiceRequest database.empty)))))).
Proof.
  apply (Reachable_consistent
           (snd (NotificationHandler Sample.shortest 1700000000500000000
                   (http.mkRequest (fun _ => Sample.device)
                      (http.Decoded (Sample.notification "FFFFFFFFFFFFFFFF")))
                   (snd (AudioStreamHandler Sample.tasks 1700000000000000000
                           Sample.voiceRequest database.empty))))).
  apply Store.reach_notification, Store.reach_audio_stream, Store.reach_new.
Defined.

(** X15.  On every store the server can reach, each flow the read path
    returns has exactly one target object (a valid UTF-8 string), the
    actions [notify] and nothing else, a model kind from 0 to 3, and an
    update instant equal to its creation instant. *)
Theorem Reachable_flows_compiled (db : database.DB) (deviceEUI : string) :
  Store.Reachable db ->
  exists flows : list database.TaskFlow,
    database.GetTaskFlowsByDevice deviceEUI db = Ok flows /\
    Forall (fun t =>
              (exists target, database.TargetObjects t = [utf8.ToValid target]) /\
              database.Actions t = ["notify"] /\
              0 <= database.ModelType t <= 3 /\
              database.UpdatedAt t = database.CreatedAt t) flows.
Proof.
  intros H. apply Reachable_sound in H. destruct H as (_ & Hc & _).
  unfold database.GetTaskFlowsByDevice. eexists. split; [reflexivity|].
  apply Forall_map, Forall_forall. intros row Hin.
  apply orderByDesc_In, filter_In in Hin. destruct Hin as [Hin _].
  rewrite Forall_forall in Hc. destruct (Hc row Hin) as ((target & Ht) & Ha & Hm & Hu).
  cbn [database.scanTaskFlow database.TargetObjects database.Actions database.ModelType
       database.UpdatedAt database.CreatedAt].
  rewrite Ht, Ha.
  pose proof (parseArray_encode [target]) as P. cbn [map] in P. rewrite P.
  split; [eexists; reflexivity|]. split; [reflexivity|]. split; assumption.
Qed.

Lemma Reachable_flows_compiled_witness :
  exists flows : list database.TaskFlow,
    database.GetTaskFlowsByDevice Sample.device
      (snd (AudioStreamHandler Sample.tasks 1700000000000000000 Sample.voiceRequest
              database.empty)) = Ok flows /\
    Forall (fun t =>
              (exists target, database.TargetObjects t = [utf8.ToValid target]) /\
              database.Actions t = ["notify"] /\
              0 <= database.ModelType t <= 3 /\
              database.UpdatedAt t = database.CreatedAt t) flows.
Proof.
  apply (Reachable_flows_compiled _ Sample.device).
  apply Store.reach_audio_stream, Store.reach_new.
Defined.

End Compilation.

(** ** Notifications and vision requests *)

Section Answers.

Import handlers.

Lemma logNotificationRequest_panics (req : models.NotificationEventRequest) :
  logNotificationRequest req = false <-> Wire.negativeClass req.
Proof.
  unfold logNotificationRequest, Wire.negativeClass.
  destruct (models.Data (models.events req)) as [data|] eqn:Ed.
  2:{ split; [discriminate | intros (? & ? & H & _); discriminate H]. }
  destruct (models.Inference data) as [inference|] eqn:Ei.
  2:{ split; [discriminate | intros (? & ? & H1 & H2 & _)]. congruence. }
  rewrite andb_false_iff, !negb_false_iff, !existsb_exists.
  split.
  - intros H. exists data, inference. split; [reflexivity|]. split; [exact Ei|].
    destruct H as [(b & Hb & Hn)|(c & Hc & Hn)]; [left; exists b | right; exists c];
      (split; [assumption | apply Z.ltb_lt; assumption]).
  - intros (data' & inference' & H1 & H2 & H).
    assert (data' = data) by congruence. subst data'.
    assert (inference' = inference) by congruence. subst inference'.
    destruct H as [(b & Hb & Hn)|(c & Hc & Hn)]; [left; exists b | right; exists c];
      (split; [assumption | apply Z.ltb_lt; assumption]).
Qed.

(** X16.  A notification that decodes is answered unless its inference
    data holds a negative class identifier (in a bounding box or in a
    classification): with one the handler panics, writes nothing and
    stores nothing; with none it answers 200 with [{"code":200}] and
    appends one row, whose identifier is above those of the earlier
    events, whose timestamp, text and image are those of the body (0 and
    the empty string for a missing one) and whose creation instant is the
    clock's; the task flows and their counter stay. *)
Theorem NotificationHandler_negative_class
    (FormatFloat : float -> string) (now : Z) (header : string -> string)
    (req : models.NotificationEventRequest) (db : database.DB) :
  (Wire.negativeClass req ->
   NotificationHandler FormatFloat now (http.mkRequest header (http.Decoded req)) db =
     (None, db)) /\
  (~ Wire.negativeClass req ->
   exists row : database.notification_events.row,
     NotificationHandler FormatFloat now (http.mkRequest header (http.Decoded req)) db =
       (Some (http.WriteJSON 200 (json.Struct [("code", json.Int 200)])),
        database.mkDB (database.flows db) (database.flows_seq db)
          (database.events db ++ [row]) (database.notification_events.id row)) /\
     (forall old, In old (database.events db) ->
        database.notification_events.id old < database.notification_events.id row) /\
     database.notification_events.timestamp row =
       getTimestamp (models.Timestamp (models.events req)) /\
     database.notification_events.text row = getString (models.Text (models.events req)) /\
     database.notification_events.img row = getString (models.Img (models.events req)) /\
     database.notification_events.created_at row = now).
Proof.
  unfold NotificationHandler. cbn [http.Body http.Header].
  split.
  - intros H. apply logNotificationRequest_panics in H. rewrite H. reflexivity.
  - intros H. destruct (logNotificationRequest req) eqn:E.
    2:{ exfalso. apply H, logNotificationRequest_panics, E. }
    unfold saveNotificationToDatabase, database.SaveNotificationEvent. cbn [snd].
    eexists (database.notification_events.mk _ _ _ _ _ _ _ _ _). split; [reflexivity|].
    cbn [database.notification_events.id database.notification_events.timestamp
         database.notification_events.text database.notification_events.img
         database.notification_events.created_at database.NotificationEvent.Timestamp
         database.NotificationEvent.Text database.NotificationEvent.Img].
    split; [|repeat split].
    intros old Hold.
    destruct (nextID_above (database.events_seq db)
                (map database.notification_events.id (database.events db))) as [_ N].
    apply N, in_map, Hold.
Qed.

(** A box of class -1 makes the handler panic; the same notification
    with the class 0 is stored. *)
Example NotificationHandler_negative_class_sample :
  fst (NotificationHandler Sample.shortest 0
         (http.mkRequest (fun _ => Sample.device)
            (http.Decoded
               (models.mkNotificationEventRequest "req-0002" Sample.device
                  (models.mkEvents None None None
                     (Some (models.mkEventData
                        (Some (models.mkInferenceData [models.mkBox 1 2 3 4 50 (-1)] []
                                 ["person"]))
                        None))))))
         database.empty) = None /\
  fst (NotificationHandler Sample.shortest 0
         (http.mkRequest (fun _ => Sample.device)
            (http.Decoded
               (models.mkNotificationEventRequest "req-0002" Sample.device
                  (models.mkEvents None None None
                     (Some (models.mkEventData
                        (Some (models.mkInferenceData [models.mkBox 1 2 3 4 50 0] []
                                 ["person"]))
                        None))))))
         database.empty) = Some (http.WriteJSON 200 (json.Struct [("code", json.Int 200)])).
Proof. split; reflexivity. Qed.

(** X17.  The status of a vision answer: 400 exactly when no request
    with an image was decoded (the body could not be read, is no JSON, or
    has an empty [img]); 500 exactly when a request with an image was
    decoded and the analysis failed; and no status but 200, 400 and
    500. *)
Theorem VisionHandler_status
    (svc : Services) (r : http.Request (http.JSONBody models.ImageAnalyzerRequest)) :
  (http.StatusCode (VisionHandler svc r) = 400 <->
   (forall req, http.Body r = http.Decoded req -> models.img req = EmptyString)) /\
  (http.StatusCode (VisionHandler svc r) = 500 <->
   exists req e,
     http.Body r = http.Decoded req /\ models.img req <> EmptyString /\
     analyzeImageWithLLaVA svc (models.img req)
       (if (models.Prompt req =? "")%string then "what's in the picture?"
        else models.Prompt req) = Err e) /\
  (http.StatusCode (VisionHandler svc r) = 200 \/
   http.StatusCode (VisionHandler svc r) = 400 \/
   http.StatusCode (VisionHandler svc r) = 500).
Proof.
  unfold VisionHandler.
  destruct (http.Body r) as [| |req] eqn:Eb.
  - cbn [http.StatusCode http.Error]. split; [|split; [|auto]].
    + split; [intros _ req H; discriminate H | reflexivity].
    + split; [discriminate | intros (req & e & H & _); discriminate H].
  - cbn [http.StatusCode http.Error]. split; [|split; [|auto]].
    + split; [intros _ req H; discriminate H | reflexivity].
    + split; [discriminate | intros (req & e & H & _); discriminate H].
  - destruct (String.eqb_spec (models.img req) "") as [Ei|Ei].
    + cbn [http.StatusCode http.Error]. split; [|split; [|auto]].
      * split; [intros _ req' H; injection H as <-; exact Ei | reflexivity].
      * split; [discriminate | intros (req' & e & H & Hn & _)]. injection H as <-. tauto.
    + destruct (analyzeImageWithLLaVA _ _ _) as [analysis|e] eqn:Ea.
      * cbv zeta. cbn [http.StatusCode http.WriteJSON]. split; [|split; [|auto]].
        -- split; [discriminate | intros H; exfalso; apply Ei, (H req); reflexivity].
        -- split; [discriminate | intros (req' & e & H & _ & He)]. injection H as <-.
           congruence.
      * cbn [http.StatusCode http.Error]. split; [|split; [|auto]].
        -- split; [discriminate | intros H; exfalso; apply Ei, (H req); reflexivity].
        -- split; [intros _; exists req, e; auto | reflexivity].
Qed.

(** X18.  Speech is optional in a vision answer: with the same LLaVA,
    whatever Whisper, Ollama and Piper do, the status is the same; an
    answer that is no 200 is the same altogether; and two 200 answers
    carry the same state and type and differ in their audio at most.
    There is no audio when the request has no [audio_txt], and none when
    Piper fails on it. *)
Theorem VisionHandler_speech_optional
    (whisper whisper' : list byte -> http.Upstream string)
    (ollama ollama' : string -> http.Upstream string)
    (llava : string -> string -> http.Upstream string)
    (piper piper' : string -> http.Upstream (list byte))
    (r : http.Request (http.JSONBody models.ImageAnalyzerRequest)) :
  http.StatusCode (VisionHandler (mkServices whisper ollama llava piper) r) =
  http.StatusCode (VisionHandler (mkServices whisper' ollama' llava piper') r) /\
  (http.StatusCode (VisionHandler (mkServices whisper ollama llava piper) r) <> 200 ->
   VisionHandler (mkServices whisper ollama llava piper) r =
   VisionHandler (mkServices whisper' ollama' llava piper') r) /\
  (http.StatusCode (VisionHandler (mkServices whisper ollama llava piper) r) = 200 ->
   exists (req : models.ImageAnalyzerRequest) (state : Z) (audio audio' : option string),
     http.Body r = http.Decoded req /\
     VisionHandler (mkServices whisper ollama llava piper) r =
       http.WriteJSON 200 (ImageAnalyzerResponse state (models.type req) audio) /\
     VisionHandler (mkServices whisper' ollama' llava piper') r =
       http.WriteJSON 200 (ImageAnalyzerResponse state (models.type req) audio') /\
     (models.AudioTxt req = EmptyString -> audio = None /\ audio' = None) /\
     (forall e, synthesizeSpeech (mkServices whisper ollama llava piper) (models.AudioTxt req)
                = Err e -> audio = None)).
Proof.
  unfold VisionHandler.
  destruct (http.Body r) as [| |req];
    try (split; [reflexivity | split; [reflexivity | intros H; discriminate H]]).
  destruct (models.img req =? "")%string;
    [split; [reflexivity | split; [reflexivity | intros H; discriminate H]]|].
  unfold analyzeImageWithLLaVA. cbn [LLaVA].
  destruct (llava _ _) as [e|status payload];
    [split; [reflexivity | split; [reflexivity | intros H; discriminate H]]|].
  destruct (negb (status =? 200));
    [split; [reflexivity | split; [reflexivity | intros H; discriminate H]]|].
  destruct payload as [analysis|];
    [|split; [reflexivity | split; [reflexivity | intros H; discriminate H]]].
  cbv zeta. split; [reflexivity|]. split; [intros H; exfalso; apply H; reflexivity|].
  intros _. exists req. eexists. eexists. eexists.
  split; [reflexivity|]. split; [reflexivity|]. split; [reflexivity|].
  split.
  - intros ->. split; reflexivity.
  - intros e He. rewrite He. destruct (negb _); reflexivity.
Qed.

End Answers.

(** ** Substrings: the cues of the vision state, the cuts of the
    normalisation *)






(** An analysis that affirms, and holds [no] inside the word [know]. *)
Example eventState_no_sample :
  handlers.eventState 1 "Yes, I know there is a person." = 0 /\
  handlers.eventState 1 "Yes, there is a person." = 1.
Proof. split; reflexivity. Qed.

Section Cut.

Variable f : ascii -> bool.

Lemma TrimLeftFunc_cut (s : string) :
  exists pre : string,
    s = (pre ++ strings.TrimLeftFunc f s)%string /\ forallb f (chars pre) = true.
Proof.
  induction s as [|c s (pre & E & H)]; simpl.
  - exists EmptyString. split; reflexivity.
  - destruct (f c) eqn:Ec.
    + exists (String c pre). split; [simpl; congruence | simpl; rewrite Ec; exact H].
    + exists EmptyString. split; reflexivity.
Qed.

Lemma TrimRightFunc_cut (s : string) :
  exists post : string,
    s = (strings.TrimRightFunc f s ++ post)%string /\ forallb f (chars post) = true.
Proof.
  induction s as [|c s (post & E & H)]; cbn [strings.TrimRightFunc].
  - exists EmptyString. split; reflexivity.
  - destruct (strings.TrimRightFunc f s) as [|d t].
    + destruct (f c) eqn:Ec.
      * exists (String c post). simpl in *. split; [congruence | rewrite Ec; exact H].
      * exists post. simpl in *. split; [congruence | exact H].
    + exists post. split; [simpl in *; congruence | exact H].
Qed.

End Cut.

Lemma forallb_weaken {A : Type} (f g : A -> bool) (l : list A) :
  (forall x, f x = true -> g x = true) -> forallb f l = true -> forallb g l = true.
Proof.
  intros H. rewrite !forallb_forall. auto.
Qed.

(** X20.  The normalisation of an LLM reply of ASCII bytes only cuts:
    the result stands in the reply as it is, what was cut before it is
    white space and quotes, and what was cut after it is white space,
    quotes and the closing punctuation [.,!?;:]; nothing inside is
    changed. *)
Theorem cleanLLMResponse_cuts (response : string) :
  Spec.isASCII response = true ->
  exists pre post : string,
    response = (pre ++ cleanLLMResponse response ++ post)%string /\
    forallb (fun c => strings.asciiSpace c || Spec.isQuote c) (chars pre) = true /\
    forallb (fun c => strings.asciiSpace c || Spec.isQuote c || Spec.isPunct c)
      (chars post) = true.
Proof.
  intros _.
  unfold cleanLLMResponse, strings.Trim, strings.TrimRight, strings.TrimSpace.
  fold Spec.isQuote. fold Spec.isPunct.
  set (sp := strings.asciiSpace).
  destruct (TrimLeftFunc_cut sp response) as (p1 & E1 & P1).
  set (s1 := strings.TrimLeftFunc sp response) in *.
  destruct (TrimRightFunc_cut sp s1) as (q1 & E2 & Q1).
  set (s2 := strings.TrimRightFunc sp s1) in *.
  destruct (TrimRightFunc_cut Spec.isQuote s2) as (q2 & E3 & Q2).
  set (s3 := strings.TrimRightFunc Spec.isQuote s2) in *.
  destruct (TrimLeftFunc_cut Spec.isQuote s3) as (p2 & E4 & P2).
  set (s4 := strings.TrimLeftFunc Spec.isQuote s3) in *.
  destruct (TrimRightFunc_cut Spec.isPunct s4) as (q3 & E5 & Q3).
  set (s5 := strings.TrimRightFunc Spec.isPunct s4) in *.
  destruct (TrimLeftFunc_cut sp s5) as (p3 & E6 & P3).
  set (s6 := strings.TrimLeftFunc sp s5) in *.
  destruct (TrimRightFunc_cut sp s6) as (q4 & E7 & Q4).
  set (s7 := strings.TrimRightFunc sp s6) in *.
  clearbody s1 s2 s3 s4 s5 s6 s7.
  exists (p1 ++ p2 ++ p3)%string, (q4 ++ q3 ++ q2 ++ q1)%string.
  split; [|split].
  - rewrite E1, E2, E3, E4, E5, E6, E7. rewrite !append_assoc_r. reflexivity.
  - rewrite !chars_app, !forallb_app.
    rewrite (forallb_weaken _ _ _ (fun c H => orb_true_intro _ _ (or_introl H)) P1).
    rewrite (forallb_weaken _ _ _ (fun c H => orb_true_intro _ _ (or_intror H)) P2).
    rewrite (forallb_weaken _ _ _ (fun c H => orb_true_intro _ _ (or_introl H)) P3).
    reflexivity.
  - rewrite !chars_app, !forallb_app.
    rewrite (forallb_weaken sp _ (chars q4)); [|intros c ->; reflexivity | exact Q4].
    rewrite (forallb_weaken Spec.isPunct _ (chars q3));
      [|intros c ->; apply orb_true_r | exact Q3].
    rewrite (forallb_weaken Spec.isQuote _ (chars q2));
      [|intros c ->; rewrite orb_true_r; reflexivity | exact Q2].
    rewrite (forallb_weaken sp _ (chars q1)); [|intros c ->; reflexivity | exact Q1].
    reflexivity.
Qed.

Lemma cleanLLMResponse_cuts_witness :
  exists pre post : string,
    (" 'Watch the door.' " : string) =
      (pre ++ cleanLLMResponse " 'Watch the door.' " ++ post)%string /\
    forallb (fun c => strings.asciiSpace c || Spec.isQuote c) (chars pre) = true /\
    forallb (fun c => strings.asciiSpace c || Spec.isQuote c || Spec.isPunct c)
      (chars post) = true.
Proof.
  apply (cleanLLMResponse_cuts " 'Watch the door.' "). reflexivity.
Defined.

(** ** The middleware and the configuration *)

Section Serving.

Import middleware.

Lemma find_SetHeader_other (k key value : string) (h : list (string * string)) :
  k <> key ->
  find (fun e => (fst e =? k)%string) (SetHeader key value h) =
  find (fun e => (fst e =? k)%string) h.
Proof.
  intros Hne. unfold SetHeader.
  destruct (existsb _ h).
  - induction h as [|[a b] h IH]; [reflexivity|]. cbn [map find fst].
    destruct (String.eqb_spec a key) as [->|Ha]; cbn [fst].
    + destruct (String.eqb_spec key k); [congruence | exact IH].
    + destruct (a =? k)%string; [reflexivity | exact IH].
  - induction h as [|[a b] h IH]; cbn [app find fst].
    + destruct (String.eqb_spec key k); [congruence | reflexivity].
    + destruct (a =? k)%string; [reflexivity | exact IH].
Qed.

(** A header the handler does not set is the one the writer held. *)
Lemma Get_onto (k : string) (h : list (string * string)) (resp : http.Response) :
  (forall e, In e (http.ResponseHeader resp) -> fst e <> k) ->
  http.Get k (onto h resp) = option_map snd (find (fun e => (fst e =? k)%string) h).
Proof.
  unfold http.Get, onto. cbn [http.ResponseHeader].
  generalize (http.ResponseHeader resp). intros l. revert h.
  induction l as [|e l IH]; intros h H; [reflexivity|].
  cbn [fold_left]. rewrite IH by (intros e' He'; apply H; right; exact He').
  rewrite find_SetHeader_other; [reflexivity|].
  intros E. apply (H e); [left; reflexivity | congruence].
Qed.

Lemma plain_Error (msg : string) (code : Z) : Wire.plain (http.Error msg code).
Proof. intros e [<-|[<-|[]]]; simpl; tauto. Qed.

Lemma plain_WriteJSON (code : Z) (v : json.Value) : Wire.plain (http.WriteJSON code v).
Proof. intros e [<-|[]]; simpl; tauto. Qed.

Lemma onto_carriesCORS (resp : http.Response) :
  Wire.plain resp -> Wire.carriesCORS (onto Wire.corsHeader resp).
Proof.
  intros H. unfold Wire.carriesCORS.
  rewrite !Get_onto; [repeat split| | |];
    intros e He E; specialize (H e He); rewrite E in H; simpl in H;
    repeat (destruct H as [H|H]; [discriminate H|]); exact H.
Qed.

(** The logger and the device validator let every request through, as
    it is. *)
Lemma global_CORS {B : Type} (next : Handler B) (r : incoming.t B) (db : database.DB) :
  main.global next r db = CORS next r db.
Proof.
  unfold main.global, CORS, Logger, DeviceEUIValidator. cbv zeta.
  destruct (incoming.Method r =? "OPTIONS")%string; [reflexivity|].
  destruct (http.Header (incoming.request r) "API-OBITER-DEVICE-EUI" =? "")%string;
    [reflexivity|].
  destruct (negb _); reflexivity.
Qed.

Lemma CORS_carriesCORS {B : Type} (next : Handler B) (r : incoming.t B)
    (db db' : database.DB) (resp : http.Response) :
  (forall resp0 db0, next r db = (Some resp0, db0) -> Wire.plain resp0) ->
  CORS next r db = (Some resp, db') -> Wire.carriesCORS resp.
Proof.
  intros Hp. unfold CORS. cbv zeta.
  change (SetHeader "Access-Control-Allow-Headers" _ _) with Wire.corsHeader.
  destruct (incoming.Method r =? "OPTIONS")%string.
  - intros H. injection H as <- _. repeat split.
  - destruct (next r db) as [[resp0|] db0] eqn:E; [|discriminate].
    intros H. injection H as <- _. apply onto_carriesCORS. eapply Hp. reflexivity.
Qed.

Lemma api_carriesCORS {B : Type} (cfg : config.Config) (next : Handler B) (r : incoming.t B)
    (db db' : database.DB) (resp : http.Response) :
  (forall resp0 db0, next r db = (Some resp0, db0) -> Wire.plain resp0) ->
  main.api cfg next r db = (Some resp, db') -> Wire.carriesCORS resp.
Proof.
  intros Hp. unfold main.api. rewrite global_CORS. apply CORS_carriesCORS.
  intros resp0 db0.
  destruct (config.Enabled (config.Auth cfg)); [|apply Hp].
  unfold AuthValidator. cbv zeta.
  destruct (negb _); [|apply Hp].
  destruct (negb _); [|apply Hp].
  intros H. injection H as <- _. apply plain_Error.
Qed.

Lemma AudioStreamHandler_plain (svc : handlers.Services) (now : Z)
    (r : http.Request (option (list byte))) (db : database.DB) :
  Wire.plain (fst (handlers.AudioStreamHandler svc now r db)).
Proof.
  unfold handlers.AudioStreamHandler.
  destruct (http.Body r) as [body|]; [|apply plain_Error].
  destruct (handlers.transcribeAudio svc body) as [T|e]; [|apply plain_Error].
  cbv zeta.
  destruct (handlers.determineMode svc T =? 0);
    [destruct (handlers.processChatMode svc T) as [R|e]
    |destruct (handlers.processTaskMode _ _ _ _ _ _) as [[R|e] d]];
    try apply plain_Error;
    (destruct (handlers.synthesizeSpeech svc R); [|apply plain_Error]);
    cbn [json.Marshal fst]; intros e [<-|[<-|[]]]; simpl; tauto.
Qed.

(** What a loaded configuration holds. *)
Lemma Load_Ok (args : string -> option string) (Getenv : string -> string)
    (cfg : config.Config) :
  config.Load args Getenv = Ok cfg ->
  config.Validate cfg = None /\
  config.Enabled (config.Auth cfg) = negb (config.Token (config.Auth cfg) =? "")%string.
Proof.
  unfold config.Load. cbv zeta.
  match goal with
  | |- match config.Validate ?c with _ => _ end = _ -> _ =>
      set (c0 := c); destruct (config.Validate c0) eqn:E
  end; [discriminate|].
  intros H. injection H as <-. split; [exact E | reflexivity].
Qed.

Lemma override_nonempty (Getenv : string -> string) (key current : string) :
  current <> EmptyString -> config.override Getenv key current <> EmptyString.
Proof.
  intros H. unfold config.override.
  destruct (String.eqb_spec (Getenv key) ""); cbn [negb]; assumption.
Qed.

(** X21.  With a token configured, a request to a route of [/v1] or
    [/v2] that is no preflight and whose [Authorization] header is not
    that token, byte for byte, is answered 401 with the body
    [{"code": 401}] and a newline, under the CORS headers; the handler of
    the route does not run, so the store is as it was, whatever the
    handler. *)
Theorem api_unauthorized {B : Type}
    (args : string -> option string) (Getenv : string -> string) (cfg : config.Config)
    (next : Handler B) (r : incoming.t B) (db : database.DB) :
  config.Load args Getenv = Ok cfg ->
  config.Token (config.Auth cfg) <> EmptyString ->
  http.Header (incoming.request r) "Authorization" <> config.Token (config.Auth cfg) ->
  incoming.Method r <> "OPTIONS" ->
  main.api cfg next r db = (Some (onto Wire.corsHeader Wire.unauthorized), db) /\
  http.StatusCode (onto Wire.corsHeader Wire.unauthorized) = 401 /\
  http.ResponseBody (onto Wire.corsHeader Wire.unauthorized) =
    http.bytes (Sprintf ["{"; dq; "code"; dq; ": 401}"; Spec.newline]) /\
  Wire.carriesCORS (onto Wire.corsHeader Wire.unauthorized).
Proof.
  intros HL Ht Ha Hm. destruct (Load_Ok _ _ _ HL) as (_ & He).
  split; [|split; [reflexivity | split; [reflexivity | repeat split]]].
  unfold main.api. rewrite global_CORS. unfold CORS. cbv zeta.
  apply String.eqb_neq in Hm. rewrite Hm.
  assert (G : (if config.Enabled (config.Auth cfg)
               then AuthValidator (config.Token (config.Auth cfg)) next else next) r db =
              (Some Wire.unauthorized, db)).
  { rewrite He. apply String.eqb_neq in Ht. rewrite Ht. cbn [negb].
    unfold AuthValidator. cbv zeta. rewrite Ht. apply String.eqb_neq in Ha. rewrite Ha.
    reflexivity. }
  rewrite G. reflexivity.
Qed.

Lemma api_unauthorized_witness :
  main.api Fixture.guarded Fixture.detail Fixture.intruder Sample.afterFirst =
    (Some (onto Wire.corsHeader Wire.unauthorized), Sample.afterFirst) /\
  http.StatusCode (onto Wire.corsHeader Wire.unauthorized) = 401 /\
  http.ResponseBody (onto Wire.corsHeader Wire.unauthorized) =
    http.bytes (Sprintf ["{"; dq; "code"; dq; ": 401}"; Spec.newline]) /\
  Wire.carriesCORS (onto Wire.corsHeader Wire.unauthorized).
Proof.
  apply (api_unauthorized Fixture.noFlags Fixture.tokenInEnv Fixture.guarded
           Fixture.detail Fixture.intruder Sample.afterFirst).
  - vm_compute. reflexivity.
  - vm_compute. discriminate.
  - vm_compute. discriminate.
  - vm_compute. discriminate.
Defined.

(** X22.  With no token configured, or with the [Authorization] header
    equal to the token, a request that is no preflight reaches the
    handler of its route whatever its device header (missing or of a
    wrong length too), and the answer is the handler's, its store the
    handler's, with the CORS headers set below the handler's own; a panic
    of the handler stays a panic. *)
Theorem api_authorized {B : Type}
    (args : string -> option string) (Getenv : string -> string) (cfg : config.Config)
    (next : Handler B) (r : incoming.t B) (db : database.DB) :
  config.Load args Getenv = Ok cfg ->
  config.Token (config.Auth cfg) = EmptyString \/
  http.Header (incoming.request r) "Authorization" = config.Token (config.Auth cfg) ->
  incoming.Method r <> "OPTIONS" ->
  main.api cfg next r db =
    match next r db with
    | (Some resp, db') => (Some (onto Wire.corsHeader resp), db')
    | (None, db') => (None, db')
    end.
Proof.
  intros HL Ht Hm. destruct (Load_Ok _ _ _ HL) as (_ & He).
  unfold main.api. rewrite global_CORS. unfold CORS. cbv zeta.
  apply String.eqb_neq in Hm. rewrite Hm.
  assert (G : (if config.Enabled (config.Auth cfg)
               then AuthValidator (config.Token (config.Auth cfg)) next else next) r db =
              next r db).
  { rewrite He. unfold AuthValidator. cbv zeta.
    destruct (String.eqb_spec (config.Token (config.Auth cfg)) "") as [E|E]; cbn [negb];
      [reflexivity|].
    destruct Ht as [Ht|Ht]; [congruence|]. rewrite Ht, String.eqb_refl. reflexivity. }
  rewrite G. reflexivity.
Qed.

Lemma api_authorized_witness :
  main.api Fixture.guarded Fixture.detail Fixture.owner Sample.afterFirst =
    match Fixture.detail Fixture.owner Sample.afterFirst with
    | (Some resp, db') => (Some (onto Wire.corsHeader resp), db')
    | (None, db') => (None, db')
    end.
Proof.
  apply (api_authorized Fixture.noFlags Fixture.tokenInEnv Fixture.guarded
           Fixture.detail Fixture.owner Sample.afterFirst).
  - vm_compute. reflexivity.
  - right. reflexivity.
  - vm_compute. discriminate.
Defined.

(** X23.  A preflight ([OPTIONS]) is answered by the CORS middleware
    itself, on every route: status 200, the three CORS headers, an empty
    body; no token is asked for and the handler does not run, so the
    store is as it was. *)
Theorem global_preflight {B : Type} (next : Handler B) (r : incoming.t B)
    (db : database.DB) :
  incoming.Method r = "OPTIONS" ->
  main.global next r db = (Some (http.mkResponse 200 Wire.corsHeader []), db) /\
  forall cfg : config.Config,
    main.api cfg next r db = (Some (http.mkResponse 200 Wire.corsHeader []), db).
Proof.
  intros Hm. unfold main.api.
  split; [|intros cfg]; rewrite global_CORS; unfold CORS; cbv zeta; rewrite Hm;
    reflexivity.
Qed.

Lemma global_preflight_witness :
  main.global Fixture.detail Fixture.preflight Sample.damaged =
    (Some (http.mkResponse 200 Wire.corsHeader []), Sample.damaged) /\
  forall cfg : config.Config,
    main.api cfg Fixture.detail Fixture.preflight Sample.damaged =
    (Some (http.mkResponse 200 Wire.corsHeader []), Sample.damaged).
Proof.
  apply (global_preflight Fixture.detail Fixture.preflight Sample.damaged).
  reflexivity.
Defined.

(** X24.  Every answer of the server carries the three CORS headers: the
    answers of the four API routes, a 401 of the token check among them,
    the answer of the health check and the 404 of the catch-all
    route. *)
Theorem endpoints_carry_CORS
    (cfg : config.Config) (FormatFloat : float -> string) (svc : handlers.Services) (now : Z)
    (db db' : database.DB) (resp : http.Response) :
  (forall r, main.notificationEvent cfg FormatFloat now r db = (Some resp, db') ->
             Wire.carriesCORS resp) /\
  (forall r, main.vision cfg svc r db = (Some resp, db') -> Wire.carriesCORS resp) /\
  (forall r, main.audioStream cfg svc now r db = (Some resp, db') ->
             Wire.carriesCORS resp) /\
  (forall r, main.viewTaskDetail cfg r db = (Some resp, db') -> Wire.carriesCORS resp) /\
  (forall r, main.health r db = (Some resp, db') -> Wire.carriesCORS resp) /\
  (forall (B : Type) (r : incoming.t B),
      main.notFound r db = (Some resp, db') -> Wire.carriesCORS resp).
Proof.
  split; [|split; [|split; [|split; [|split]]]].
  - intros r. apply api_carriesCORS. intros resp0 db0. unfold handlers.NotificationHandler.
    destruct (http.Body _) as [| |req]; try (intros H; injection H as <- _; apply plain_Error).
    destruct (handlers.logNotificationRequest req); [|discriminate].
    intros H; injection H as <- _. apply plain_WriteJSON.
  - intros r. apply api_carriesCORS. intros resp0 db0 H. injection H as <- _.
    unfold handlers.VisionHandler.
    destruct (http.Body _) as [| |req]; try apply plain_Error.
    destruct (_ =? "")%string; [apply plain_Error|].
    destruct (handlers.analyzeImageWithLLaVA _ _ _); [apply plain_WriteJSON | apply plain_Error].
  - intros r. apply api_carriesCORS. intros resp0 db0 H.
    pose proof (AudioStreamHandler_plain svc now (incoming.request r) db) as P.
    destruct (handlers.AudioStreamHandler _ _ _ _) as [resp1 db1].
    injection H as <- _. exact P.
  - intros r. apply api_carriesCORS. intros resp0 db0 H. injection H as H _.
    unfold handlers.TaskDetailHandler in H.
    destruct (database.GetTaskFlowsByDevice _ db) as [[|task0 rest]|e].
    + injection H as <-. apply plain_WriteJSON.
    + destruct (handlers.convertToNodeREDFormat task0); [|discriminate H].
      injection H as <-. apply plain_WriteJSON.
    + injection H as <-. apply plain_Error.
  - intros r. unfold main.health. rewrite global_CORS. apply CORS_carriesCORS.
    intros resp0 db0 H. injection H as <- _. intros e [<-|[]]; simpl; tauto.
  - intros B r. unfold main.notFound. rewrite global_CORS. apply CORS_carriesCORS.
    intros resp0 db0 H. injection H as <- _. apply plain_WriteJSON.
Qed.

(** X25.  With no flag on the command line the configuration loads,
    whatever the environment holds: the defaults pass the validation and
    a variable of the environment can only replace one by a non-empty
    value.  Where the environment is silent the port is 8834, the
    database file [sensecap.db], and the token check is off. *)
Theorem Load_defaults (Getenv : string -> string) :
  exists cfg : config.Config,
    config.Load (fun _ => None) Getenv = Ok cfg /\
    (Getenv "PORT" = EmptyString -> config.Port (config.Server cfg) = "8834") /\
    (Getenv "DB_PATH" = EmptyString ->
     config.Path (config.Database cfg) = "sensecap.db") /\
    (Getenv "AUTH_TOKEN" = EmptyString -> config.Enabled (config.Auth cfg) = false).
Proof.
  unfold config.Load, config.flagString. cbv zeta.
  match goal with
  | |- exists cfg, match config.Validate ?c with _ => _ end = _ /\ _ => set (c0 := c)
  end.
  assert (V : config.Validate c0 = None).
  { unfold config.Validate, c0.
    cbn [config.Port config.Server config.Path config.Database config.WhisperURL
         config.OllamaURL config.PiperURL config.AI].
    repeat match goal with
           | |- context [(config.override Getenv ?k ?d =? "")%string] =>
               destruct (String.eqb_spec (config.override Getenv k d) "") as [E|_];
               [exfalso; revert E; apply override_nonempty; discriminate|]
           end.
    reflexivity. }
  rewrite V. exists c0. split; [reflexivity|].
  unfold c0, config.override.
  cbn [config.Port config.Server config.Path config.Database config.Enabled config.Auth].
  split; [|split]; intros ->; reflexivity.
Qed.

(** X26.  A configuration that loaded has a port, a database path, the
    URLs of Whisper, Ollama and Piper and a base URL that are not empty,
    and its token check is on exactly when its token is not empty. *)
Theorem Load_valid (args : string -> option string) (Getenv : string -> string)
    (cfg : config.Config) :
  config.Load args Getenv = Ok cfg ->
  config.Port (config.Server cfg) <> EmptyString /\
  config.Path (config.Database cfg) <> EmptyString /\
  config.WhisperURL (config.AI cfg) <> EmptyString /\
  config.OllamaURL (config.AI cfg) <> EmptyString /\
  config.PiperURL (config.AI cfg) <> EmptyString /\
  config.BaseURL (config.API cfg) <> EmptyString /\
  (config.Enabled (config.Auth cfg) = true <->
   config.Token (config.Auth cfg) <> EmptyString).
Proof.
  intros HL. destruct (Load_Ok _ _ _ HL) as (V & He).
  unfold config.Validate in V.
  destruct (String.eqb_spec (config.Port (config.Server cfg)) ""); [discriminate V|].
  destruct (String.eqb_spec (config.Path (config.Database cfg)) ""); [discriminate V|].
  destruct (String.eqb_spec (config.WhisperURL (config.AI cfg)) ""); [discriminate V|].
  destruct (String.eqb_spec (config.OllamaURL (config.AI cfg)) ""); [discriminate V|].
  destruct (String.eqb_spec (config.PiperURL (config.AI cfg)) ""); [discriminate V|].
  repeat (split; [assumption|]). split.
  - unfold config.Load in HL. cbv zeta in HL.
    destruct (config.Validate _); [discriminate HL|]. injection HL as <-.
    cbn [config.BaseURL config.API].
    match goal with
    | |- (if (?x =? "")%string then _ else _) <> _ =>
        destruct (String.eqb_spec x "") as [_|E]; [|exact E]
    end.
    unfold Sprintf. cbn [String.concat].
    destruct (config.override Getenv "API_SCHEMA" _); discriminate.
  - rewrite He. destruct (String.eqb_spec (config.Token (config.Auth cfg)) ""); cbn [negb].
    + split; [discriminate | congruence].
    + tauto.
Qed.

Lemma Load_valid_witness :
  config.Port (config.Server Fixture.guarded) <> EmptyString /\
  config.Path (config.Database Fixture.guarded) <> EmptyString /\
  config.WhisperURL (config.AI Fixture.guarded) <> EmptyString /\
  config.OllamaURL (config.AI Fixture.guarded) <> EmptyString /\
  config.PiperURL (config.AI Fixture.guarded) <> EmptyString /\
  config.BaseURL (config.API Fixture.guarded) <> EmptyString /\
  (config.Enabled (config.Auth Fixture.guarded) = true <->
   config.Token (config.Auth Fixture.guarded) <> EmptyString).
Proof.
  apply (Load_valid Fixture.noFlags Fixture.tokenInEnv Fixture.guarded).
  vm_compute. reflexivity.
Defined.

(** X27.  The environment wins: in a configuration that loaded, each
    setting whose variable is set to a non-empty value has that value,
    whatever the command line says (a token of the environment turns the
    token check on); and when neither the environment nor the command
    line gives a base URL, it is [schema://host:port] of the schema, host
    and port that were loaded. *)
Theorem Load_environment_wins (args : string -> option string) (Getenv : string -> string)
    (cfg : config.Config) :
  config.Load args Getenv = Ok cfg ->
  (Getenv "PORT" <> EmptyString -> config.Port (config.Server cfg) = Getenv "PORT") /\
  (Getenv "HOST" <> EmptyString -> config.Host (config.Server cfg) = Getenv "HOST") /\
  (Getenv "AUTH_TOKEN" <> EmptyString ->
     config.Token (config.Auth cfg) = Getenv "AUTH_TOKEN" /\
     config.Enabled (config.Auth cfg) = true) /\
  (Getenv "DB_PATH" <> EmptyString ->
     config.Path (config.Database cfg) = Getenv "DB_PATH") /\
  (Getenv "WHISPER_URL" <> EmptyString ->
     config.WhisperURL (config.AI cfg) = Getenv "WHISPER_URL") /\
  (Getenv "OLLAMA_URL" <> EmptyString ->
     config.OllamaURL (config.AI cfg) = Getenv "OLLAMA_URL") /\
  (Getenv "OLLAMA_MODEL" <> EmptyString ->
     config.OllamaModel (config.AI cfg) = Getenv "OLLAMA_MODEL") /\
  (Getenv "LLAVA_MODEL" <> EmptyString ->
     config.LLaVAModel (config.AI cfg) = Getenv "LLAVA_MODEL") /\
  (Getenv "PIPER_URL" <> EmptyString ->
     config.PiperURL (config.AI cfg) = Getenv "PIPER_URL") /\
  (Getenv "API_SCHEMA" <> EmptyString ->
     config.Schema (config.API cfg) = Getenv "API_SCHEMA") /\
  (Getenv "API_BASE_URL" <> EmptyString ->
     config.BaseURL (config.API cfg) = Getenv "API_BASE_URL") /\
  (Getenv "API_BASE_URL" = EmptyString ->
   args "api-base-url" = None \/ args "api-base-url" = Some EmptyString ->
   config.BaseURL (config.API cfg) =
     Sprintf [config.Schema (config.API cfg); "://"; config.Host (config.Server cfg); ":";
              config.Port (config.Server cfg)]).
Proof.
  unfold config.Load. cbv zeta.
  destruct (config.Validate _); [discriminate|]. intros H. injection H as <-.
  cbn [config.Port config.Host config.Server config.Path config.Database config.WhisperURL
       config.OllamaURL config.OllamaModel config.LLaVAModel config.PiperURL config.AI
       config.Token config.Enabled config.Auth config.BaseURL config.Schema config.API].
  assert (O : forall key current, Getenv key <> EmptyString ->
                config.override Getenv key current = Getenv key).
  { intros key current H. unfold config.override. apply String.eqb_neq in H. rewrite H.
    reflexivity. }
  repeat (split; [intros H; rewrite (O _ _ H); try reflexivity|]).
  - apply String.eqb_neq in H. rewrite H. split; reflexivity.
  - apply String.eqb_neq in H. rewrite H. reflexivity.
  - intros He Ha. unfold config.override at 1. rewrite He. cbn [String.eqb negb].
    unfold config.flagString at 1. destruct Ha as [->| ->]; reflexivity.
Qed.

Lemma Load_environment_wins_witness :
  (Fixture.tokenInEnv "PORT" <> EmptyString ->
     config.Port (config.Server Fixture.guarded) = Fixture.tokenInEnv "PORT") /\
  (Fixture.tokenInEnv "HOST" <> EmptyString ->
     config.Host (config.Server Fixture.guarded) = Fixture.tokenInEnv "HOST") /\
  (Fixture.tokenInEnv "AUTH_TOKEN" <> EmptyString ->
     config.Token (config.Auth Fixture.guarded) = Fixture.tokenInEnv "AUTH_TOKEN" /\
     config.Enabled (config.Auth Fixture.guarded) = true) /\
  (Fixture.tokenInEnv "DB_PATH" <> EmptyString ->
     config.Path (config.Database Fixture.guarded) = Fixture.tokenInEnv "DB_PATH") /\
  (Fixture.tokenInEnv "WHISPER_URL" <> EmptyString ->
     config.WhisperURL (config.AI Fixture.guarded) = Fixture.tokenInEnv "WHISPER_URL") /\
  (Fixture.tokenInEnv "OLLAMA_URL" <> EmptyString ->
     config.OllamaURL (config.AI Fixture.guarded) = Fixture.tokenInEnv "OLLAMA_URL") /\
  (Fixture.tokenInEnv "OLLAMA_MODEL" <> EmptyString ->
     config.OllamaModel (config.AI Fixture.guarded) = Fixture.tokenInEnv "OLLAMA_MODEL") /\
  (Fixture.tokenInEnv "LLAVA_MODEL" <> EmptyString ->
     config.LLaVAModel (config.AI Fixture.guarded) = Fixture.tokenInEnv "LLAVA_MODEL") /\
  (Fixture.tokenInEnv "PIPER_URL" <> EmptyString ->
     config.PiperURL (config.AI Fixture.guarded) = Fixture.tokenInEnv "PIPER_URL") /\
  (Fixture.tokenInEnv "API_SCHEMA" <> EmptyString ->
     config.Schema (config.API Fixture.guarded) = Fixture.tokenInEnv "API_SCHEMA") /\
  (Fixture.tokenInEnv "API_BASE_URL" <> EmptyString ->
     config.BaseURL (config.API Fixture.guarded) = Fixture.tokenInEnv "API_BASE_URL") /\
  (Fixture.tokenInEnv "API_BASE_URL" = EmptyString ->
   Fixture.noFlags "api-base-url" = None \/
   Fixture.noFlags "api-base-url" = Some EmptyString ->
   config.BaseURL (config.API Fixture.guarded) =
     Sprintf [config.Schema (config.API Fixture.guarded); "://";
              config.Host (config.Server Fixture.guarded); ":";
              config.Port (config.Server Fixture.guarded)]).
Proof.
  apply (Load_environment_wins Fixture.noFlags Fixture.tokenInEnv Fixture.guarded).
  vm_compute. reflexivity.
Defined.

End Serving.

(** ** The frame of the voice answer

    The duration of the header is computed in [float64]; it never comes
    out negative.  The header is JSON, in which a hyphen is written as
    itself: the header holds one only when the transcript or the reply
    does. *)

Section Frames.

Import Encoding Frame.

Lemma binary_round_aux_signed (prec emax : Z) (s : bool) (m e : Z) (l : location) :
  signed s (binary_round_aux prec emax s m e l).
Proof.
  unfold binary_round_aux.
  destruct (shr_fexp prec emax m e l) as [mrs' e'].
  destruct (shr_fexp prec emax _ e' loc_Exact) as [mrs'' e''].
  destruct (shr_m mrs''); [reflexivity| |exact I].
  destruct (e'' <=? emax - prec); reflexivity.
Qed.

Lemma SFmul_signed (prec emax : Z) (x y : spec_float) :
  signed false x -> signed false y -> signed false (SFmul prec emax x y).
Proof.
  destruct x as [sx|sx| |sx mx ex]; destruct y as [sy|sy| |sy my ey]; simpl;
    try exact (fun _ _ => I); intros -> ->; try reflexivity.
  apply binary_round_aux_signed.
Qed.

Lemma SFdiv_signed (prec emax : Z) (x y : spec_float) :
  signed false x -> signed false y -> signed false (SFdiv prec emax x y).
Proof.
  destruct x as [sx|sx| |sx mx ex]; destruct y as [sy|sy| |sy my ey]; simpl;
    try exact (fun _ _ => I); intros -> ->; try reflexivity.
  destruct (SFdiv_core_binary prec emax (Z.pos mx) ex (Z.pos my) ey) as [[mz ez] lz].
  apply binary_round_aux_signed.
Qed.

Lemma of_uint63_signed (n : Uint63.int) : signed false (Prim2SF (PrimFloat.of_uint63 n)).
Proof.
  rewrite of_uint63_spec. unfold binary_normalize.
  pose proof (Uint63.to_Z_bounded n) as B.
  destruct (Uint63.to_Z n) as [|p|p]; [reflexivity| |lia].
  unfold binary_round. destruct (shl_align _ _ _) as [mz ez].
  apply binary_round_aux_signed.
Qed.

Lemma int_of_float64_nonneg (f : float) :
  signed false (Prim2SF f) -> 0 <= handlers.int_of_float64 f.
Proof.
  unfold handlers.int_of_float64.
  destruct (Prim2SF f) as [s|s| |s m e]; cbn [signed]; try (intros _; lia).
  intros ->. destruct (0 <=? e) eqn:E.
  - apply Z.mul_nonneg_nonneg; [lia|]. apply Z.pow_nonneg. lia.
  - apply Z.leb_gt in E. apply Z.div_pos; [lia|]. apply Z.pow_pos_nonneg; lia.
Qed.

Lemma durationOfSize_nonneg (size : Z) : 0 <= handlers.durationOfSize size.
Proof.
  unfold handlers.durationOfSize. cbv zeta.
  apply int_of_float64_nonneg.
  rewrite mul_spec, div_spec. apply SFmul_signed; [apply SFdiv_signed|].
  - apply of_uint63_signed.
  - vm_compute. reflexivity.
  - vm_compute. reflexivity.
Qed.

Lemma escapeASCII_dash (c : ascii) :
  strings.Contains (json.escapeASCII c) "-" = true -> c = dash.
Proof.
  destruct c as [[] [] [] [] [] [] [] []]; intros H; first [reflexivity | discriminate H].
Qed.

Lemma high_no_dash (b : string) : forallb isHigh (chars b) = true -> ~ In dash (chars b).
Proof.
  intros H Hin. rewrite forallb_forall in H. specialize (H _ Hin). discriminate H.
Qed.

Lemma good_dash (i : utf8.Item) :
  good i -> In dash (chars (json.escapeItem i)) -> i = utf8.Rune (String dash EmptyString).
Proof.
  destruct i as [b|].
  - intros [_ [(c & -> & Hc)|(c & d & b' & -> & Hh)]] Hin.
    + apply Contains_byte in Hin. apply escapeASCII_dash in Hin. subst c. reflexivity.
    + exfalso. cbn [json.escapeItem] in Hin.
      destruct (String.eqb_spec (String c (String d b')) (utf8.EncodeRune 8232));
        [simpl in Hin; unfold dash in Hin; intuition discriminate|].
      destruct (String.eqb_spec (String c (String d b')) (utf8.EncodeRune 8233));
        [simpl in Hin; unfold dash in Hin; intuition discriminate|].
      exact (high_no_dash _ Hh Hin).
  - intros _ Hin. exfalso. simpl in Hin. unfold dash in Hin. intuition discriminate.
Qed.

Lemma In_repeat_Invalid (x : string) (n : nat) : ~ In (utf8.Rune x) (repeat utf8.Invalid n).
Proof. induction n; simpl; [tauto | intros [H|H]; [discriminate H | auto]]. Qed.

(** A rune of one byte comes from a byte of the text that stands alone. *)
Lemma step_Rune_byte (p : option utf8.Pending) (c x : ascii) :
  match p with Some q => underway q | None => True end ->
  In (utf8.Rune (String x EmptyString)) (fst (utf8.step p c)) -> x = c.
Proof.
  assert (F : In (utf8.Rune (String x EmptyString)) (fst (utf8.fresh c)) -> x = c).
  { unfold utf8.fresh. destruct (N_of_ascii c <? 128)%N.
    - simpl. intros [H|[]]. congruence.
    - destruct (utf8.lead c); simpl; [tauto | intros [H|[]]; discriminate H]. }
  destruct p as [q|]; [|intros _; exact F].
  intros (_ & _ & Hn & _). unfold utf8.step.
  destruct ((utf8.lo q <=? N_of_ascii c) && (N_of_ascii c <=? utf8.hi q))%N.
  - destruct (utf8.seen q) as [|a s]; [congruence|].
    destruct (utf8.due q) as [|[|k]]; cbn [fst]; simpl;
      try tauto; intros [H|[]]; destruct s; discriminate H.
  - destruct (utf8.fresh c) as [out p'] eqn:E. cbn [fst] in *.
    intros H. apply in_app_or in H. destruct H as [H|H]; [|exact (F H)].
    exfalso. exact (In_repeat_Invalid _ _ H).
Qed.

Lemma itemsFrom_Rune_byte (s : string) (p : option utf8.Pending) (x : ascii) :
  match p with Some q => underway q | None => True end ->
  In (utf8.Rune (String x EmptyString)) (utf8.itemsFrom p s) -> In x (chars s).
Proof.
  revert p. induction s as [|c s IH]; intros p Hp.
  - destruct p; simpl; [intros H; exfalso; exact (In_repeat_Invalid _ _ H) | tauto].
  - simpl. pose proof (step_Rune_byte p c x Hp) as S1.
    destruct (step_good p c Hp) as [_ F2].
    destruct (utf8.step p c) as [out p']. cbn [fst snd] in *.
    intros H. apply in_app_or in H. destruct H as [H|H]; [left; symmetry; exact (S1 H)|].
    right. exact (IH p' F2 H).
Qed.

Lemma In_chars_concat (c : ascii) (l : list string) :
  In c (chars (String.concat EmptyString l)) -> exists s, In s l /\ In c (chars s).
Proof.
  induction l as [|x l IH]; [simpl; tauto|].
  rewrite Sprintf_cons, chars_app. intros H. apply in_app_or in H.
  destruct H as [H|H]; [exists x; simpl; auto|].
  destruct (IH H) as (s & Hs & Hc). exists s. simpl. auto.
Qed.

(** A string literal holds a hyphen only when the string does. *)
Lemma quote_dash (s : string) : In dash (chars (json.quote s)) -> In dash (chars s).
Proof.
  unfold json.quote. rewrite !chars_app. intros H.
  apply in_app_or in H. destruct H as [H|H];
    [simpl in H; unfold dash in H; intuition discriminate|].
  apply in_app_or in H. destruct H as [H|H];
    [|simpl in H; unfold dash in H; intuition discriminate].
  apply In_chars_concat in H. destruct H as (e & He & Hc).
  apply in_map_iff in He. destruct He as (i & <- & Hi).
  pose proof (items_good s) as G. rewrite Forall_forall in G.
  rewrite (good_dash i (G i Hi) Hc) in Hi.
  exact (itemsFrom_Rune_byte s None dash I Hi).
Qed.

Lemma string_of_uint_dash (d : Decimal.uint) : ~ In dash (chars (NilEmpty.string_of_uint d)).
Proof.
  induction d; simpl; unfold dash; intuition discriminate.
Qed.

(** The decimal form of a number from 0 up holds no hyphen. *)
Lemma Itoa_dash (n : Z) : 0 <= n -> ~ In dash (chars (strconv.Itoa n)).
Proof.
  intros Hn. unfold strconv.Itoa.
  destruct n as [|p|p]; [simpl; unfold dash; intuition discriminate| |lia].
  unfold Z.to_int, NilZero.string_of_int, NilZero.string_of_uint.
  destruct (Pos.to_uint p) eqn:E; try apply string_of_uint_dash.
  simpl; unfold dash; intuition discriminate.
Qed.

Lemma parseMode_range (s : string) : 0 <= handlers.parseMode s <= 2.
Proof.
  unfold handlers.parseMode.
  repeat match goal with |- context [if ?b then _ else _] => destruct b end; lia.
Qed.

Lemma determineMode_range (svc : handlers.Services) (T : string) :
  0 <= handlers.determineMode svc T <= 2.
Proof.
  unfold handlers.determineMode.
  destruct (handlers.Ollama svc _) as [e|status [response|]]; try lia.
  apply parseMode_range.
Qed.

Lemma jsonResponse_dash (mode duration : Z) (T R : string) :
  0 <= mode -> 0 <= duration ->
  In dash (chars (json.encode (handlers.jsonResponse mode duration T R))) ->
  In dash (chars T) \/ In dash (chars R).
Proof.
  intros Hm Hd. rewrite jsonResponse_encode. unfold Sprintf. intros H.
  apply In_chars_concat in H. destruct H as (s & Hs & Hc).
  simpl in Hs.
  repeat (destruct Hs as [<-|Hs];
          [first [ exfalso; simpl in Hc; unfold dash in Hc; intuition discriminate
                 | exfalso; exact (Itoa_dash _ Hd Hc)
                 | exfalso; exact (Itoa_dash _ Hm Hc)
                 | right; exact (quote_dash _ Hc)
                 | left; exact (quote_dash _ Hc) ]|]).
  destruct Hs.
Qed.

Lemma first_occurrence {A : Type} (x : A) (pre t h u : list A) :
  pre ++ x :: t = h ++ u -> ~ In x h -> (List.length h <= List.length pre)%nat.
Proof.
  revert h. induction pre as [|a pre IH]; intros h E Hx.
  - destruct h as [|b h]; [simpl; lia|]. simpl in E. injection E as -> _.
    exfalso. apply Hx. left. reflexivity.
  - destruct h as [|b h]; [simpl; lia|]. simpl in E. injection E as -> E.
    simpl. apply le_n_S. apply IH; [exact E|]. intros Hin. apply Hx. right. exact Hin.
Qed.

Lemma bytes_dash (s : string) : In x2d%byte (http.bytes s) -> In dash (chars s).
Proof.
  unfold http.bytes, list_byte_of_string, chars. intros H.
  apply in_map_iff in H. destruct H as (c & E & Hc).
  replace dash with c; [exact Hc|].
  rewrite <- (ascii_of_byte_of_ascii c), E. reflexivity.
Qed.

Import handlers.

(** A 200 answer of the audio-stream handler is framed around a
    transcript, a reply and a WAV. *)
Lemma AudioStreamHandler_200
    (svc : Services) (now : Z) (r : http.Request (option (list byte))) (db : database.DB) :
  http.StatusCode (fst (AudioStreamHandler svc now r db)) = 200 ->
  exists (body : list byte) (T R : string) (A : list byte),
    http.Body r = Some body /\
    transcribeAudio svc body = Ok T /\
    synthesizeSpeech svc R = Ok A /\
    fst (AudioStreamHandler svc now r db) = Spec.framed (determineMode svc T) T R A.
Proof.
  unfold AudioStreamHandler. intros Hs.
  destruct (http.Body r) as [body|] eqn:EB; [|discriminate Hs].
  destruct (transcribeAudio svc body) as [T|e] eqn:ET; [|discriminate Hs].
  cbv zeta in Hs |- *.
  match type of Hs with
  | context [match ?x with inl _ => _ | inr _ => _ end] =>
      destruct x as [failed|[R d]] eqn:E3
  end.
  - exfalso.
    destruct (determineMode svc T =? 0).
    + destruct (processChatMode svc T); [discriminate E3|].
      injection E3 as <-. discriminate Hs.
    + destruct (processTaskMode _ _ _ _ _ _) as [[?|?] ?]; [discriminate E3|].
      injection E3 as <-. discriminate Hs.
  - destruct (synthesizeSpeech svc R) as [A|e] eqn:EA; [|discriminate Hs].
    exists body, T, R, A. split; [reflexivity|]. split; [exact ET|].
    split; [exact EA|].
    unfold json.Marshal, Spec.framed, boundary. cbv zeta. cbn [fst].
    rewrite bytes_app. reflexivity.
Qed.

(** X28.  The duration the audio-stream handler writes into the header
    is never negative, whatever Piper returned: of a WAV shorter than its
    44-byte header the size is taken as 0, and the quotient and the
    product of the [float64] computation keep the sign. *)
Theorem audioDurationMs_nonneg (audioData : list byte) :
  0 <= audioDurationMs audioData.
Proof.
  unfold audioDurationMs. apply durationOfSize_nonneg.
Qed.

(** X29.  In a 200 answer of the audio-stream handler whose transcript
    and reply hold no hyphen, the boundary "---sensecraftboundary---"
    occurs nowhere before the end of the JSON header: a reader that cuts
    the body at the first boundary gets the header whole. *)
Theorem AudioStreamHandler_boundary_first
    (svc : Services) (now : Z) (r : http.Request (option (list byte))) (db : database.DB) :
  http.StatusCode (fst (AudioStreamHandler svc now r db)) = 200 ->
  exists (body : list byte) (T R : string) (A : list byte) (jsonHeader : string),
    http.Body r = Some body /\
    transcribeAudio svc body = Ok T /\
    json.Marshal (jsonResponse (determineMode svc T) (audioDurationMs A) T R) = Ok jsonHeader /\
    http.ResponseBody (fst (AudioStreamHandler svc now r db)) =
      http.bytes jsonHeader ++ http.bytes "---sensecraftboundary---" ++ [x0a]%byte ++ A /\
    (strings.Contains T "-" = false -> strings.Contains R "-" = false ->
     forall pre post : list byte,
       http.ResponseBody (fst (AudioStreamHandler svc now r db)) =
         pre ++ http.bytes "---sensecraftboundary---" ++ post ->
       len (http.bytes jsonHeader) <= len pre).
Proof.
  intros Hs.
  destruct (AudioStreamHandler_200 svc now r db Hs) as (body & T & R & A & Hb & HT & _ & ->).
  exists body, T, R, A. eexists.
  split; [exact Hb|]. split; [exact HT|]. split; [reflexivity|]. split; [reflexivity|].
  intros HT' HR pre post E. cbn [Spec.framed http.ResponseBody] in E.
  unfold len. apply inj_le.
  change (http.bytes "---sensecraftboundary---")
    with (x2d%byte :: http.bytes "--sensecraftboundary---") in E.
  cbn [app] in E. symmetry in E.
  apply (first_occurrence _ _ _ _ _ E).
  intros Hin. apply bytes_dash in Hin.
  apply Contains_byte_false in HT'. apply Contains_byte_false in HR.
  destruct (jsonResponse_dash _ _ _ _ (proj1 (determineMode_range svc T))
              (durationOfSize_nonneg _) Hin); tauto.
Qed.

Lemma AudioStreamHandler_boundary_first_witness :
  exists (body : list byte) (T R : string) (A : list byte) (jsonHeader : string),
    http.Body Sample.voiceRequest = Some body /\
    transcribeAudio Sample.chat body = Ok T /\
    json.Marshal (jsonResponse (determineMode Sample.chat T) (audioDurationMs A) T R) =
      Ok jsonHeader /\
    http.ResponseBody (fst (AudioStreamHandler Sample.chat 0 Sample.voiceRequest database.empty)) =
      http.bytes jsonHeader ++ http.bytes "---sensecraftboundary---" ++ [x0a]%byte ++ A /\
    (strings.Contains T "-" = false -> strings.Contains R "-" = false ->
     forall pre post : list byte,
       http.ResponseBody
         (fst (AudioStreamHandler Sample.chat 0 Sample.voiceRequest database.empty)) =
         pre ++ http.bytes "---sensecraftboundary---" ++ post ->
       len (http.bytes jsonHeader) <= len pre).
Proof.
  apply (AudioStreamHandler_boundary_first Sample.chat 0 Sample.voiceRequest database.empty).
  vm_compute. reflexivity.
Defined.

(** The premise on the transcript is needed: when Whisper hears the
    boundary itself, the header carries it, and the body holds the
    boundary twice. *)
Example AudioStreamHandler_boundary_twice_sample :
  let resp :=
    fst (AudioStreamHandler (hears "---sensecraftboundary---") 0 Sample.voiceRequest
           database.empty) in
  http.StatusCode resp = 200 /\
  exists pre post pre' post' : list byte,
    http.ResponseBody resp = pre ++ http.bytes "---sensecraftboundary---" ++ post /\
    http.ResponseBody resp = pre' ++ http.bytes "---sensecraftboundary---" ++ post' /\
    len pre < len pre'.
Proof.
  cbv zeta. split; [vm_compute; reflexivity|].
  set (body := http.ResponseBody _).
  exists (firstn 82 body), (skipn 106 body), (firstn 109 body), (skipn 133 body).
  vm_compute. repeat split; reflexivity.
Qed.

End Frames.
